(** * Sanctum AI stress report: a shallow embedding of
      [scripts/ai_stress_report.py] and the properties of its analysis
      pipeline.

    The Python program is dynamically typed; values that come from JSON
    documents (run summary, run metadata, model verdict, HTTP bodies) are
    embedded as the universal type [value], and an operation that Python
    would abort with an exception returns [Raise].  Structures the program
    builds itself with a fixed set of keys (check records, the rate-limit
    signal bundle, source health, highlights, the log payload) are records,
    each with its conversion to [value] for the places where the program
    stores them in a JSON document.

    Strings are byte strings holding UTF-8 text.  Character classes, case
    mapping and [str] iteration act on ASCII characters; text outside ASCII
    passes through unchanged. *)

From Stdlib Require Import ZArith List String Ascii Bool Lia.
From Stdlib Require Import Floats.SpecFloat.
Import ListNotations.
Local Open Scope string_scope.
Local Open Scope Z_scope.
Set Warnings "-register-all".

(* ===================================================================== *)
(** ** Exceptions *)
(* ===================================================================== *)

(** The Python exceptions the modelled code can raise.
    [TimestampOutOfRange] stands for the [ValueError], [OverflowError] or
    [OSError] that [datetime.fromtimestamp] raises, depending on magnitude
    and platform, for an instant outside years 1..9999. *)
Inductive exn : Type :=
| AttributeError
| TypeError
| ValueError
| OverflowError
| ZeroDivisionError
| TimestampOutOfRange.

Inductive result (A : Type) : Type :=
| Ok (a : A)
| Raise (e : exn).

Arguments Ok {A} a.
Arguments Raise {A} e.

Definition bind {A B : Type} (c : result A) (k : A -> result B) : result B :=
  match c with
  | Ok a => k a
  | Raise e => Raise e
  end.

Notation "x <- c ;; k" := (bind c (fun x => k))
  (at level 61, c at next level, right associativity).
Notation "' pat <- c ;; k" := (bind c (fun x => match x with pat => k end))
  (at level 61, pat pattern, c at next level, right associativity).

Definition is_ok {A : Type} (r : result A) : bool :=
  match r with Ok _ => true | Raise _ => false end.

(** [for x in xs: ...] with a body that may raise and threads an
    accumulator. *)
Fixpoint for_each {A S : Type} (xs : list A) (body : S -> A -> result S) (s : S)
  : result S :=
  match xs with
  | [] => Ok s
  | x :: r => s' <- body s x ;; for_each r body s'
  end.

(* ===================================================================== *)
(** ** Binary64 floating point *)
(* ===================================================================== *)

(** Python's [float] is IEEE 754 binary64; the operations are those of
    the Standard Library's executable specification. *)
Definition float : Type := spec_float.
Definition prec : Z := 53.
Definition emax : Z := 1024.

Definition fzero : float := S754_zero false.

Definition is_infinity (f : float) : bool :=
  match f with S754_infinity _ => true | _ => false end.

(** The float nearest to the integer [n] (ties to even); an infinity when
    [n] is beyond the finite range. *)
Definition round_Z (n : Z) : float := binary_normalize prec emax n 0 false.

(** The float nearest to [n / d] (ties to even), with sign [neg]. *)
Definition round_ratio (neg : bool) (n d : positive) : float :=
  let '(q, e, l) := SFdiv_core_binary prec emax (Zpos n) 0 (Zpos d) 0 in
  binary_round_aux prec emax neg q e l.

(** [float(n)] for an [int]. *)
Definition float_of_Z (n : Z) : result float :=
  let f := round_Z n in
  if is_infinity f then Raise OverflowError else Ok f.

(** [a / b] for two [int]s: the correctly rounded quotient. *)
Definition int_truediv (a b : Z) : result float :=
  match a, b with
  | _, Z0 => Raise ZeroDivisionError
  | Z0, _ => Ok (S754_zero (b <? 0))
  | Zpos p, Zpos q => let f := round_ratio false p q in
                      if is_infinity f then Raise OverflowError else Ok f
  | Zneg p, Zneg q => let f := round_ratio false p q in
                      if is_infinity f then Raise OverflowError else Ok f
  | Zpos p, Zneg q => let f := round_ratio true p q in
                      if is_infinity f then Raise OverflowError else Ok f
  | Zneg p, Zpos q => let f := round_ratio true p q in
                      if is_infinity f then Raise OverflowError else Ok f
  end.

(** The float nearest to [n * 10 ^ e10], with sign [neg]: the value of a
    decimal literal. *)
Definition decimal_to_float (neg : bool) (n : Z) (e10 : Z) : float :=
  match n with
  | Zpos p =>
      match e10 with
      | Zneg k => round_ratio neg p (Pos.pow 10 k)
      | _ => binary_normalize prec emax (if neg then - (n * 10 ^ e10) else n * 10 ^ e10)
               0 false
      end
  | _ => S754_zero neg
  end.

Definition float_lt (a b : float) : bool := SFltb a b.
Definition float_gt (a b : float) : bool := SFltb b a.
Definition float_mul (a b : float) : float := SFmul prec emax a b.
Definition float_add (a b : float) : float := SFadd prec emax a b.
Definition float_div (a b : float) : float := SFdiv prec emax a b.

(** [bool(x)] for a float: false exactly for the two zeros. *)
Definition float_truthy (f : float) : bool :=
  match f with S754_zero _ => false | _ => true end.

(** The float literals of the source. *)
Definition f_1_0 : float := Eval vm_compute in decimal_to_float false 1 0.
Definition f_0_20 : float := Eval vm_compute in decimal_to_float false 20 (-2).
Definition f_0_05 : float := Eval vm_compute in decimal_to_float false 5 (-2).
Definition f_0_08 : float := Eval vm_compute in decimal_to_float false 8 (-2).
Definition f_0_10 : float := Eval vm_compute in decimal_to_float false 10 (-2).
Definition f_0_12 : float := Eval vm_compute in decimal_to_float false 12 (-2).
Definition f_0_15 : float := Eval vm_compute in decimal_to_float false 15 (-2).
Definition f_0_35 : float := Eval vm_compute in decimal_to_float false 35 (-2).
Definition f_0_6 : float := Eval vm_compute in decimal_to_float false 6 (-1).
Definition f_100 : float := Eval vm_compute in decimal_to_float false 100 0.

(** A finite float as the exact dyadic [m * 2 ^ e]. *)
Definition dyadic (f : float) : option (Z * Z) :=
  match f with
  | S754_zero _ => Some (0, 0)
  | S754_finite s m e => Some (if s then Zneg m else Zpos m, e)
  | _ => None
  end.

(** Exact comparison of [m1 * 2 ^ e1] with [m2 * 2 ^ e2]. *)
Definition dyadic_compare (m1 e1 m2 e2 : Z) : comparison :=
  let e := Z.min e1 e2 in
  Z.compare (m1 * 2 ^ (e1 - e)) (m2 * 2 ^ (e2 - e)).

(** Round the rational [p / q] ([q > 0]) to the nearest integer, ties to
    even. *)
Definition round_half_even (p q : Z) : Z :=
  let d := p / q in
  let r := p mod q in
  match Z.compare (2 * r) q with
  | Lt => d
  | Gt => d + 1
  | Eq => if Z.even d then d else d + 1
  end.

(* ===================================================================== *)
(** ** Characters and strings *)
(* ===================================================================== *)

Definition code (c : ascii) : Z := Z.of_nat (nat_of_ascii c).
Definition chr (n : Z) : ascii := ascii_of_nat (Z.to_nat n).

(** One-character strings for the characters a literal cannot hold. *)
Definition dquote : string := String (chr 34) EmptyString.
Definition newline : string := String (chr 10) EmptyString.

Definition is_digit (c : ascii) : bool := (48 <=? code c) && (code c <=? 57).
Definition digit_val (c : ascii) : Z := code c - 48.

(** ASCII white space as [str.isspace] and the regular expression class
    [\s] have it: TAB..CR, FS..US and the space. *)
Definition is_space (c : ascii) : bool :=
  ((9 <=? code c) && (code c <=? 13)) || ((28 <=? code c) && (code c <=? 32)).

Definition upper_char (c : ascii) : ascii :=
  if (97 <=? code c) && (code c <=? 122) then chr (code c - 32) else c.
Definition lower_char (c : ascii) : ascii :=
  if (65 <=? code c) && (code c <=? 90) then chr (code c + 32) else c.

Fixpoint string_map (f : ascii -> ascii) (s : string) : string :=
  match s with
  | EmptyString => EmptyString
  | String c r => String (f c) (string_map f r)
  end.

(** [s.upper()] and [s.lower()]. *)
Definition upper (s : string) : string := string_map upper_char s.
Definition lower (s : string) : string := string_map lower_char s.

Fixpoint lstrip (s : string) : string :=
  match s with
  | String c r => if is_space c then lstrip r else s
  | EmptyString => EmptyString
  end.

Fixpoint rstrip (s : string) : string :=
  match s with
  | EmptyString => EmptyString
  | String c r =>
      match rstrip r with
      | EmptyString => if is_space c then EmptyString else String c EmptyString
      | r' => String c r'
      end
  end.

Definition strip (s : string) : string := lstrip (rstrip s).

(** [sep.join(parts)]. *)
Fixpoint join (sep : string) (parts : list string) : string :=
  match parts with
  | [] => EmptyString
  | [p] => p
  | p :: r => p ++ sep ++ join sep r
  end.

(** [needle in hay] for two strings. *)
Fixpoint contains (needle hay : string) : bool :=
  if prefix needle hay then true
  else match hay with
       | EmptyString => false
       | String _ r => contains needle r
       end.

Fixpoint repeat_string (s : string) (n : nat) : string :=
  match n with
  | O => EmptyString
  | S k => s ++ repeat_string s k
  end.

Definition zeros (n : Z) : string := repeat_string "0" (Z.to_nat n).

(** [s[:n]] and [s[n:]] for [n >= 0]. *)
Fixpoint take (n : nat) (s : string) : string :=
  match n, s with
  | S k, String c r => String c (take k r)
  | _, _ => EmptyString
  end.

Fixpoint drop (n : nat) (s : string) : string :=
  match n, s with
  | S k, String _ r => drop k r
  | _, _ => s
  end.

Definition slen (s : string) : Z := Z.of_nat (String.length s).

(** [html.escape(s)] with its default [quote=True]. *)
Fixpoint html_escape (s : string) : string :=
  match s with
  | EmptyString => EmptyString
  | String c r =>
      (if code c =? 38 then "&amp;"
       else if code c =? 60 then "&lt;"
       else if code c =? 62 then "&gt;"
       else if code c =? 34 then "&quot;"
       else if code c =? 39 then "&#x27;"
       else String c EmptyString) ++ html_escape r
  end.

(* ===================================================================== *)
(** ** Numbers as text *)
(* ===================================================================== *)

(** The decimal digits of [n >= 0], most significant first. *)
Fixpoint digits_aux (fuel : nat) (n : Z) (acc : string) : string :=
  match fuel with
  | O => acc
  | S f =>
      let acc' := String (chr (48 + n mod 10)) acc in
      if n <? 10 then acc' else digits_aux f (n / 10) acc'
  end.

Definition digits_of (n : Z) : string :=
  digits_aux (S (Z.to_nat (Z.log2 n))) n EmptyString.

(** [str(n)] for an [int]. *)
Definition int_str (n : Z) : string :=
  if n <? 0 then "-" ++ digits_of (- n) else digits_of n.

(** The value of a string of decimal digits. *)
Fixpoint digits_value (s : string) (acc : Z) : Z :=
  match s with
  | EmptyString => acc
  | String c r => digits_value r (10 * acc + digit_val c)
  end.

(** [n] as at least [w] decimal digits, zero-padded on the left. *)
Definition pad_digits (w : Z) (n : Z) : string :=
  let d := digits_of n in zeros (w - slen d) ++ d.

(** The fixed-point text of the non-negative rational [p / q] with
    [d] digits after the point, correctly rounded (ties to even), as the
    presentation type ['f'] prints a float's exact value. *)
Definition fixed_digits (d : Z) (p q : Z) : string :=
  let n := round_half_even (p * 10 ^ d) q in
  let s := pad_digits (d + 1) n in
  let k := Z.to_nat (slen s - d) in
  if d =? 0 then s else take k s ++ "." ++ drop k s.

(** [format(x, '.<d>f')] for a float. *)
Definition format_f (d : Z) (x : float) : string :=
  match x with
  | S754_nan => "nan"
  | S754_infinity s => if s then "-inf" else "inf"
  | S754_zero s => (if s then "-" else "") ++ fixed_digits d 0 1
  | S754_finite s m e =>
      (if s then "-" else "") ++
      (if 0 <=? e then fixed_digits d (Zpos m * 2 ^ e) 1
       else fixed_digits d (Zpos m) (2 ^ (- e)))
  end.

(** [format(x, '.<d>%')]: the float is multiplied by 100 in binary64,
    printed as with ['f'] and followed by a percent sign. *)
Definition format_pct (d : Z) (x : float) : string :=
  format_f d (float_mul x f_100) ++ "%".

(** The decimal exponent of the positive rational [p / q]: the [k] with
    [10 ^ (k - 1) <= p / q < 10 ^ k]. *)
Fixpoint scale_up (fuel : nat) (p q : Z) (j : Z) : Z :=
  match fuel with
  | O => j
  | S f => if q <=? p then j else scale_up f (10 * p) q (j + 1)
  end.

Definition decimal_exponent (p q : Z) : Z :=
  if q <=? p then slen (digits_of (p / q))
  else 1 - scale_up 400 (10 * p) q 1.

Definition float_eqb (a b : float) : bool := SFeqb a b.

(** Candidates with [n] significant digits for the shortest text that
    reads back as [x = p / q]: the two [n]-digit decimals around [x], the
    nearer first when both read back. Returns the digits as an integer
    together with its power of ten. *)
Definition shortest_at (x : float) (p q : Z) (k : Z) (n : Z) : option (Z * Z) :=
  let e10 := k - n in
  let num := if 0 <=? e10 then p else p * 10 ^ (- e10) in
  let den := if 0 <=? e10 then q * 10 ^ e10 else q in
  let lo := num / den in
  let r := num mod den in
  let hi := lo + 1 in
  let ok_lo := float_eqb (decimal_to_float false lo e10) x in
  let ok_hi := float_eqb (decimal_to_float false hi e10) x in
  if r =? 0 then (if ok_lo then Some (lo, e10) else None)
  else
    match ok_lo, ok_hi with
    | true, true =>
        match Z.compare (2 * r) den with
        | Lt => Some (lo, e10)
        | Gt => Some (hi, e10)
        | Eq => Some (if Z.even lo then lo else hi, e10)
        end
    | true, false => Some (lo, e10)
    | false, true => Some (hi, e10)
    | false, false => None
    end.

Fixpoint shortest_from (fuel : nat) (x : float) (p q k n : Z) : Z * Z :=
  match fuel with
  | O => (round_half_even (p * 10 ^ 400) q, -400)
  | S f =>
      match shortest_at x p q k n with
      | Some r => r
      | None => shortest_from f x p q k (n + 1)
      end
  end.

Fixpoint strip_trailing_zeros (s : string) : string :=
  match s with
  | EmptyString => EmptyString
  | String c r =>
      match strip_trailing_zeros r with
      | EmptyString => if code c =? 48 then EmptyString else String c EmptyString
      | r' => String c r'
      end
  end.

(** The text of a positive float from its shortest digits [ds] and the
    position [decpt] of the decimal point, laid out as [repr] does:
    exponent notation when [decpt <= -4] or [decpt > 16]. *)
Definition layout_repr (ds : string) (decpt : Z) : string :=
  let nd := slen ds in
  if (decpt <=? -4) || (16 <? decpt) then
    let e := decpt - 1 in
    take 1 ds ++ (if 1 <? nd then "." ++ drop 1 ds else "") ++ "e" ++
    (if e <? 0 then "-" else "+") ++ pad_digits 2 (Z.abs e)
  else if decpt <=? 0 then "0." ++ zeros (- decpt) ++ ds
  else if nd <=? decpt then ds ++ zeros (decpt - nd) ++ ".0"
  else take (Z.to_nat decpt) ds ++ "." ++ drop (Z.to_nat decpt) ds.

(** [repr(x)] (and so [str(x)] and [format(x, '')]) for a float: the
    shortest decimal text that reads back as [x]. *)
Definition float_repr (x : float) : string :=
  match x with
  | S754_nan => "nan"
  | S754_infinity s => if s then "-inf" else "inf"
  | S754_zero s => if s then "-0.0" else "0.0"
  | S754_finite s m e =>
      let ax := S754_finite false m e in
      let p := if 0 <=? e then Zpos m * 2 ^ e else Zpos m in
      let q := if 0 <=? e then 1 else 2 ^ (- e) in
      let k := decimal_exponent p q in
      let '(c, e10) := shortest_from 17 ax p q k 1 in
      let all := digits_of c in
      (if s then "-" else "") ++
      layout_repr (strip_trailing_zeros all) (slen all + e10)
  end.

(** *** Reading a float from text: [float(s)] for a string *)

(** Underscores may stand only between two digits; they are removed. *)
Fixpoint drop_underscores (prev : ascii) (s : string) : option string :=
  match s with
  | EmptyString => if code prev =? 95 then None else Some EmptyString
  | String c r =>
      if code c =? 95 then
        if is_digit prev then drop_underscores c r else None
      else if (code prev =? 95) && negb (is_digit c) then None
      else match drop_underscores c r with
           | Some r' => Some (String c r')
           | None => None
           end
  end.

(** The longest prefix of decimal digits, and the rest. *)
Fixpoint span_digits (s : string) : string * string :=
  match s with
  | String c r =>
      if is_digit c then let '(d, t) := span_digits r in (String c d, t)
      else (EmptyString, s)
  | EmptyString => (EmptyString, EmptyString)
  end.

Definition split_sign (s : string) : bool * string :=
  match s with
  | String c r =>
      if code c =? 45 then (true, r)
      else if code c =? 43 then (false, r)
      else (false, s)
  | EmptyString => (false, s)
  end.

(** The exponent part: empty, or [e] or [E], an optional sign and at
    least one digit, up to the end of the text. *)
Definition parse_exponent (s : string) : option Z :=
  match s with
  | EmptyString => Some 0
  | String c r =>
      if (code c =? 101) || (code c =? 69) then
        let '(neg, r1) := split_sign r in
        match span_digits r1 with
        | (String d ds, EmptyString) =>
            let v := digits_value (String d ds) 0 in
            Some (if neg then - v else v)
        | _ => None
        end
      else None
  end.

Definition float_of_string (s : string) : result float :=
  match drop_underscores (chr 0) (strip s) with
  | None => Raise ValueError
  | Some t =>
      let '(neg, body) := split_sign t in
      let lb := lower body in
      if String.eqb lb "inf" || String.eqb lb "infinity" then Ok (S754_infinity neg)
      else if String.eqb lb "nan" then Ok S754_nan
      else
        let '(ip, r1) := span_digits body in
        let '(fp, r2) :=
          match r1 with
          | String c r => if code c =? 46 then span_digits r else (EmptyString, r1)
          | EmptyString => (EmptyString, r1)
          end in
        if (slen ip + slen fp =? 0) then Raise ValueError
        else
          match parse_exponent r2 with
          | None => Raise ValueError
          | Some ex =>
              Ok (decimal_to_float neg (digits_value (ip ++ fp) 0) (ex - slen fp))
          end
  end.

(* ===================================================================== *)
(** ** Python values *)
(* ===================================================================== *)

(** What [json.loads] produces, and so what the program reads from its
    inputs: [None], [bool], [int], [float], [str], [list] and [dict] with
    string keys in insertion order. *)
Inductive value : Type :=
| VNone
| VBool (b : bool)
| VInt (n : Z)
| VFloat (f : float)
| VStr (s : string)
| VList (l : list value)
| VDict (d : list (string * value)).

(** Insertion-ordered maps with string keys: lookup finds the entry of a
    key, assignment replaces it in place or appends a new one. *)
Fixpoint assoc_get {A : Type} (d : list (string * A)) (k : string) : option A :=
  match d with
  | [] => None
  | (k', v) :: r => if String.eqb k' k then Some v else assoc_get r k
  end.

Fixpoint assoc_set {A : Type} (d : list (string * A)) (k : string) (v : A)
  : list (string * A) :=
  match d with
  | [] => [(k, v)]
  | (k', v') :: r =>
      if String.eqb k' k then (k', v) :: r else (k', v') :: assoc_set r k v
  end.

Definition dict : Type := list (string * value).

(** [d.get(k)] and [d.get(k, default)] on a [dict]. *)
Definition dict_get (d : dict) (k : string) : value :=
  match assoc_get d k with Some v => v | None => VNone end.

Definition dict_get_or (d : dict) (k : string) (default : value) : value :=
  match assoc_get d k with Some v => v | None => default end.

(** [d.setdefault(k, default)]: the dictionary afterwards. *)
Definition dict_setdefault (d : dict) (k : string) (default : value) : dict :=
  match assoc_get d k with Some _ => d | None => assoc_set d k default end.

(** [x.get(k)] and [x.get(k, default)] on any value: only a [dict] has
    the method. *)
Definition get (x : value) (k : string) : result value :=
  match x with
  | VDict d => Ok (dict_get d k)
  | _ => Raise AttributeError
  end.

Definition get_or (x : value) (k : string) (default : value) : result value :=
  match x with
  | VDict d => Ok (dict_get_or d k default)
  | _ => Raise AttributeError
  end.

Definition is_none (v : value) : bool :=
  match v with VNone => true | _ => false end.

Definition isinstance_dict (v : value) : bool :=
  match v with VDict _ => true | _ => false end.

(** [isinstance(v, (int, float))]; [bool] is a subclass of [int]. *)
Definition isinstance_number (v : value) : bool :=
  match v with VBool _ | VInt _ | VFloat _ => true | _ => false end.

(** [bool(v)]. *)
Definition truthy (v : value) : bool :=
  match v with
  | VNone => false
  | VBool b => b
  | VInt n => negb (n =? 0)
  | VFloat f => float_truthy f
  | VStr s => negb (String.eqb s EmptyString)
  | VList l => match l with [] => false | _ => true end
  | VDict d => match d with [] => false | _ => true end
  end.

(** [a or b] when evaluating [b] cannot raise. *)
Definition py_or (a b : value) : value := if truthy a then a else b.

(** The integer an [int] or [bool] stands for. *)
Definition as_int (v : value) : option Z :=
  match v with
  | VBool b => Some (if b then 1 else 0)
  | VInt n => Some n
  | _ => None
  end.

(** [a + b]. *)
Definition py_add (a b : value) : result value :=
  match as_int a, as_int b with
  | Some x, Some y => Ok (VInt (x + y))
  | _, _ =>
      match a, b with
      | VFloat x, VFloat y => Ok (VFloat (float_add x y))
      | VFloat x, _ =>
          match as_int b with
          | Some y => fy <- float_of_Z y ;; Ok (VFloat (float_add x fy))
          | None => Raise TypeError
          end
      | _, VFloat y =>
          match as_int a with
          | Some x => fx <- float_of_Z x ;; Ok (VFloat (float_add fx y))
          | None => Raise TypeError
          end
      | VStr x, VStr y => Ok (VStr (x ++ y))
      | VList x, VList y => Ok (VList (x ++ y)%list)
      | _, _ => Raise TypeError
      end
  end.

Definition float_truediv (x y : float) : result float :=
  if float_truthy y then Ok (float_div x y) else Raise ZeroDivisionError.

(** [a / b]: defined on numbers only, and always a float. *)
Definition py_truediv (a b : value) : result float :=
  match as_int a, as_int b with
  | Some x, Some y => int_truediv x y
  | _, _ =>
      match a, b with
      | VFloat x, VFloat y => float_truediv x y
      | VFloat x, _ =>
          match as_int b with
          | Some y => fy <- float_of_Z y ;; float_truediv x fy
          | None => Raise TypeError
          end
      | _, VFloat y =>
          match as_int a with
          | Some x => fx <- float_of_Z x ;; float_truediv fx y
          | None => Raise TypeError
          end
      | _, _ => Raise TypeError
      end
  end.

(** [float(v)]. *)
Definition py_float (v : value) : result float :=
  match v with
  | VBool b => Ok (if b then f_1_0 else fzero)
  | VInt n => float_of_Z n
  | VFloat f => Ok f
  | VStr s => float_of_string s
  | _ => Raise TypeError
  end.

(** The one-character strings of [s]. *)
Fixpoint chars (s : string) : list value :=
  match s with
  | EmptyString => []
  | String c r => VStr (String c EmptyString) :: chars r
  end.

(** The items a [for] loop or [list(v)] takes from [v]. *)
Definition py_iter (v : value) : result (list value) :=
  match v with
  | VList l => Ok l
  | VStr s => Ok (chars s)
  | VDict d => Ok (map (fun kv => VStr (fst kv)) d)
  | _ => Raise TypeError
  end.

(** [len(v)]. *)
Definition py_len (v : value) : result Z :=
  match v with
  | VList l => Ok (Z.of_nat (List.length l))
  | VStr s => Ok (slen s)
  | VDict d => Ok (Z.of_nat (List.length d))
  | _ => Raise TypeError
  end.

(** *** [str] and [repr] *)

Definition hex_digit (n : Z) : ascii :=
  if n <? 10 then chr (48 + n) else chr (87 + n).

Fixpoint escape_chars (quote : Z) (s : string) : string :=
  match s with
  | EmptyString => EmptyString
  | String c r =>
      (if code c =? 92 then "\\"
       else if code c =? quote then String (chr 92) (String c EmptyString)
       else if code c =? 10 then "\n"
       else if code c =? 13 then "\r"
       else if code c =? 9 then "\t"
       else if (code c <? 32) || (code c =? 127) then
         "\x" ++ String (hex_digit (code c / 16))
                   (String (hex_digit (code c mod 16)) EmptyString)
       else String c EmptyString) ++ escape_chars quote r
  end.

(** [repr(s)] for a string: single quotes unless the text holds a single
    quote and no double quote. *)
Definition str_repr (s : string) : string :=
  let apostrophe := String (chr 39) EmptyString in
  if contains apostrophe s && negb (contains dquote s)
  then dquote ++ escape_chars 34 s ++ dquote
  else apostrophe ++ escape_chars 39 s ++ apostrophe.

Fixpoint py_repr (v : value) : string :=
  match v with
  | VNone => "None"
  | VBool b => if b then "True" else "False"
  | VInt n => int_str n
  | VFloat f => float_repr f
  | VStr s => str_repr s
  | VList l => "[" ++ join ", " (map py_repr l) ++ "]"
  | VDict d =>
      "{" ++ join ", "
               (map (fun kv => match kv with
                               | (k, x) => str_repr k ++ ": " ++ py_repr x
                               end) d) ++ "}"
  end.

(** [str(v)], which is also what [f"{v}"] inserts. *)
Definition py_str (v : value) : string :=
  match v with
  | VStr s => s
  | _ => py_repr v
  end.

(** [html.escape(v)]: the argument must be a string. *)
Definition py_html_escape (v : value) : result string :=
  match v with
  | VStr s => Ok (html_escape s)
  | _ => Raise AttributeError
  end.

(** [f"{v:.<d>f}"] and [f"{v:.<d>%}"] on any value. A string refuses the
    format code with [ValueError]; [None] and containers refuse any
    format specification with [TypeError]. *)
Definition py_format_f (d : Z) (v : value) : result string :=
  match v with
  | VFloat f => Ok (format_f d f)
  | VInt _ | VBool _ => f <- py_float v ;; Ok (format_f d f)
  | VStr _ => Raise ValueError
  | _ => Raise TypeError
  end.

Definition py_format_pct (d : Z) (v : value) : result string :=
  match v with
  | VFloat f => Ok (format_pct d f)
  | VInt _ | VBool _ => f <- py_float v ;; Ok (format_pct d f)
  | VStr _ => Raise ValueError
  | _ => Raise TypeError
  end.

(* ===================================================================== *)
(** ** Static registries *)
(* ===================================================================== *)

(** Canonical write-heavy checks (used for rate-limit severity). *)
Definition CANONICAL_WRITE_CHECKS : list string :=
  [ "create post status 201";
    "comment status ok";
    "friend request status acceptable";
    "dm send status acceptable" ].

(** Profile default failure-rate thresholds when not in the summary. *)
Definition PROFILE_FAILURE_THRESHOLDS : list (string * float) :=
  [ ("low", f_0_05); ("medium", f_0_08); ("high", f_0_10);
    ("extreme", f_0_12); ("insane", f_0_15) ].

(** [PROFILE_FAILURE_THRESHOLDS.get(profile, 0.08)]. A list or a
    dictionary cannot be hashed, so the lookup raises on them. *)
Definition profile_default_threshold (profile : value) : result float :=
  match profile with
  | VStr p =>
      Ok (match assoc_get PROFILE_FAILURE_THRESHOLDS p with
          | Some t => t
          | None => f_0_08
          end)
  | VList _ | VDict _ => Raise TypeError
  | _ => Ok f_0_08
  end.

(* ===================================================================== *)
(** ** Signal Extractor: [extract_k6_highlights] *)
(* ===================================================================== *)

Module Highlights.
Record t : Type := mk {
  http_req_duration_p95_ms : option float;
  http_req_failed_rate : option float;
  checks_pass_rate : option float;
  iterations : option float;
  vus_max : option float
}.
End Highlights.

(** The inner function [metric_value] of [extract_k6_highlights];
    [metrics] is the variable it closes over. *)
Definition metric_value (metrics : value) (metric_name field : string)
  : result (option float) :=
  metric <- get_or metrics metric_name (VDict []) ;;
  values <- get metric "values" ;;
  value0 <- (if isinstance_dict values then get values field else Ok VNone) ;;
  value1 <- (if is_none value0 && isinstance_dict metric
             then get metric field else Ok value0) ;;
  if isinstance_number value1
  then f <- py_float value1 ;; Ok (Some f)
  else Ok None.

(** [a or b] for two optional floats, [b] evaluated only when [a] is
    [None] or zero. *)
Definition or_else (a : option float) (b : result (option float))
  : result (option float) :=
  match a with
  | Some f => if float_truthy f then Ok a else b
  | None => b
  end.

Definition extract_k6_highlights (summary : value) : result Highlights.t :=
  let metrics :=
    match summary with
    | VDict d => dict_get_or d "metrics" (VDict [])
    | _ => VDict []
    end in
  p95 <- metric_value metrics "http_req_duration" "p(95)" ;;
  failed_rate0 <- metric_value metrics "http_req_failed" "rate" ;;
  failed_rate <- or_else failed_rate0 (metric_value metrics "http_req_failed" "value") ;;
  checks0 <- metric_value metrics "checks" "rate" ;;
  checks <- or_else checks0 (metric_value metrics "checks" "value") ;;
  iters <- metric_value metrics "iterations" "count" ;;
  vus <- metric_value metrics "vus_max" "value" ;;
  Ok (Highlights.mk p95 failed_rate checks iters vus).

(* ===================================================================== *)
(** ** Threshold resolution: [_parse_failure_threshold_from_summary] *)
(* ===================================================================== *)

(** The regular expression [rate\s*<\s*([\d.]+)] with [re.IGNORECASE].
    Each of its pieces can match in one way only (white space, [<] and
    the digit-or-dot class are disjoint), so a match at a position is
    found without backtracking. *)
Definition is_digit_or_dot (c : ascii) : bool := is_digit c || (code c =? 46).

Fixpoint span_digits_dots (s : string) : string :=
  match s with
  | String c r => if is_digit_or_dot c then String c (span_digits_dots r) else EmptyString
  | EmptyString => EmptyString
  end.

(** The pattern matched at the very start of [s]: the captured group. *)
Definition match_rate_here (s : string) : option string :=
  match s with
  | String c1 (String c2 (String c3 (String c4 r))) =>
      if String.eqb (lower (String c1 (String c2 (String c3 (String c4 EmptyString)))))
           "rate"
      then match lstrip r with
           | String lt r1 =>
               if code lt =? 60 then
                 match span_digits_dots (lstrip r1) with
                 | EmptyString => None
                 | g => Some g
                 end
               else None
           | EmptyString => None
           end
      else None
  | _ => None
  end.

(** [re.search(pattern, expr).group(1)]: the leftmost match. *)
Fixpoint search_rate (expr : string) : option string :=
  match match_rate_here expr with
  | Some g => Some g
  | None =>
      match expr with
      | String _ r => search_rate r
      | EmptyString => None
      end
  end.

(** The loop over [thresholds.items()]: the first expression that
    matches and whose group reads as a float decides; a group that
    [float] refuses is passed over. *)
Fixpoint first_declared_threshold (items : list (string * value)) : option float :=
  match items with
  | [] => None
  | (expr, _) :: r =>
      match search_rate expr with
      | Some g =>
          match float_of_string g with
          | Ok f => Some f
          | Raise _ => first_declared_threshold r
          end
      | None => first_declared_threshold r
      end
  end.

Definition _parse_failure_threshold_from_summary (summary : value)
  : result (option float) :=
  metrics0 <- get_or summary "metrics" (VDict []) ;;
  let metrics := py_or metrics0 (VDict []) in
  m0 <- get metrics "http_req_failed" ;;
  let m := py_or m0 (VDict []) in
  thresholds0 <- get m "thresholds" ;;
  let thresholds := py_or thresholds0 (VDict []) in
  match thresholds with
  | VDict items => Ok (first_declared_threshold items)
  | _ => Ok None
  end.

(* ===================================================================== *)
(** ** Per-check counts: [_extract_root_group_checks] *)
(* ===================================================================== *)

(** A check record [{passes, fails, pass_rate}]; [check_name] is the key
    the signal builder adds to its copy of the record. *)
Module Check.
Record t : Type := mk {
  passes : value;
  fails : value;
  pass_rate : float;
  check_name : option string
}.
End Check.

(** The body of the loop for one [name, data] item whose [data] is a
    dictionary. *)
Definition check_record (data : dict) : result Check.t :=
  let passes := py_or (dict_get_or data "passes" (VInt 0)) (VInt 0) in
  let fails := py_or (dict_get_or data "fails" (VInt 0)) (VInt 0) in
  total <- py_add passes fails ;;
  pass_rate <- (if truthy total then py_truediv passes total else Ok f_1_0) ;;
  Ok (Check.mk passes fails pass_rate None).

Definition _extract_root_group_checks (summary : value)
  : result (list (string * Check.t)) :=
  root0 <- get summary "root_group" ;;
  let root := py_or root0 (VDict []) in
  checks0 <- get root "checks" ;;
  let checks := py_or checks0 (VDict []) in
  match checks with
  | VDict items =>
      for_each items
        (fun result '(name, data) =>
           match data with
           | VDict d => rec <- check_record d ;; Ok (assoc_set result name rec)
           | _ => Ok result
           end)
        []
  | _ => Ok []
  end.

(* ===================================================================== *)
(** ** Rate-Limit Signal Builder: [build_rate_limit_signals] *)
(* ===================================================================== *)

(** The log payload [collect_loki] builds. An entry carries the category
    of the query that produced it. *)
Module Loki.
Record entry : Type := mk_entry {
  timestamp_ns : value;
  line : value;
  labels : value;
  category : string
}.
Record query_info : Type := mk_query {
  name : string;
  expr : string;
  entry_count : Z
}.
Record payload : Type := mk {
  window_start : string;
  window_end : string;
  query : string;
  queries : list query_info;
  entries : list entry
}.
End Loki.

Module Signals.
Record t : Type := mk {
  http_req_failed_rate : option float;
  http_req_failed_threshold : float;
  loki_rate_limit_entry_count : Z;
  critical_write_checks : list Check.t;
  likely_rate_limited_endpoints : list string
}.
End Signals.

(** The first statements of [build_rate_limit_signals]: the observed
    failure rate, [None] when the summary has none. *)
Definition observed_failed_rate (summary : value) : result (option float) :=
  metrics0 <- get_or summary "metrics" (VDict []) ;;
  let metrics := py_or metrics0 (VDict []) in
  http_failed0 <- get metrics "http_req_failed" ;;
  let http_failed := py_or http_failed0 (VDict []) in
  values <- get http_failed "values" ;;
  failed_rate0 <-
    (if isinstance_dict values
     then rate <- get values "rate" ;;
          val <- get values "value" ;;
          Ok (py_or rate val)
     else Ok VNone) ;;
  top <- get http_failed "value" ;;
  let failed_rate1 :=
    if is_none failed_rate0 && isinstance_number top then top else failed_rate0 in
  if is_none failed_rate1 then Ok None
  else f <- py_float failed_rate1 ;; Ok (Some f).

Definition mem (x : string) (l : list string) : bool :=
  existsb (String.eqb x) l.

(** One turn of the loop over [CANONICAL_WRITE_CHECKS]; the state is
    [(critical_write_checks, severely_constrained_names)]. *)
Definition write_check_step (per_check : list (string * Check.t))
  (st : list Check.t * list string) (name : string)
  : list Check.t * list string :=
  match assoc_get per_check name with
  | None => st
  | Some r =>
      let rec := Check.mk (Check.passes r) (Check.fails r) (Check.pass_rate r)
                   (Some name) in
      ((fst st ++ [rec])%list,
       if float_lt (Check.pass_rate rec) f_0_20 then (snd st ++ [name])%list
       else snd st)
  end.

Definition scan_write_checks (per_check : list (string * Check.t))
  : list Check.t * list string :=
  fold_left (write_check_step per_check) CANONICAL_WRITE_CHECKS ([], []).

(** The four [if name in severely_constrained_names] statements. *)
Definition endpoints_of (severely_constrained_names : list string) : list string :=
  ((if mem "create post status 201" severely_constrained_names
    then ["POST /api/posts"] else []) ++
   (if mem "comment status ok" severely_constrained_names
    then ["POST /api/posts/:id/comments"] else []) ++
   (if mem "friend request status acceptable" severely_constrained_names
    then ["POST /api/friends/requests/:id"] else []) ++
   (if mem "dm send status acceptable" severely_constrained_names
    then ["POST /api/conversations/:id/messages"] else []))%list.

Definition build_rate_limit_signals (summary : value) (profile : value)
  (loki_payload : Loki.payload) : result Signals.t :=
  failed_rate <- observed_failed_rate summary ;;
  declared <- _parse_failure_threshold_from_summary summary ;;
  threshold <- match declared with
               | Some t => Ok t
               | None => profile_default_threshold profile
               end ;;
  let rate_limit_entries :=
    filter (fun e => String.eqb (Loki.category e) "rate_limit")
      (Loki.entries loki_payload) in
  let loki_rate_limit_entry_count := Z.of_nat (List.length rate_limit_entries) in
  per_check <- _extract_root_group_checks summary ;;
  let '(critical_write_checks, severely_constrained_names) :=
    scan_write_checks per_check in
  Ok (Signals.mk failed_rate threshold loki_rate_limit_entry_count
        critical_write_checks (endpoints_of severely_constrained_names)).

(** The bundle as the dictionary the program stores and renders. *)
Definition opt_float_value (o : option float) : value :=
  match o with Some f => VFloat f | None => VNone end.

Definition check_to_value (c : Check.t) : value :=
  VDict ([ ("passes", Check.passes c); ("fails", Check.fails c);
           ("pass_rate", VFloat (Check.pass_rate c)) ] ++
         match Check.check_name c with
         | Some n => [("check_name", VStr n)]
         | None => []
         end)%list.

Definition signals_to_value (s : Signals.t) : value :=
  VDict [ ("http_req_failed_rate", opt_float_value (Signals.http_req_failed_rate s));
          ("http_req_failed_threshold", VFloat (Signals.http_req_failed_threshold s));
          ("loki_rate_limit_entry_count", VInt (Signals.loki_rate_limit_entry_count s));
          ("critical_write_checks",
            VList (map check_to_value (Signals.critical_write_checks s)));
          ("likely_rate_limited_endpoints",
            VList (map VStr (Signals.likely_rate_limited_endpoints s))) ].

(* ===================================================================== *)
(** ** Status Policy Engine: [apply_status_policy] *)
(* ===================================================================== *)

Definition HEALTHY : string := "HEALTHY".
Definition WARNING : string := "WARNING".
Definition CRITICAL : string := "CRITICAL".

Definition severity_order : list (string * Z) :=
  [ (HEALTHY, 0); (WARNING, 1); (CRITICAL, 2) ].

(** [severity_order.get(s, 0)]. *)
Definition severity (s : string) : Z :=
  match assoc_get severity_order s with Some n => n | None => 0 end.

Definition failed_rate_reason (failed_rate threshold : float) : string :=
  "http_req_failed rate " ++ format_f 4 failed_rate ++
  " exceeds profile threshold " ++ float_repr threshold.

Definition write_check_reason (rec : Check.t) : string :=
  "Write check '" ++
  match Check.check_name rec with Some n => n | None => EmptyString end ++
  "' pass rate " ++ format_pct 2 (Check.pass_rate rec) ++ " < 20%".

(** The threshold the policy compares with:
    [signals.get("http_req_failed_threshold") or
     PROFILE_FAILURE_THRESHOLDS.get(profile, 0.08)]. *)
Definition policy_threshold (signals : Signals.t) (profile : value) : result float :=
  if float_truthy (Signals.http_req_failed_threshold signals)
  then Ok (Signals.http_req_failed_threshold signals)
  else profile_default_threshold profile.

(** One turn of the loop over the critical write checks; the state is
    [(deterministic_status, reasons)]. *)
Definition policy_check_step (st : string * list string) (rec : Check.t)
  : string * list string :=
  if float_lt (Check.pass_rate rec) f_0_20
  then (CRITICAL, (snd st ++ [write_check_reason rec])%list)
  else st.

(** The deterministic part of [apply_status_policy]:
    [(deterministic_status, reasons)]. *)
Definition deterministic_policy (signals : Signals.t) (profile : value)
  : result (string * list string) :=
  threshold <- policy_threshold signals profile ;;
  let st0 :=
    match Signals.http_req_failed_rate signals with
    | Some failed_rate =>
        if float_gt failed_rate threshold
        then (CRITICAL, [failed_rate_reason failed_rate threshold])
        else (HEALTHY, [])
    | None => (HEALTHY, [])
    end in
  Ok (fold_left policy_check_step (Signals.critical_write_checks signals) st0).

(** [(model_analysis.get("status") or "WARNING").upper()], replaced by
    [WARNING] when it is not a key of [severity_order]. *)
Definition model_status (model_analysis : dict) : result string :=
  match py_or (dict_get model_analysis "status") (VStr WARNING) with
  | VStr s =>
      let u := upper s in
      Ok (match assoc_get severity_order u with
          | Some _ => u
          | None => WARNING
          end)
  | _ => Raise AttributeError
  end.

Definition merge_status (model_st deterministic_status : string) : string :=
  if severity deterministic_status <=? severity model_st
  then model_st else deterministic_status.

Definition policy_finding (reasons : list string) : string :=
  "Deterministic policy: " ++ join "; " reasons ++
  ". Likely cause: rate limiting (429).".

Definition apply_status_policy (model_analysis : dict) (signals : Signals.t)
  (profile : value) : result dict :=
  '(deterministic_status, reasons) <- deterministic_policy signals profile ;;
  m <- model_status model_analysis ;;
  let final_status := merge_status m deterministic_status in
  a1 <- (if String.eqb deterministic_status CRITICAL
            && String.eqb final_status CRITICAL
            && negb (match reasons with [] => true | _ => false end)
         then
           let a := dict_setdefault model_analysis "findings" (VList []) in
           items <- py_iter (dict_get a "findings") ;;
           Ok (assoc_set a "findings"
                 (VList (items ++ [VStr (policy_finding reasons)])%list))
         else Ok model_analysis) ;;
  let a2 := assoc_set a1 "deterministic_status" (VStr deterministic_status) in
  let a3 := assoc_set a2 "deterministic_reasons" (VList (map VStr reasons)) in
  let a4 := assoc_set a3 "rate_limit_signals" (signals_to_value signals) in
  Ok (assoc_set a4 "status" (VStr final_status)).

(* ===================================================================== *)
(** ** Fallback assessment: [default_ai_analysis] *)
(* ===================================================================== *)

Module Health.
Record t : Type := mk {
  status : string;
  error : string
}.
End Health.

Definition health_ok : Health.t := Health.mk "ok" EmptyString.

Definition highlights_to_value (h : Highlights.t) : value :=
  VDict [ ("http_req_duration_p95_ms", opt_float_value (Highlights.http_req_duration_p95_ms h));
          ("http_req_failed_rate", opt_float_value (Highlights.http_req_failed_rate h));
          ("checks_pass_rate", opt_float_value (Highlights.checks_pass_rate h));
          ("iterations", opt_float_value (Highlights.iterations h));
          ("vus_max", opt_float_value (Highlights.vus_max h)) ].

(** The list comprehension [errors] of [default_ai_analysis]. *)
Fixpoint health_errors (health_map : list (string * Health.t)) : list string :=
  match health_map with
  | [] => []
  | (k, v) :: r =>
      if negb (String.eqb (Health.status v) "ok")
         && negb (String.eqb (Health.error v) EmptyString)
      then (k ++ ": " ++ Health.error v) :: health_errors r
      else health_errors r
  end.

Definition default_ai_analysis (profile : value)
  (health_map : list (string * Health.t)) (highlights : Highlights.t) : dict :=
  let errors := health_errors health_map in
  let has_errors := match errors with [] => false | _ => true end in
  [ ("status", VStr (if has_errors then WARNING else HEALTHY));
    ("summary", VStr ("Fallback analysis for " ++ py_str profile ++
                      " profile. Partial data was used."));
    ("findings",
      VList (if has_errors then map VStr errors
             else [VStr "No major data-source failures detected during report generation."]));
    ("bottlenecks", VList []);
    ("likely_causes", VList []);
    ("next_actions",
      VList [ VStr "Verify Prometheus/Loki/Ollama connectivity before next run.";
              VStr "Review k6 summary metrics in summary.json for precise thresholds." ]);
    ("confidence", VFloat (if has_errors then f_0_35 else f_0_6));
    ("k6_highlights", highlights_to_value highlights) ].

(* ===================================================================== *)
(** ** Time Window Resolver: [parse_time_window] *)
(* ===================================================================== *)

(** An aware [datetime] in UTC, as its microseconds since the epoch.
    The type [datetime] holds the instants of years 1 to 9999. *)
Definition datetime : Type := Z.

Definition MIN_US : Z := -62135596800000000.
Definition MAX_US : Z := 253402300799999999.

Definition check_datetime (us : Z) : result datetime :=
  if (MIN_US <=? us) && (us <=? MAX_US) then Ok us else Raise TimestampOutOfRange.

(** The integer nearest to a finite float (ties to even). *)
Definition float_rint (f : float) : Z :=
  match f with
  | S754_finite s m e =>
      let n := if 0 <=? e then Zpos m * 2 ^ e else round_half_even (Zpos m) (2 ^ (- e)) in
      if s then - n else n
  | _ => 0
  end.

Definition f_1e6 : float := Eval vm_compute in decimal_to_float false 1000000 0.

(** The microseconds of a float timestamp: the whole seconds, plus the
    fraction multiplied by a million in binary64 and rounded half to
    even. *)
Definition float_micros (s : bool) (m : positive) (e : Z) : Z :=
  if 0 <=? e then (if s then -1 else 1) * (Zpos m * 2 ^ e) * 1000000
  else
    let whole := Zpos m / 2 ^ (- e) in
    let frac := binary_normalize prec emax (Zpos m mod 2 ^ (- e)) e false in
    let us := whole * 1000000 + float_rint (float_mul frac f_1e6) in
    if s then - us else us.

(** [datetime.fromtimestamp(v, tz=timezone.utc)]. *)
Definition fromtimestamp (v : value) : result datetime :=
  match v with
  | VBool b => check_datetime (if b then 1000000 else 0)
  | VInt n => check_datetime (n * 1000000)
  | VFloat S754_nan => Raise ValueError
  | VFloat (S754_infinity _) => Raise OverflowError
  | VFloat (S754_zero _) => check_datetime 0
  | VFloat (S754_finite s m e) => check_datetime (float_micros s m e)
  | _ => Raise TypeError
  end.

(** [a > b] for two numbers; an [int] and a [float] compare by their
    exact values. *)
Definition float_cmp_int (f : float) (n : Z) : option comparison :=
  match f with
  | S754_nan => None
  | S754_infinity s => Some (if s then Lt else Gt)
  | S754_zero _ => Some (Z.compare 0 n)
  | S754_finite s m e => Some (dyadic_compare (if s then Zneg m else Zpos m) e n 0)
  end.

Definition number_gt (a b : value) : bool :=
  match as_int a, as_int b with
  | Some x, Some y => y <? x
  | _, _ =>
      match a, b with
      | VFloat x, VFloat y => float_gt x y
      | VFloat x, _ =>
          match as_int b with
          | Some y => match float_cmp_int x y with Some Gt => true | _ => false end
          | None => false
          end
      | _, VFloat y =>
          match as_int a with
          | Some x => match float_cmp_int y x with Some Lt => true | _ => false end
          | None => false
          end
      | _, _ => false
      end
  end.

(** [t - timedelta(minutes=n)]. *)
Definition minus_minutes (t : datetime) (n : Z) : result datetime :=
  let r := t - n * 60000000 in
  if (MIN_US <=? r) && (r <=? MAX_US) then Ok r else Raise OverflowError.

(** [now] is what [utc_now()] returns when the fallback branch calls
    it. *)
Definition parse_time_window (metadata : value) (fallback_minutes : Z)
  (now : datetime) : result (datetime * datetime) :=
  start_epoch <- get metadata "start_epoch" ;;
  end_epoch <- get metadata "end_epoch" ;;
  if isinstance_number start_epoch && isinstance_number end_epoch
     && number_gt end_epoch start_epoch
  then
    s <- fromtimestamp start_epoch ;;
    e <- fromtimestamp end_epoch ;;
    Ok (s, e)
  else
    s <- minus_minutes now fallback_minutes ;;
    Ok (s, now).

(** *** [isoformat] *)

(** The civil date [(year, month, day)] of a day number counted from
    1970-01-01. *)
Definition civil_from_days (days : Z) : Z * Z * Z :=
  let z := days + 719468 in
  let era := z / 146097 in
  let doe := z - era * 146097 in
  let yoe := (doe - doe / 1460 + doe / 36524 - doe / 146096) / 365 in
  let doy := doe - (365 * yoe + yoe / 4 - yoe / 100) in
  let mp := (5 * doy + 2) / 153 in
  let d := doy - (153 * mp + 2) / 5 + 1 in
  let m := if mp <? 10 then mp + 3 else mp - 9 in
  let y := yoe + era * 400 + (if m <=? 2 then 1 else 0) in
  (y, m, d).

(** [t.isoformat()] for an aware UTC datetime. *)
Definition isoformat (t : datetime) : string :=
  let secs := t / 1000000 in
  let us := t mod 1000000 in
  let days := secs / 86400 in
  let sod := secs mod 86400 in
  let '(y, m, d) := civil_from_days days in
  pad_digits 4 y ++ "-" ++ pad_digits 2 m ++ "-" ++ pad_digits 2 d ++ "T" ++
  pad_digits 2 (sod / 3600) ++ ":" ++ pad_digits 2 (sod mod 3600 / 60) ++ ":" ++
  pad_digits 2 (sod mod 60) ++
  (if us =? 0 then EmptyString else "." ++ pad_digits 6 us) ++ "+00:00".

(* ===================================================================== *)
(** ** Source Collectors *)
(* ===================================================================== *)

(** What the outside world answers. An HTTP call either raises
    [requests.RequestException] (network error, timeout, error status,
    body that is not JSON) or yields the decoded JSON body. *)
Inductive http_reply : Type :=
| RequestException (msg : string)
| Response (body : value).

(** The environment of one run: the two JSON artifacts of the run
    directory as [read_json_file] finds them ([None]: missing, unreadable
    or not JSON), the answers of the three services, and the clock at
    each call of [utc_now].

    For the text-generation endpoint the body is the verdict
    [parse_model_json] extracted from the reply (the empty dictionary
    when it found none): decoding JSON from text is not modelled. *)
Module Env.
Record t : Type := mk {
  metadata_json : option value;
  summary_json : option value;
  prom_query_range : string -> http_reply;
  prom_query_instant : string -> http_reply;
  loki_query_range : string -> http_reply;
  ollama_generate : http_reply;
  now_window : datetime;
  now_generated_at : datetime;
  now_html : datetime;
  now_markdown : datetime;
  now_text : datetime
}.
End Env.

(** [read_json_file(path, default)]. *)
Definition read_json_file (file : option value) (default : value) : value :=
  match file with Some v => v | None => default end.

(** Paths are normalised POSIX paths. *)
Definition path_join (dir name : string) : string :=
  if String.eqb dir "." then name
  else if String.eqb dir "/" then "/" ++ name
  else dir ++ "/" ++ name.

(** The text after the last occurrence of the character [sep]. *)
Fixpoint after_last (sep : Z) (s : string) : string :=
  match s with
  | EmptyString => EmptyString
  | String c r =>
      if contains (String (chr sep) EmptyString) r then after_last sep r
      else if code c =? sep then r
      else s
  end.

(** [run_dir.name]. *)
Definition path_name (dir : string) : string :=
  if String.eqb dir "." then EmptyString else after_last 47 dir.

Definition degraded (error : string) : Health.t := Health.mk "degraded" error.

(** [read_k6_summary]. *)
Definition read_k6_summary (run_dir : string) (file : option value)
  : value * Health.t :=
  let summary_path := path_join run_dir "summary.json" in
  let summary := read_json_file file (VDict []) in
  (summary,
   if truthy summary then health_ok
   else degraded ("Missing or invalid " ++ summary_path)).

Definition DEFAULT_PROM_QUERIES : list (string * string) :=
  [ ("request_rate_rps", "sum(rate(http_requests_total[1m]))");
    ("error_rate_ratio",
      "sum(rate(http_requests_total{status=~" ++ dquote ++ "5.." ++ dquote ++
      "}[1m])) / clamp_min(sum(rate(http_requests_total[1m])), 1)");
    ("p95_latency_seconds",
      "histogram_quantile(0.95, sum by (le) (rate(http_request_duration_seconds_bucket[5m])))");
    ("active_websockets", "sanctum_active_websockets");
    ("ws_connections_total", "sanctum_websocket_connections_total");
    ("ws_backpressure_drops_5m",
      "increase(sanctum_websocket_backpressure_drops_total[5m])");
    ("db_p95_seconds",
      "histogram_quantile(0.95, sum by (le) (rate(sanctum_database_query_latency_seconds_bucket[5m])))");
    ("message_throughput_rps", "sum(rate(sanctum_message_throughput_total[1m]))") ].

(** The body of the loop of [collect_prometheus] for one query: the
    entry it records, and the new health when the query failed. *)
Definition prometheus_entry (env : Env.t) (expr : string)
  : result (dict * option Health.t) :=
  let entry := [("expr", VStr expr)] in
  let failed msg :=
    Ok (assoc_set entry "error" (VStr msg),
        Some (degraded ("Prometheus query failure: " ++ msg))) in
  match Env.prom_query_range env expr with
  | RequestException msg => failed msg
  | Response range_data =>
      match Env.prom_query_instant env expr with
      | RequestException msg => failed msg
      | Response instant_data =>
          range <- get_or range_data "data" (VDict []) ;;
          let entry1 := assoc_set entry "range" range in
          instant <- get_or instant_data "data" (VDict []) ;;
          Ok (assoc_set entry1 "instant" instant, None)
      end
  end.

Definition collect_prometheus (env : Env.t) (start_ end_ : datetime)
  : result (value * Health.t) :=
  '(queries, health) <-
    for_each DEFAULT_PROM_QUERIES
      (fun '(queries, health) '(name, expr) =>
         '(entry, failure) <- prometheus_entry env expr ;;
         Ok (assoc_set queries name (VDict entry),
             match failure with Some h => h | None => health end))
      ([], health_ok) ;;
  Ok (VDict [ ("window", VDict [ ("start", VStr (isoformat start_));
                                 ("end", VStr (isoformat end_)) ]);
              ("queries", VDict queries) ],
      health).

(** The part of [_loki_query_range] after the HTTP call: the entries
    [(timestamp_ns, line, labels)] of a response body. *)
Definition loki_stream_entries (acc : list (value * value * value)) (stream : value)
  : result (list (value * value * value)) :=
  labels <- get_or stream "stream" (VDict []) ;;
  values <- get_or stream "values" (VList []) ;;
  items <- py_iter values ;;
  for_each items
    (fun acc value =>
       n <- py_len value ;;
       if n =? 2 then
         pair <- py_iter value ;;
         match pair with
         | [ts_ns; line] => Ok (acc ++ [(ts_ns, line, labels)])%list
         | _ => Ok acc
         end
       else Ok acc)
    acc.

Definition loki_body_entries (body : value) : result (list (value * value * value)) :=
  data <- get_or body "data" (VDict []) ;;
  streams0 <- get_or data "result" (VList []) ;;
  streams <- py_iter streams0 ;;
  for_each streams loki_stream_entries [].

Definition severity_query : string :=
  "{container=~" ++ dquote ++ ".+" ++ dquote ++ "} |~ " ++ dquote ++
  "(?i)(error|warn|panic|fatal)" ++ dquote.

Definition rate_limit_query : string :=
  "{container=~" ++ dquote ++ ".+" ++ dquote ++ "} |= " ++ dquote ++
  "request processed" ++ dquote ++ " |= " ++ dquote ++ "status=429" ++ dquote.

Definition collect_loki (env : Env.t) (start_ end_ : datetime)
  : result (Loki.payload * Health.t) :=
  '(queries, entries, health) <-
    for_each [("severity", severity_query); ("rate_limit", rate_limit_query)]
      (fun '(queries, entries, health) '(name, query) =>
         '(part, health1) <-
           match Env.loki_query_range env query with
           | RequestException msg =>
               Ok ([], degraded ("Loki query failure: " ++ msg))
           | Response body =>
               part <- loki_body_entries body ;;
               Ok (part, health)
           end ;;
         Ok ((queries ++ [Loki.mk_query name query (Z.of_nat (List.length part))])%list,
             (entries ++
              map (fun '(ts_ns, line, labels) => Loki.mk_entry ts_ns line labels name)
                part)%list,
             health1))
      ([], [], health_ok) ;;
  Ok (Loki.mk (isoformat start_) (isoformat end_) severity_query queries entries,
      health).

Definition loki_entry_to_value (e : Loki.entry) : value :=
  VDict [ ("timestamp_ns", Loki.timestamp_ns e); ("line", Loki.line e);
          ("labels", Loki.labels e); ("category", VStr (Loki.category e)) ].

Definition loki_to_value (p : Loki.payload) : value :=
  VDict [ ("window", VDict [ ("start", VStr (Loki.window_start p));
                             ("end", VStr (Loki.window_end p)) ]);
          ("query", VStr (Loki.query p));
          ("queries",
            VList (map (fun q => VDict [ ("name", VStr (Loki.name q));
                                         ("query", VStr (Loki.expr q));
                                         ("entry_count", VInt (Loki.entry_count q)) ])
                     (Loki.queries p)));
          ("entries", VList (map loki_entry_to_value (Loki.entries p))) ].

(** [call_ollama]. *)
Definition call_ollama (env : Env.t) : value * Health.t :=
  match Env.ollama_generate env with
  | Response parsed =>
      (parsed,
       if truthy parsed then health_ok
       else degraded "Ollama returned non-JSON response")
  | RequestException msg =>
      (VDict [], degraded ("Ollama request failure: " ++ msg))
  end.

Definition health_to_value (h : Health.t) : value :=
  VDict [ ("status", VStr (Health.status h)); ("error", VStr (Health.error h)) ].

Definition health_map_to_value (m : list (string * Health.t)) : value :=
  VDict (map (fun '(k, h) => (k, health_to_value h)) m).

(* ===================================================================== *)
(** ** Report Renderers *)
(* ===================================================================== *)

(** List concatenation where [++] is the concatenation of strings. *)
Notation "l1 +++ l2" := (List.app l1 l2) (at level 60, right associativity).

Fixpoint map_result {A B : Type} (f : A -> result B) (l : list A) : result (list B) :=
  match l with
  | [] => Ok []
  | x :: r => y <- f x ;; ys <- map_result f r ;; Ok (y :: ys)
  end.

(** [s or default] for a string. *)
Definition str_or (s default : string) : string :=
  if String.eqb s EmptyString then default else s.

(** An attribute value in double quotes. *)
Definition q (s : string) : string := dquote ++ s ++ dquote.

(** [format_float(value, digits)] on a highlight. *)
Definition format_float (value : option float) (digits : Z) : string :=
  match value with
  | Some f => format_f digits f
  | None => "N/A"
  end.

(** The em dash the renderers print for a missing deterministic
    status. *)
Definition em_dash : string :=
  String (chr 226) (String (chr 128) (String (chr 148) EmptyString)).

(** [_fmt_rate_limit_checks_md]. *)
Definition _fmt_rate_limit_checks_md (rate_limit_signals : value) : result string :=
  checks0 <- get rate_limit_signals "critical_write_checks" ;;
  let checks := py_or checks0 (VList []) in
  if negb (truthy checks) then Ok "- None"
  else
    items <- py_iter checks ;;
    lines <- map_result
               (fun c =>
                  name <- get_or c "check_name" (VStr EmptyString) ;;
                  pr <- get_or c "pass_rate" (VInt 0) ;;
                  pct <- py_format_pct 1 pr ;;
                  Ok ("- " ++ py_str name ++ ": " ++ pct))
               items ;;
    Ok (join newline lines).

(** The static head of the HTML document, up to the opening of [main]. *)
Definition html_head (title : string) : list string :=
  [ "<!doctype html>";
    "<html lang=" ++ q "en" ++ ">";
    "<head>";
    "  <meta charset=" ++ q "utf-8" ++ " />";
    "  <meta name=" ++ q "viewport" ++ " content=" ++
      q "width=device-width, initial-scale=1" ++ " />";
    "  <title>" ++ html_escape title ++ "</title>";
    "  <style>";
    "    :root {";
    "      --bg: #0b1020;";
    "      --panel: #121a2f;";
    "      --text: #ecf2ff;";
    "      --muted: #9fb1d6;";
    "      --good: #3ccf91;";
    "      --warn: #ffb020;";
    "      --bad: #ff5d6c;";
    "      --edge: #293a66;";
    "    }";
    "    body { margin:0; font-family: ui-sans-serif, system-ui, -apple-system, Segoe UI, sans-serif; background: radial-gradient(circle at top right, #16203d, var(--bg)); color: var(--text); }";
    "    main { max-width: 1120px; margin: 0 auto; padding: 28px 16px 40px; }";
    "    .grid { display:grid; grid-template-columns: repeat(auto-fit, minmax(260px, 1fr)); gap: 12px; }";
    "    .card { background: var(--panel); border: 1px solid var(--edge); border-radius: 12px; padding: 14px; }";
    "    h1, h2 { margin: 0 0 10px; }";
    "    p { margin: 6px 0; color: var(--muted); }";
    "    table { width:100%; border-collapse: collapse; }";
    "    td, th { border-bottom: 1px solid var(--edge); padding: 8px; text-align: left; font-size: 14px; }";
    "    pre { white-space: pre-wrap; background:#0a0f1e; border:1px solid var(--edge); padding:12px; border-radius:10px; max-height:320px; overflow:auto; }";
    "    .status-HEALTHY { color: var(--good); }";
    "    .status-WARNING { color: var(--warn); }";
    "    .status-CRITICAL { color: var(--bad); }";
    "  </style>";
    "</head>";
    "<body>";
    "  <main>" ].

Definition card_open : string :=
  "<section class=" ++ q "card" ++ " style=" ++ q "margin-top:12px" ++ ">".

(** [now] is what [utc_now()] returns to the renderer. *)
Definition render_report_html (run_dir : string) (profile : value)
  (metadata : value) (health_map : list (string * Health.t))
  (highlights : Highlights.t) (analysis : dict) (loki : Loki.payload)
  (now : datetime) : result string :=
  let generated := isoformat now in
  let title := "Sanctum AI Stress Report - " ++ py_str profile in
  let findings := py_or (dict_get_or analysis "findings" (VList [])) (VList []) in
  let next_actions := py_or (dict_get_or analysis "next_actions" (VList [])) (VList []) in
  let rows :=
    map (fun '(key, state) =>
           "<tr><td>" ++ html_escape key ++ "</td><td>" ++
           html_escape (Health.status state) ++ "</td>" ++
           "<td>" ++ html_escape (Health.error state) ++ "</td></tr>")
      health_map in
  finding_list <- py_iter findings ;;
  let finding_items :=
    str_or (join EmptyString
              (map (fun item => "<li>" ++ html_escape (py_str item) ++ "</li>")
                 finding_list))
      "<li>None</li>" in
  action_list <- py_iter next_actions ;;
  let action_items :=
    str_or (join EmptyString
              (map (fun item => "<li>" ++ html_escape (py_str item) ++ "</li>")
                 action_list))
      "<li>None</li>" in
  let loki_lines := firstn 20 (Loki.entries loki) in
  let loki_block :=
    str_or (join newline
              (map (fun e => html_escape (py_str (Loki.line e))) loki_lines))
      "No matching log lines." in
  let rate_limit_signals := py_or (dict_get analysis "rate_limit_signals") (VDict []) in
  let det_status := dict_get_or analysis "deterministic_status" (VStr em_dash) in
  let det_reasons := py_or (dict_get analysis "deterministic_reasons") (VList []) in
  loki_429_count <- get_or rate_limit_signals "loki_rate_limit_entry_count" (VInt 0) ;;
  critical_checks0 <- get rate_limit_signals "critical_write_checks" ;;
  let critical_checks := py_or critical_checks0 (VList []) in
  endpoints0 <- get rate_limit_signals "likely_rate_limited_endpoints" ;;
  let rate_limit_endpoints := py_or endpoints0 (VList []) in
  check_list <- py_iter critical_checks ;;
  rate_limit_rows <-
    map_result
      (fun c =>
         name <- get_or c "check_name" (VStr EmptyString) ;;
         pr <- get c "pass_rate" ;;
         pr_str <- (if is_none pr then Ok "N/A" else py_format_pct 1 pr) ;;
         name_text <- py_html_escape name ;;
         Ok ("<tr><td>" ++ name_text ++ "</td><td>" ++ html_escape pr_str ++
             "</td></tr>"))
      check_list ;;
  let rate_limit_table :=
    match rate_limit_rows with
    | [] => "<p>No canonical write checks in summary.</p>"
    | _ =>
        "<table><thead><tr><th>Check</th><th>Pass rate</th></tr></thead><tbody>" ++
        join EmptyString rate_limit_rows ++ "</tbody></table>"
    end in
  endpoint_list <- py_iter rate_limit_endpoints ;;
  endpoint_texts <- map_result py_html_escape endpoint_list ;;
  let rate_limit_endpoint_list :=
    str_or (join EmptyString (map (fun e => "<li>" ++ e ++ "</li>") endpoint_texts))
      "<li>None</li>" in
  reason_list <- py_iter det_reasons ;;
  reason_texts <- map_result py_html_escape reason_list ;;
  let det_reasons_block :=
    str_or (join EmptyString (map (fun r => "<li>" ++ r ++ "</li>") reason_texts))
      "<li>None</li>" in
  let status_text :=
    html_escape (py_str (dict_get_or analysis "status" (VStr "WARNING"))) in
  let summary_text :=
    html_escape (py_str (dict_get_or analysis "summary" (VStr "No summary provided"))) in
  profile_text <- py_html_escape profile ;;
  start_utc <- get_or metadata "start_utc" (VStr "N/A") ;;
  end_utc <- get_or metadata "end_utc" (VStr "N/A") ;;
  Ok (join newline
        (html_head title +++
         [ "    <h1>" ++ html_escape title ++ "</h1>";
           "    <p>Generated: " ++ html_escape generated ++ " | Run dir: " ++
             html_escape run_dir ++ "</p>";
           EmptyString;
           "    <div class=" ++ q "grid" ++ ">";
           "      <section class=" ++ q "card" ++ "><h2>Status</h2><p class=" ++
             q ("status-" ++ status_text) ++ "><strong>" ++ status_text ++
             "</strong></p><p>" ++ summary_text ++ "</p></section>";
           "      <section class=" ++ q "card" ++ "><h2>Run Metadata</h2><p>Profile: " ++
             profile_text ++ "</p><p>Start: " ++ html_escape (py_str start_utc) ++
             "</p><p>End: " ++ html_escape (py_str end_utc) ++ "</p></section>";
           "      <section class=" ++ q "card" ++
             "><h2>k6 Highlights</h2><p>P95 latency (ms): " ++
             format_float (Highlights.http_req_duration_p95_ms highlights) 2 ++
             "</p><p>HTTP failed rate: " ++
             format_float (Highlights.http_req_failed_rate highlights) 5 ++
             "</p><p>Checks pass rate: " ++
             format_float (Highlights.checks_pass_rate highlights) 5 ++
             "</p></section>";
           "    </div>";
           EmptyString;
           "    " ++ card_open ++
             "<h2>Data Source Health</h2><table><thead><tr><th>Source</th><th>Status</th><th>Error</th></tr></thead><tbody>" ++
             join EmptyString rows ++ "</tbody></table></section>";
           EmptyString;
           "    <section class=" ++ q "grid" ++ " style=" ++ q "margin-top:12px" ++ ">";
           "      <div class=" ++ q "card" ++ "><h2>Findings</h2><ul>" ++
             finding_items ++ "</ul></div>";
           "      <div class=" ++ q "card" ++ "><h2>Next Actions</h2><ul>" ++
             action_items ++ "</ul></div>";
           "    </section>";
           EmptyString;
           "    " ++ card_open ++
             "<h2>Deterministic Status Policy</h2><p><strong>" ++
             html_escape (py_str det_status) ++ "</strong></p><ul>" ++
             det_reasons_block ++ "</ul></section>";
           EmptyString;
           "    " ++ card_open ++
             "<h2>Rate Limit Signals</h2><p>Loki 429/rate-limit sample count: <strong>" ++
             py_str loki_429_count ++ "</strong></p>" ++ rate_limit_table ++
             "<p><strong>Likely rate-limited endpoints:</strong></p><ul>" ++
             rate_limit_endpoint_list ++ "</ul></section>";
           EmptyString;
           "    " ++ card_open ++
             "<h2>Loki Sample (Errors/Warnings and Rate-Limit 429s)</h2><pre>" ++
             loki_block ++ "</pre></section>";
           "  </main>";
           "</body>";
           "</html>";
           EmptyString ])).

(** The inner function [section_items] of [render_report_markdown]. *)
Definition section_items (items : value) : result string :=
  if negb (truthy items) then Ok "- None"
  else
    l <- py_iter items ;;
    Ok (join newline (map (fun item => "- " ++ py_str item) l)).

Definition render_report_markdown (run_dir : string) (profile : value)
  (metadata : value) (health_map : list (string * Health.t))
  (highlights : Highlights.t) (analysis : dict) (now : datetime) : result string :=
  let findings := py_or (dict_get_or analysis "findings" (VList [])) (VList []) in
  let bottlenecks := py_or (dict_get_or analysis "bottlenecks" (VList [])) (VList []) in
  let causes := py_or (dict_get_or analysis "likely_causes" (VList [])) (VList []) in
  let actions := py_or (dict_get_or analysis "next_actions" (VList [])) (VList []) in
  let health_lines :=
    join newline
      (map (fun '(name, state) =>
              "- `" ++ name ++ "`: **" ++ Health.status state ++ "**" ++
              (if String.eqb (Health.error state) EmptyString then EmptyString
               else " - " ++ Health.error state))
         health_map) in
  let rls := py_or (dict_get analysis "rate_limit_signals") (VDict []) in
  start_utc <- get_or metadata "start_utc" (VStr "N/A") ;;
  end_utc <- get_or metadata "end_utc" (VStr "N/A") ;;
  reasons <- section_items (py_or (dict_get analysis "deterministic_reasons") (VList [])) ;;
  count <- get_or rls "loki_rate_limit_entry_count" (VInt 0) ;;
  checks <- _fmt_rate_limit_checks_md rls ;;
  endpoints0 <- get rls "likely_rate_limited_endpoints" ;;
  endpoints <- section_items (py_or endpoints0 (VList [])) ;;
  findings_text <- section_items findings ;;
  bottlenecks_text <- section_items bottlenecks ;;
  causes_text <- section_items causes ;;
  actions_text <- section_items actions ;;
  Ok (join newline
        [ "# Sanctum AI Stress Report (" ++ py_str profile ++ ")";
          EmptyString;
          "- Generated: " ++ isoformat now;
          "- Run Dir: `" ++ run_dir ++ "`";
          "- Status: **" ++ py_str (dict_get_or analysis "status" (VStr "WARNING")) ++ "**";
          "- Summary: " ++
            py_str (dict_get_or analysis "summary" (VStr "No summary provided"));
          EmptyString;
          "## k6 Highlights";
          EmptyString;
          "- P95 latency (ms): " ++
            format_float (Highlights.http_req_duration_p95_ms highlights) 2;
          "- HTTP failed rate: " ++
            format_float (Highlights.http_req_failed_rate highlights) 5;
          "- Checks pass rate: " ++
            format_float (Highlights.checks_pass_rate highlights) 5;
          "- Iterations: " ++ format_float (Highlights.iterations highlights) 0;
          "- Max VUs: " ++ format_float (Highlights.vus_max highlights) 0;
          EmptyString;
          "## Run Window";
          EmptyString;
          "- Profile: `" ++ py_str profile ++ "`";
          "- Start: `" ++ py_str start_utc ++ "`";
          "- End: `" ++ py_str end_utc ++ "`";
          EmptyString;
          "## Deterministic Status Policy Result";
          EmptyString;
          "- **Status:** " ++
            py_str (dict_get_or analysis "deterministic_status" (VStr em_dash));
          "- **Reasons:** " ++ reasons;
          EmptyString;
          "## Rate Limit Signals";
          EmptyString;
          "- Loki 429/rate-limit entry count: " ++ py_str count;
          "- Critical write checks (pass rate): " ++ checks;
          "- Likely rate-limited endpoints: " ++ endpoints;
          EmptyString;
          "## Data Source Health";
          EmptyString;
          health_lines;
          EmptyString;
          "## Findings";
          findings_text;
          EmptyString;
          "## Bottlenecks";
          bottlenecks_text;
          EmptyString;
          "## Likely Causes";
          causes_text;
          EmptyString;
          "## Next Actions";
          actions_text;
          EmptyString ]).

(** The inner function [append_list] of [render_report_text]: the lines
    it appends. *)
Definition append_list (title : string) (items : value) : result (list string) :=
  if negb (truthy items) then Ok [EmptyString; title; "- None"]
  else
    l <- py_iter items ;;
    Ok (EmptyString :: title :: map (fun item => "- " ++ py_str item) l).

Definition render_report_text (run_dir : string) (profile : value)
  (metadata : value) (health_map : list (string * Health.t))
  (highlights : Highlights.t) (analysis : dict) (now : datetime) : result string :=
  let rls := py_or (dict_get analysis "rate_limit_signals") (VDict []) in
  let lines0 :=
    [ "SANCTUM AI STRESS REPORT (" ++ py_str profile ++ ")";
      repeat_string "=" 48;
      "Generated: " ++ isoformat now;
      "Run Dir: " ++ run_dir;
      "Status: " ++ py_str (dict_get_or analysis "status" (VStr "WARNING"));
      "Summary: " ++ py_str (dict_get_or analysis "summary" (VStr "No summary provided"));
      EmptyString;
      "Deterministic Status Policy Result";
      "- Status: " ++ py_str (dict_get_or analysis "deterministic_status" (VStr em_dash)) ] in
  reasons <- py_iter (py_or (dict_get analysis "deterministic_reasons") (VList [])) ;;
  let lines1 := lines0 +++ map (fun r => "- " ++ py_str r) reasons in
  count <- get_or rls "loki_rate_limit_entry_count" (VInt 0) ;;
  let lines2 :=
    lines1 +++ [ EmptyString; "Rate Limit Signals";
                 "- Loki 429/rate-limit entry count: " ++ py_str count ] in
  critical_checks0 <- get rls "critical_write_checks" ;;
  let critical_checks := py_or critical_checks0 (VList []) in
  let lines3 :=
    if negb (truthy critical_checks)
    then lines2 +++ ["- No canonical write checks in summary."]
    else lines2 in
  check_list <- py_iter critical_checks ;;
  check_lines <-
    map_result
      (fun c =>
         pr <- get c "pass_rate" ;;
         if is_none pr then
           name <- get_or c "check_name" (VStr EmptyString) ;;
           Ok ("- " ++ py_str name ++ ": N/A")
         else
           name <- get_or c "check_name" (VStr EmptyString) ;;
           pct <- py_format_pct 1 pr ;;
           Ok ("- " ++ py_str name ++ ": " ++ pct))
      check_list ;;
  let lines4 := lines3 +++ check_lines +++ ["Likely rate-limited endpoints:"] in
  endpoints0 <- get rls "likely_rate_limited_endpoints" ;;
  endpoint_list <- py_iter (py_or endpoints0 (VList [])) ;;
  let lines5 := lines4 +++ map (fun ep => "- " ++ py_str ep) endpoint_list in
  let lines6 :=
    if negb (truthy endpoints0) then lines5 +++ ["- None"] else lines5 in
  start_utc <- get_or metadata "start_utc" (VStr "N/A") ;;
  end_utc <- get_or metadata "end_utc" (VStr "N/A") ;;
  let lines7 :=
    lines6 +++
     [ EmptyString;
       "k6 Highlights";
       "- P95 latency (ms): " ++
         format_float (Highlights.http_req_duration_p95_ms highlights) 2;
       "- HTTP failed rate: " ++
         format_float (Highlights.http_req_failed_rate highlights) 5;
       "- Checks pass rate: " ++
         format_float (Highlights.checks_pass_rate highlights) 5;
       "- Iterations: " ++ format_float (Highlights.iterations highlights) 0;
       "- Max VUs: " ++ format_float (Highlights.vus_max highlights) 0;
       EmptyString;
       "Run Window";
       "- Profile: " ++ py_str profile;
       "- Start: " ++ py_str start_utc;
       "- End: " ++ py_str end_utc;
       EmptyString;
       "Data Source Health" ] in
  let lines8 :=
    lines7 +++
     map (fun '(name, state) =>
            "- " ++ name ++ ": " ++ Health.status state ++
            (if String.eqb (Health.error state) EmptyString then EmptyString
             else " (" ++ Health.error state ++ ")"))
       health_map in
  findings <- append_list "Findings"
                (py_or (dict_get_or analysis "findings" (VList [])) (VList [])) ;;
  bottlenecks <- append_list "Bottlenecks"
                   (py_or (dict_get_or analysis "bottlenecks" (VList [])) (VList [])) ;;
  causes <- append_list "Likely Causes"
              (py_or (dict_get_or analysis "likely_causes" (VList [])) (VList [])) ;;
  actions <- append_list "Next Actions"
               (py_or (dict_get_or analysis "next_actions" (VList [])) (VList [])) ;;
  Ok (join newline (lines8 +++ findings +++ bottlenecks +++ causes +++ actions)
      ++ newline).

(* ===================================================================== *)
(** ** The pipeline: [main] *)
(* ===================================================================== *)

(** The command line of a report run: [--profile] and the run directory
    [resolve_run_dir] settled on (a failure to find one aborts the program
    before the pipeline starts). *)
Module Args.
Record t : Type := mk {
  profile : string;
  run_dir : string
}.
End Args.

(** What a run writes: [write_json_file] stores a JSON document, given
    here by the value it serialises, [write_text] a text. *)
Inductive file_content : Type :=
| JsonFile (payload : value)
| TextFile (text : string).

(** [x[key] = v] on any value: only a dictionary takes a string key. *)
Definition py_setitem (x : value) (key : string) (v : value) : result dict :=
  match x with
  | VDict d => Ok (assoc_set d key v)
  | _ => Raise TypeError
  end.

(** What [main] has collected when it writes the two snapshots. *)
Module Collected.
Record t : Type := mk {
  profile : value;
  metadata : value;
  summary : value;
  k6_health : Health.t;
  highlights : Highlights.t;
  prometheus_payload : value;
  prom_health : Health.t;
  loki_payload : Loki.payload;
  loki_health : Health.t
}.
End Collected.

(** [main] from the reading of the metadata to the two collectors. *)
Definition collect (args : Args.t) (env : Env.t) : result Collected.t :=
  let run_dir := Args.run_dir args in
  let metadata0 := read_json_file (Env.metadata_json env) (VDict []) in
  profile <-
    (if negb (String.eqb (Args.profile args) EmptyString)
     then Ok (VStr (Args.profile args))
     else
       p <- get metadata0 "profile" ;;
       Ok (py_or p (VStr (after_last 45 (path_name run_dir))))) ;;
  '(start_, end_) <- parse_time_window metadata0 10 (Env.now_window env) ;;
  m1 <- match metadata0 with
        | VDict d => Ok (dict_setdefault d "profile" profile)
        | _ => Raise AttributeError
        end ;;
  let m2 := dict_setdefault m1 "start_utc" (VStr (isoformat start_)) in
  let metadata := VDict (dict_setdefault m2 "end_utc" (VStr (isoformat end_))) in
  let '(summary, k6_health) := read_k6_summary run_dir (Env.summary_json env) in
  highlights <- extract_k6_highlights summary ;;
  '(prometheus_payload, prom_health) <- collect_prometheus env start_ end_ ;;
  '(loki_payload, loki_health) <- collect_loki env start_ end_ ;;
  Ok (Collected.mk profile metadata summary k6_health highlights
        prometheus_payload prom_health loki_payload loki_health).

(** [main] from the signal builder to the status policy: the health map
    and the analysis record that is persisted. *)
Definition analyse (args : Args.t) (env : Env.t) (c : Collected.t)
  : result (list (string * Health.t) * dict) :=
  let profile := Collected.profile c in
  rate_limit_signals <-
    build_rate_limit_signals (Collected.summary c) profile (Collected.loki_payload c) ;;
  let '(model_analysis, ollama_health) := call_ollama env in
  let health_map :=
    [ ("k6", Collected.k6_health c);
      ("prometheus", Collected.prom_health c);
      ("loki", Collected.loki_health c);
      ("ollama", ollama_health) ] in
  let analysis0 :=
    if truthy model_analysis then model_analysis
    else VDict (default_ai_analysis profile health_map (Collected.highlights c)) in
  a1 <- py_setitem analysis0 "data_source_health" (health_map_to_value health_map) ;;
  let a2 := assoc_set a1 "profile" profile in
  let a3 := assoc_set a2 "run_dir" (VStr (Args.run_dir args)) in
  let a4 := assoc_set a3 "generated_at" (VStr (isoformat (Env.now_generated_at env))) in
  let a5 := assoc_set a4 "rate_limit_signals" (signals_to_value rate_limit_signals) in
  analysis <- apply_status_policy a5 rate_limit_signals profile ;;
  Ok (health_map, analysis).

(** One report run: the files written, in order, and how the run ends
    ([Ok 0], or the exception that aborts it; files written before an
    exception stay written). The model stops after the three report
    documents: the rebuilding of the index over the artifact directory,
    which [main] does last, is outside it. *)
Definition main (args : Args.t) (env : Env.t)
  : list (string * file_content) * result Z :=
  let run_dir := Args.run_dir args in
  match collect args env with
  | Raise e => ([], Raise e)
  | Ok c =>
      let written2 :=
        [ (path_join run_dir "metrics.json", JsonFile (Collected.prometheus_payload c));
          (path_join run_dir "logs.json",
            JsonFile (loki_to_value (Collected.loki_payload c))) ] in
      match analyse args env c with
      | Raise e => (written2, Raise e)
      | Ok (health_map, analysis) =>
          let written3 :=
            written2 +++
            [ (path_join run_dir "ai-analysis.json", JsonFile (VDict analysis)) ] in
          match render_report_html run_dir (Collected.profile c) (Collected.metadata c)
                  health_map (Collected.highlights c) analysis
                  (Collected.loki_payload c) (Env.now_html env) with
          | Raise e => (written3, Raise e)
          | Ok report_html =>
              let written4 :=
                written3 +++ [ (path_join run_dir "report.html", TextFile report_html) ] in
              match render_report_markdown run_dir (Collected.profile c)
                      (Collected.metadata c) health_map (Collected.highlights c)
                      analysis (Env.now_markdown env) with
              | Raise e => (written4, Raise e)
              | Ok report_md =>
                  let written5 :=
                    written4 +++ [ (path_join run_dir "report.md", TextFile report_md) ] in
                  match render_report_text run_dir (Collected.profile c)
                          (Collected.metadata c) health_map (Collected.highlights c)
                          analysis (Env.now_text env) with
                  | Raise e => (written5, Raise e)
                  | Ok report_txt =>
                      (written5 +++
                       [ (path_join run_dir "report.txt", TextFile report_txt) ],
                       Ok 0)
                  end
              end
          end
      end
  end.

(* ===================================================================== *)
(** ** Shapes of inputs and sample inputs used by the properties *)
(* ===================================================================== *)

(** A value on which [(v or "WARNING").upper()] is defined: a string, or
    anything falsy ([None], an absent key, zero, an empty container). *)
Definition str_or_falsy (v : value) : bool :=
  match v with
  | VStr _ => true
  | _ => negb (truthy v)
  end.

(** A value [list(v)] accepts. *)
Definition iterable (v : value) : bool := is_ok (py_iter v).

Definition LEVELS : list string := [HEALTHY; WARNING; CRITICAL].

(** A run summary with a failure rate of 0.12 against a declared
    threshold of 0.08, and the check "create post status 201" passing 5
    times out of 100. *)
Definition sample_summary : value :=
  VDict
    [ ("metrics",
        VDict [ ("http_req_failed",
                  VDict [ ("values", VDict [("rate", VFloat f_0_12)]);
                          ("thresholds",
                            VDict [("rate<0.08", VDict [("ok", VBool false)])]) ]) ]);
      ("root_group",
        VDict [ ("checks",
                  VDict [ ("create post status 201",
                            VDict [("passes", VInt 5); ("fails", VInt 95)]);
                          ("feed status 200",
                            VDict [("passes", VInt 0); ("fails", VInt 0)]) ]) ]) ].

Definition no_logs : Loki.payload := Loki.mk EmptyString EmptyString EmptyString [] [].

Definition sample_signals : Signals.t :=
  Signals.mk (Some f_0_12) f_0_08 0
    [Check.mk (VInt 5) (VInt 95) f_0_05 (Some "create post status 201")]
    ["POST /api/posts"].

(** The four [if name in severely_constrained_names] statements of the
    signal builder read as a table from check name to endpoint. *)
Definition CHECK_ENDPOINTS : list (string * string) :=
  [ ("create post status 201", "POST /api/posts");
    ("comment status ok", "POST /api/posts/:id/comments");
    ("friend request status acceptable", "POST /api/friends/requests/:id");
    ("dm send status acceptable", "POST /api/conversations/:id/messages") ].

(** A check record is severely constrained when its pass rate is below
    20%. *)
Definition severely_constrained (rec : Check.t) : bool :=
  float_lt (Check.pass_rate rec) f_0_20.

(** A canonical name whose record in the per-check counts is severely
    constrained. *)
Definition severe_name (per_check : list (string * Check.t)) (name : string) : bool :=
  match assoc_get per_check name with
  | Some r => severely_constrained r
  | None => false
  end.

(** The record the signal builder emits for a name, if the name has
    counts. *)
Definition named_record (per_check : list (string * Check.t)) (name : string)
  : list Check.t :=
  match assoc_get per_check name with
  | Some r => [Check.mk (Check.passes r) (Check.fails r) (Check.pass_rate r) (Some name)]
  | None => []
  end.

(** The per-check counts [_extract_root_group_checks] derives from
    [sample_summary]. *)
Definition sample_per_check : list (string * Check.t) :=
  [ ("create post status 201", Check.mk (VInt 5) (VInt 95) f_0_05 None);
    ("feed status 200", Check.mk (VInt 0) (VInt 0) f_1_0 None) ].

Definition f_0_03 : float := Eval vm_compute in decimal_to_float false 3 (-2).

(** A run summary that declares the threshold [rate<0] and observed a
    failure rate of 0.03. *)
Definition zero_threshold_summary : value :=
  VDict
    [ ("metrics",
        VDict [ ("http_req_failed",
                  VDict [ ("values", VDict [("rate", VFloat f_0_03)]);
                          ("thresholds",
                            VDict [("rate<0", VDict [("ok", VBool false)])]) ]) ]) ].

(** The bundle the signal builder derives from it. *)
Definition zero_threshold_signals : Signals.t :=
  Signals.mk (Some f_0_03) fzero 0 [] [].

(** A run summary of a run without a single failed request. *)
Definition zero_rate_summary : value :=
  VDict
    [ ("metrics",
        VDict [ ("http_req_failed", VDict [("values", VDict [("rate", VFloat fzero)])]) ]) ].

(** *** Declared thresholds *)

Fixpoint all_chars (p : ascii -> bool) (s : string) : bool :=
  match s with
  | EmptyString => true
  | String c r => p c && all_chars p r
  end.



(** The binary64 number nearest to the literal's value. *)
Definition decimal_value (ip : string) (fp : option string) : float :=
  let f := match fp with Some f => f | None => EmptyString end in
  decimal_to_float false (digits_value (ip ++ f) 0) (0 - slen f).

(** The threshold expressions a run summary declares for
    [http_req_failed]: the keys of [metrics.http_req_failed.thresholds],
    in order; none when a level of that path is missing or is not a
    dictionary. *)
Definition threshold_expressions (summary : value) : list string :=
  match summary with
  | VDict sd =>
      match dict_get sd "metrics" with
      | VDict md =>
          match dict_get md "http_req_failed" with
          | VDict hd =>
              match dict_get hd "thresholds" with
              | VDict items => map fst items
              | _ => []
              end
          | _ => []
          end
      | _ => []
      end
  | _ => []
  end.

(** The profile table written out. *)
Definition profile_default (p : string) : float :=
  if String.eqb p "low" then f_0_05
  else if String.eqb p "medium" then f_0_08
  else if String.eqb p "high" then f_0_10
  else if String.eqb p "extreme" then f_0_12
  else if String.eqb p "insane" then f_0_15
  else f_0_08.

(** *** Run metadata *)

(** Run metadata that gives the run window as ISO timestamps, the way
    [main] itself records it under [start_utc] and [end_utc]. *)
Definition iso_metadata : value :=
  VDict [ ("profile", VStr "low");
          ("start_utc", VStr "2026-11-03T10:00:00+00:00");
          ("end_utc", VStr "2026-11-03T10:05:00+00:00") ].


(** 2026-11-04T00:00:00+00:00. *)
Definition sample_now : datetime := 1793750400000000.

(** *** Analysis records *)

(** An analysis record with one item in each of its four lists. *)
Definition sample_analysis : dict :=
  [ ("status", VStr "WARNING");
    ("summary", VStr "Write path throttled.");
    ("findings", VList [VStr "429 responses on post creation"]);
    ("bottlenecks", VList [VStr "database connection pool"]);
    ("likely_causes", VList [VStr "rate limiter set too low"]);
    ("next_actions", VList [VStr "raise the write limit"]);
    ("confidence", VStr "medium") ].

(** An analysis record whose four lists are empty. *)
Definition empty_lists_analysis : dict :=
  [ ("status", VStr "HEALTHY");
    ("summary", VStr "Nothing to report.");
    ("findings", VList []);
    ("bottlenecks", VList []);
    ("likely_causes", VList []);
    ("next_actions", VList []);
    ("confidence", VStr "high") ].

Definition no_highlights : Highlights.t := Highlights.mk None None None None None.

Definition all_ok : list (string * Health.t) :=
  [ ("k6", health_ok); ("prometheus", health_ok); ("loki", health_ok);
    ("ollama", health_ok) ].

(** The three report documents of one analysis record, everything else
    fixed. *)
Definition html_of (analysis : dict) : result string :=
  render_report_html "tmp/stress-runs/low-1" (VStr "low") iso_metadata all_ok
    no_highlights analysis no_logs sample_now.

Definition markdown_of (analysis : dict) : result string :=
  render_report_markdown "tmp/stress-runs/low-1" (VStr "low") iso_metadata all_ok
    no_highlights analysis sample_now.

Definition text_of (analysis : dict) : result string :=
  render_report_text "tmp/stress-runs/low-1" (VStr "low") iso_metadata all_ok
    no_highlights analysis sample_now.

(** [needle in document] for a rendered document; a renderer that raised
    has no document. *)
Definition shows (needle : string) (document : result string) : bool :=
  match document with
  | Ok text => contains needle text
  | Raise _ => false
  end.

(** *** Report runs *)

Definition sample_args : Args.t := Args.mk "low" "tmp/stress-runs/low-1".

Definition unreachable : http_reply := RequestException "connection refused".

(** A run in which nothing answers: the run directory holds neither
    [metadata.json] nor [summary.json], and every HTTP call raises. *)
Definition all_down : Env.t :=
  Env.mk None None (fun _ => unreachable) (fun _ => unreachable)
    (fun _ => unreachable) unreachable
    sample_now sample_now sample_now sample_now sample_now.





(** The same run as [all_down], except that [summary.json] holds the
    JSON document [null]. *)
Definition null_summary : Env.t :=
  Env.mk None (Some VNone) (fun _ => unreachable) (fun _ => unreachable)
    (fun _ => unreachable) unreachable
    sample_now sample_now sample_now sample_now sample_now.

(** What [collect_loki] returns for the window [(s, e)] when both of its
    queries raise. *)
Definition loki_down (s e : datetime) : Loki.payload :=
  Loki.mk (isoformat s) (isoformat e) severity_query
    [ Loki.mk_query "severity" severity_query 0;
      Loki.mk_query "rate_limit" rate_limit_query 0 ] [].

(* ===================================================================== *)
(** ** Proof tactics *)
(* ===================================================================== *)

(** Decompose a hypothesis [H : x <- c ;; k = Ok b] into its steps: the
    value [a] that [c] returned, and what [k a] returned. *)
Ltac bind_inv H :=
  let a := fresh "a" in
  let Ha := fresh "Ha" in
  match type of H with
  | bind ?c ?k = Ok ?b =>
      let P := fresh "P" in
      assert (P : exists r, c = Ok r /\ k r = Ok b)
        by (revert H; destruct c as [? | ?]; intros H;
            [eexists; split; [reflexivity | exact H] | discriminate H]);
      clear H; destruct P as (a & Ha & H); cbv beta in H
  end.

(** Case analysis on the eight bits of a character. *)
Ltac ascii_cases c :=
  destruct c as [[] [] [] [] [] [] [] []]; vm_compute; try reflexivity; try discriminate.



From Stdlib Require Import Sorting.Permutation Sorting.Sorted.

(* ===================================================================== *)
(** ** The artifact directory: [list_run_dirs], [resolve_run_dir],
       [build_index] *)
(* ===================================================================== *)

(** What the program sees of one entry [p] of the artifact directory:
    [p.name], [p.is_dir()], [p.stat().st_mtime], whether the three
    report documents exist in it, and what [read_json_file] finds in its
    [ai-analysis.json] ([None]: missing, unreadable or not JSON). *)
Module Entry.
Record t : Type := mk {
  name : string;
  is_dir : bool;
  st_mtime : float;
  has_report_html : bool;
  has_report_md : bool;
  has_report_txt : bool;
  analysis_json : option value
}.
End Entry.

(** The artifact directory itself: absent, a file, or a directory with
    its entries in the order [iterdir] yields them. *)
Inductive node : Type :=
| Missing
| NotADirectory
| Directory (entries : list Entry.t).

(** How these functions end when they do not return: an error of the
    file system, [SystemExit] with its message, or an exception of the
    analysis code. *)
Inductive os_exn : Type :=
| NotADirectoryError
| FileExistsError
| SystemExit (message : string)
| Python (e : exn).

Inductive outcome (A : Type) : Type :=
| Done (a : A)
| Failed (e : os_exn).
Arguments Done {A} a.
Arguments Failed {A} e.

(** [sorted(..., key=lambda p: p.stat().st_mtime)]: the stable sort by
    [<] on the keys. An entry is put before the first of the later
    entries that is not older than it. *)
Fixpoint insert_by_mtime (x : Entry.t) (l : list Entry.t) : list Entry.t :=
  match l with
  | [] => [x]
  | y :: r =>
      if float_lt (Entry.st_mtime y) (Entry.st_mtime x)
      then y :: insert_by_mtime x r
      else x :: l
  end.

Definition sorted_by_mtime (l : list Entry.t) : list Entry.t :=
  fold_right insert_by_mtime [] l.

Definition list_run_dirs (root : node) : outcome (list Entry.t) :=
  match root with
  | Missing => Done []
  | NotADirectory => Failed NotADirectoryError
  | Directory entries => Done (sorted_by_mtime (filter Entry.is_dir entries))
  end.

(** [resolve_run_dir(args)]: [run_dir] and [artifact_dir] are the two
    arguments, [run_dir_exists] is [Path(args.run_dir).exists()] and
    [root] the artifact directory. *)
Definition resolve_run_dir (run_dir : string) (run_dir_exists : bool)
  (artifact_dir : string) (root : node) : outcome string :=
  if negb (String.eqb run_dir EmptyString) then
    if negb run_dir_exists
    then Failed (SystemExit ("Run directory not found: " ++ run_dir))
    else Done run_dir
  else
    match list_run_dirs root with
    | Failed e => Failed e
    | Done run_dirs =>
        match rev run_dirs with
        | [] =>
            Failed (SystemExit
              "No run directories found. Execute make stress-low/medium/high/extreme/insane first.")
        | latest :: _ => Done (path_join artifact_dir (Entry.name latest))
        end
    end.

(** The first loop of [build_index]: the runs that have a
    [report.html], each with the status and the summary of its
    analysis. *)
Definition index_entries (run_dirs : list Entry.t)
  : result (list (Entry.t * value * value)) :=
  for_each run_dirs
    (fun entries run_dir =>
       if negb (Entry.has_report_html run_dir) then Ok entries
       else
         let analysis := read_json_file (Entry.analysis_json run_dir) (VDict []) in
         status <- get_or analysis "status" (VStr "UNKNOWN") ;;
         summary <- get_or analysis "summary" (VStr EmptyString) ;;
         Ok (entries +++ [(run_dir, status, summary)]))
    [].

Definition INDEX_HEAD : list string :=
  [ "<!doctype html>";
    "<html><head><meta charset='utf-8'><meta name='viewport' content='width=device-width, initial-scale=1'>";
    "<title>Sanctum Stress Report Index</title>";
    "<style>body{font-family:ui-sans-serif,system-ui;background:#0d1428;color:#e6edff;margin:0;padding:20px}table{width:100%;border-collapse:collapse}td,th{border:1px solid #2b3f74;padding:8px;text-align:left}a{color:#7dc4ff}</style>";
    "</head><body>";
    "<h1>Sanctum Stress Report Index</h1>";
    "<table><thead><tr><th>Run</th><th>Status</th><th>Summary</th><th>Reports</th></tr></thead><tbody>" ].

Definition INDEX_TAIL : list string := [ "</tbody></table>"; "</body></html>" ].

(** The links of one run, relative to the artifact directory. *)
Definition index_links (run_dir : Entry.t) : list string :=
  [ "<a href='" ++ html_escape (Entry.name run_dir ++ "/report.html") ++ "'>html</a>" ] +++
  (if Entry.has_report_md run_dir
   then [ "<a href='" ++ html_escape (Entry.name run_dir ++ "/report.md") ++ "'>md</a>" ]
   else []) +++
  (if Entry.has_report_txt run_dir
   then [ "<a href='" ++ html_escape (Entry.name run_dir ++ "/report.txt") ++ "'>txt</a>" ]
   else []).

(** The table row of one run. *)
Definition index_row (item : Entry.t * value * value) : string :=
  let '(run_dir, status, summary) := item in
  "<tr><td>" ++ html_escape (Entry.name run_dir) ++ "</td><td>" ++
  html_escape (py_str status) ++ "</td>" ++
  "<td>" ++ html_escape (py_str summary) ++ "</td><td>" ++
  join " | " (index_links run_dir) ++ "</td></tr>".

(** [build_index(root)]: the text it writes to [index.html]. The
    directory is created when it is missing ([mkdir] with [parents] and
    [exist_ok]); a file in its place makes [mkdir] raise. *)
Definition build_index (root : node) : outcome string :=
  match root with
  | NotADirectory => Failed FileExistsError
  | _ =>
      match list_run_dirs (match root with Missing => Directory [] | _ => root end) with
      | Failed e => Failed e
      | Done run_dirs =>
          match index_entries run_dirs with
          | Raise e => Failed (Python e)
          | Ok entries =>
              Done (join newline (INDEX_HEAD +++ map index_row entries +++ INDEX_TAIL))
          end
      end
  end.

(** *** Shapes and samples *)

Definition is_nan (f : float) : bool :=
  match f with S754_nan => true | _ => false end.

(** [st_mtime] is a number: never NaN. *)
Definition mtimes_are_numbers (entries : list Entry.t) : Prop :=
  Forall (fun e => is_nan (Entry.st_mtime e) = false) entries.

(** [a] is not newer than [b]. *)
Definition not_newer (a b : Entry.t) : Prop :=
  float_lt (Entry.st_mtime b) (Entry.st_mtime a) = false.

(** The order of the floats, read off [SFcompare]: sign class first,
    then exponent and mantissa. *)
Definition float_rank (f : float) : Z * Z * Z :=
  match f with
  | S754_infinity true => (-2, 0, 0)
  | S754_finite true m e => (-1, - e, - Zpos m)
  | S754_finite false m e => (1, e, Zpos m)
  | S754_infinity false => (2, 0, 0)
  | _ => (0, 0, 0)
  end.

Definition rank_lt (a b : Z * Z * Z) : Prop :=
  let '(a1, a2, a3) := a in
  let '(b1, b2, b3) := b in
  a1 < b1 \/ (a1 = b1 /\ (a2 < b2 \/ (a2 = b2 /\ a3 < b3))).


Definition f_10 : float := Eval vm_compute in decimal_to_float false 10 0.
Definition f_20 : float := Eval vm_compute in decimal_to_float false 20 0.
Definition f_30 : float := Eval vm_compute in decimal_to_float false 30 0.

(** An artifact directory: two runs (the older one listed last, its
    analysis naming a tag in its summary), a run without report, and a
    file. *)
Definition sample_entries : list Entry.t :=
  [ Entry.mk "20261103-high" true f_30 true true false
      (Some (VDict [("status", VStr "CRITICAL"); ("summary", VStr "p95 > 2s")]));
    Entry.mk "notes.txt" false f_20 false false false None;
    Entry.mk "20261102-draft" true f_20 false false false None;
    Entry.mk "20261101-low" true f_10 true true true
      (Some (VDict [("status", VStr "HEALTHY"); ("summary", VStr "<b>fine</b>")])) ].

(** The same directory with a run whose analysis file holds an array. *)
Definition broken_entries : list Entry.t :=
  sample_entries +++ [Entry.mk "20261104-odd" true f_30 true false false (Some (VList []))].

(* ===================================================================== *)
(** ** Sample inputs of the further properties *)
(* ===================================================================== *)

(** An answer of the metrics store without series. *)
Definition empty_matrix : value :=
  VDict [ ("status", VStr "success");
          ("data", VDict [("resultType", VStr "matrix"); ("result", VList [])]) ].

(** An answer of the log store: one stream with two well-formed values
    and one value of three elements. *)
Definition sample_stream : value :=
  VDict [ ("stream", VDict [("container", VStr "api")]);
          ("values",
            VList [ VList [VStr "1793700000000000000"; VStr "request processed status=429"];
                    VList [VStr "1793700001000000000"; VStr "partial"; VStr "extra"];
                    VList [VStr "1793700002000000000"; VStr "request processed status=429"] ]) ].

Definition sample_log_body : value :=
  VDict [ ("status", VStr "success");
          ("data", VDict [ ("resultType", VStr "streams");
                           ("result", VList [sample_stream]) ]) ].

(** A run in which every service answers; the model gives no verdict. *)
Definition all_up : Env.t :=
  Env.mk None None (fun _ => Response empty_matrix) (fun _ => Response empty_matrix)
    (fun _ => Response sample_log_body) (Response (VDict []))
    sample_now sample_now sample_now sample_now sample_now.

(** The log store answers the severity query and refuses the rate-limit
    query. *)
Definition rate_limit_query_down : Env.t :=
  Env.mk None None (fun _ => Response empty_matrix) (fun _ => Response empty_matrix)
    (fun query => if String.eqb query severity_query then Response sample_log_body
                  else RequestException "read timed out")
    (Response (VDict []))
    sample_now sample_now sample_now sample_now sample_now.

(** The log store refuses the severity query and answers the rate-limit
    query. *)
Definition severity_query_down : Env.t :=
  Env.mk None None (fun _ => Response empty_matrix) (fun _ => Response empty_matrix)
    (fun query => if String.eqb query severity_query
                  then RequestException "read timed out"
                  else Response sample_log_body)
    (Response (VDict []))
    sample_now sample_now sample_now sample_now sample_now.

(* ===================================================================== *)
(** ** Shapes used by the further properties *)
(* ===================================================================== *)

Definition is_list (v : value) : bool :=
  match v with VList _ => true | _ => false end.

(** The entries one item of a stream's [values] yields: a list of two
    elements gives one entry, a list of any other length none. *)
Definition pair_entry (labels v : value) : list (value * value * value) :=
  match v with
  | VList [ts_ns; line] => [(ts_ns, line, labels)]
  | _ => []
  end.

(** The number of log entries of a category. *)
Definition count_category (category : string) (entries : list Loki.entry) : Z :=
  Z.of_nat (List.length (filter (fun e => String.eqb (Loki.category e) category) entries)).

(** [metadata.json] holds a JSON array. *)
Definition metadata_not_object : Env.t :=
  Env.mk (Some (VList [])) None (fun _ => unreachable) (fun _ => unreachable)
    (fun _ => unreachable) unreachable
    sample_now sample_now sample_now sample_now sample_now.

(** The model answers with a JSON array. *)
Definition verdict_not_object : Env.t :=
  Env.mk None None (fun _ => unreachable) (fun _ => unreachable)
    (fun _ => unreachable) (Response (VList [VStr "HEALTHY"]))
    sample_now sample_now sample_now sample_now sample_now.


(** Run metadata that already record a profile and a start. *)
Definition recorded_metadata : dict :=
  [ ("profile", VStr "high"); ("start_utc", VStr "2026-11-03T10:00:00+00:00") ].

Definition recorded_env : Env.t :=
  Env.mk (Some (VDict recorded_metadata)) None (fun _ => unreachable)
    (fun _ => unreachable) (fun _ => unreachable) unreachable
    sample_now sample_now sample_now sample_now sample_now.

(** A log snapshot of twenty entries. *)
Definition busy_logs : Loki.payload :=
  Loki.mk EmptyString EmptyString severity_query []
    (repeat (Loki.mk_entry (VStr "1793700000000000000") (VStr "error: pool exhausted")
               (VDict []) "severity") 20).

(** An analysis record the renderers can lay out: its findings, bottlenecks,
    likely causes and next actions are lists (or absent, or empty), its
    signal bundle is one the signal builder made, and its deterministic
    reasons are texts. *)
Definition list_or_nothing (v : value) : bool :=
  match v with
  | VList _ => true
  | _ => negb (truthy v)
  end.

Definition renderable (analysis : dict) (signals : Signals.t) (reasons : list string)
  : Prop :=
  list_or_nothing (dict_get_or analysis "findings" (VList [])) = true /\
  list_or_nothing (dict_get_or analysis "bottlenecks" (VList [])) = true /\
  list_or_nothing (dict_get_or analysis "likely_causes" (VList [])) = true /\
  list_or_nothing (dict_get_or analysis "next_actions" (VList [])) = true /\
  dict_get analysis "rate_limit_signals" = signals_to_value signals /\
  dict_get analysis "deterministic_reasons" = VList (map VStr reasons).

(** The sample analysis after the status policy ran on the sample
    bundle. *)
Definition laid_out_analysis : dict :=
  match apply_status_policy sample_analysis sample_signals (VStr "low") with
  | Ok out => out
  | Raise _ => sample_analysis
  end.

(* ===================================================================== *)
(** ** Proof tactics of the further properties *)
(* ===================================================================== *)

(** Read the fields of a signal bundle stored as a dictionary. *)
Ltac signal_fields :=
  unfold signals_to_value;
  cbn [get_or get dict_get_or dict_get assoc_get String.eqb Ascii.eqb Bool.eqb bind].

(** The items of [root_group.checks] of a summary, when that is an
    object: the check names with what the summary records for each. *)
Definition declared_checks (summary : value) : list (string * value) :=
  match summary with
  | VDict sd =>
      match py_or (dict_get sd "root_group") (VDict []) with
      | VDict rd =>
          match py_or (dict_get rd "checks") (VDict []) with
          | VDict items => items
          | _ => []
          end
      | _ => []
      end
  | _ => []
  end.

(** A summary in the layout that lists the checks of the root group in
    an array, and one with a check whose record is not an object. *)
Definition summary_with_check_array : value :=
  VDict [ ("root_group",
            VDict [ ("checks",
                      VList [ VDict [ ("name", VStr "create post status 201");
                                      ("passes", VInt 5); ("fails", VInt 95) ] ]) ]) ].

Definition summary_with_odd_check : value :=
  VDict [ ("root_group",
            VDict [ ("checks",
                      VDict [ ("create post status 201", VStr "n/a");
                              ("comment status ok",
                                VDict [("passes", VInt 9); ("fails", VInt 1)]) ]) ]) ].

(** The keys of the analysis that [main] and the status policy write
    themselves. *)
Definition BOOKKEEPING_KEYS : list string :=
  [ "data_source_health"; "profile"; "run_dir"; "generated_at"; "rate_limit_signals";
    "findings"; "deterministic_status"; "deterministic_reasons"; "status" ].

(** A verdict of the model that also claims a profile and a run
    directory. *)
Definition meddling_verdict : dict :=
  [ ("status", VStr "WARNING");
    ("summary", VStr "Latency is rising.");
    ("profile", VStr "insane");
    ("run_dir", VStr "/etc");
    ("confidence", VFloat f_0_6) ].

Definition meddling_model : Env.t :=
  Env.mk None None (fun _ => unreachable) (fun _ => unreachable)
    (fun _ => unreachable) (Response (VDict meddling_verdict))
    sample_now sample_now sample_now sample_now sample_now.


(** The analysis file of a run is usable by the index: missing,
    unreadable, or a JSON object. *)
Definition analysis_is_object (run_dir : Entry.t) : bool :=
  isinstance_dict (read_json_file (Entry.analysis_json run_dir) (VDict [])).

(* ===================================================================== *)
(** ** The model's reply: [parse_model_json] *)
(* ===================================================================== *)

Section ModelReply.

(** [json.loads]: the value a text denotes, [None] when it raises
    [JSONDecodeError]. *)
Variable json_loads : string -> option value.

(** The text up to and including its last closing brace. *)
Fixpoint through_last_brace (s : string) : option string :=
  match s with
  | EmptyString => None
  | String c r =>
      match through_last_brace r with
      | Some t => Some (String c t)
      | None => if code c =? 125 then Some (String c EmptyString) else None
      end
  end.

(** [re.search(r"\{[\s\S]*\}", s).group(0)]: the leftmost match starts
    at the first opening brace that has a closing brace after it, and
    the greedy star takes it to the last closing brace of the text. An
    opening brace without a closing brace after it leaves no match at
    any later position either. *)
Fixpoint brace_span (s : string) : option string :=
  match s with
  | EmptyString => None
  | String c r =>
      if code c =? 123 then
        match through_last_brace r with
        | Some t => Some (String c t)
        | None => None
        end
      else brace_span r
  end.

(** [parse_model_json(raw_text)] for a text whose white space at both
    ends, if any, is ASCII white space. *)
Definition parse_model_json (raw_text : string) : value :=
  let raw_text := strip raw_text in
  if String.eqb raw_text EmptyString then VDict []
  else
    match json_loads raw_text with
    | Some v => v
    | None =>
        match brace_span raw_text with
        | None => VDict []
        | Some group =>
            match json_loads group with
            | Some v => v
            | None => VDict []
            end
        end
    end.

End ModelReply.

(** The text holds no character with code [n]. *)
Definition without_char (n : Z) (s : string) : bool :=
  all_chars (fun c => negb (code c =? n)) s.

(** A JSON text and a parser that knows this text only. *)
Definition verdict_text : string :=
  "{" ++ dquote ++ "status" ++ dquote ++ ": " ++ dquote ++ "HEALTHY" ++ dquote ++ "}".

Definition verdict_only (text : string) : option value :=
  if String.eqb text verdict_text then Some (VDict [("status", VStr "HEALTHY")])
  else None.

(** A name has counts in the per-check table. *)
Definition has_counts (per_check : list (string * Check.t)) (name : string) : bool :=
  match assoc_get per_check name with Some _ => true | None => false end.


(* ===================================================================== *)
(** * Properties *)
(* ===================================================================== *)

(** ** The error monad *)

Lemma bind_ok_inv {A B : Type} (c : result A) (k : A -> result B) (b : B) :
  bind c k = Ok b -> exists a, c = Ok a /\ k a = Ok b.
Proof.
  destruct c as [a | e]; simpl; intros H; [eauto | discriminate].
Qed.

Lemma for_each_app {A S : Type} (xs ys : list A) (body : S -> A -> result S) (s : S) :
  for_each (xs ++ ys)%list body s = (s' <- for_each xs body s ;; for_each ys body s').
Proof.
  revert s; induction xs as [| x xs IH]; intros s; simpl; [reflexivity |].
  destruct (body s x); simpl; auto.
Qed.


(** ** Insertion-ordered maps *)

Lemma assoc_get_set_same {A : Type} (d : list (string * A)) (k : string) (v : A) :
  assoc_get (assoc_set d k v) k = Some v.
Proof.
  induction d as [| [k' v'] d IH]; simpl.
  - rewrite String.eqb_refl; reflexivity.
  - destruct (String.eqb k' k) eqn:E; simpl; rewrite E; auto.
Qed.

Lemma assoc_get_set_other {A : Type} (d : list (string * A)) (k k' : string) (v : A) :
  k' <> k -> assoc_get (assoc_set d k v) k' = assoc_get d k'.
Proof.
  intros Hne; induction d as [| [k0 v0] d IH]; simpl.
  - destruct (String.eqb k k') eqn:E; [apply String.eqb_eq in E; congruence | reflexivity].
  - destruct (String.eqb k0 k) eqn:E; simpl.
    + apply String.eqb_eq in E; subst k0.
      destruct (String.eqb k k') eqn:E'; [apply String.eqb_eq in E'; congruence | reflexivity].
    + destruct (String.eqb k0 k'); auto.
Qed.

Lemma assoc_get_set {A : Type} (d : list (string * A)) (k k' : string) (v : A) :
  assoc_get (assoc_set d k v) k' = if String.eqb k k' then Some v else assoc_get d k'.
Proof.
  destruct (String.eqb k k') eqn:E.
  - apply String.eqb_eq in E; subst; apply assoc_get_set_same.
  - apply assoc_get_set_other; intros ->; rewrite String.eqb_refl in E; discriminate.
Qed.

Lemma dict_get_set (d : dict) (k k' : string) (v : value) :
  dict_get (assoc_set d k v) k' = if String.eqb k k' then v else dict_get d k'.
Proof.
  unfold dict_get; rewrite assoc_get_set; destruct (String.eqb k k'); reflexivity.
Qed.

Lemma dict_get_or_set (d : dict) (k k' : string) (v x : value) :
  dict_get_or (assoc_set d k v) k' x = if String.eqb k k' then v else dict_get_or d k' x.
Proof.
  unfold dict_get_or; rewrite assoc_get_set; destruct (String.eqb k k'); reflexivity.
Qed.

Lemma assoc_get_Some_key {A : Type} (d : list (string * A)) (k : string) (v : A) :
  assoc_get d k = Some v -> In k (map fst d).
Proof.
  induction d as [| [k' v'] d IH]; simpl; [discriminate |].
  destruct (String.eqb k' k) eqn:E; [apply String.eqb_eq in E; auto | auto].
Qed.

Lemma assoc_get_None_key {A : Type} (d : list (string * A)) (k : string) :
  assoc_get d k = None -> ~ In k (map fst d).
Proof.
  induction d as [| [k' v'] d IH]; simpl; [tauto |].
  destruct (String.eqb k' k) eqn:E; [discriminate |].
  intros H [-> | I]; [rewrite String.eqb_refl in E; discriminate | exact (IH H I)].
Qed.


Lemma mem_In (x : string) (l : list string) : mem x l = true <-> In x l.
Proof.
  unfold mem; rewrite existsb_exists; split.
  - intros (y & Hy & E); apply String.eqb_eq in E; subst; exact Hy.
  - intros H; exists x; split; [exact H | apply String.eqb_refl].
Qed.

(* ===================================================================== *)
(** ** Status Policy Engine *)
(* ===================================================================== *)

Lemma severity_levels (s : string) :
  In s LEVELS -> 0 <= severity s <= 2.
Proof.
  intros [<- | [<- | [<- | []]]]; vm_compute; split; discriminate.
Qed.


(** The deterministic status is HEALTHY or CRITICAL. *)
Lemma policy_check_fold_status (cs : list Check.t) (st : string * list string) :
  fst st = HEALTHY \/ fst st = CRITICAL ->
  fst (fold_left policy_check_step cs st) = HEALTHY \/
  fst (fold_left policy_check_step cs st) = CRITICAL.
Proof.
  revert st; induction cs as [| c cs IH]; simpl; intros st H; [exact H |].
  apply IH. unfold policy_check_step.
  destruct (float_lt (Check.pass_rate c) f_0_20); simpl; auto.
Qed.

Lemma deterministic_policy_status (signals : Signals.t) (profile : value)
  (d : string) (reasons : list string) :
  deterministic_policy signals profile = Ok (d, reasons) ->
  d = HEALTHY \/ d = CRITICAL.
Proof.
  unfold deterministic_policy; intros H; bind_inv H.
  injection H as H. 
  match type of H with fold_left _ _ ?st = _ =>
    pose proof (policy_check_fold_status (Signals.critical_write_checks signals) st) as P;
    rewrite H in P; simpl in P; apply P
  end.
  destruct (Signals.http_req_failed_rate signals) as [fr |]; simpl; auto.
  destruct (float_gt fr a); simpl; auto.
Qed.

(** What [model_status] makes of the model's status field. *)
Lemma model_status_spec (analysis : dict) :
  str_or_falsy (dict_get analysis "status") = true ->
  exists m,
    model_status analysis = Ok m /\ In m LEVELS /\
    (truthy (dict_get analysis "status") = false -> m = WARNING) /\
    (forall s, dict_get analysis "status" = VStr s -> In (upper s) LEVELS -> m = upper s) /\
    (forall s, dict_get analysis "status" = VStr s -> ~ In (upper s) LEVELS -> m = WARNING).
Proof.
  unfold model_status, py_or, str_or_falsy.
  destruct (dict_get analysis "status") as [| b | n | f | s | l | d] eqn:E; intros H;
    try (apply negb_true_iff in H; rewrite H;
         exists WARNING; split; [reflexivity |]; split; [simpl; auto |];
         split; [reflexivity |]; split; intros s' E'; discriminate E').
  destruct (truthy (VStr s)) eqn:T.
  - destruct (assoc_get severity_order (upper s)) as [n |] eqn:A.
    + assert (L : In (upper s) LEVELS) by (eapply (assoc_get_Some_key severity_order); eauto).
      exists (upper s); split; [reflexivity |]; split; [exact L |].
      split; [discriminate |]; split.
      * intros s' [= <-] _; reflexivity.
      * intros s' [= <-] N; contradiction.
    + assert (L : ~ In (upper s) LEVELS) by (apply (assoc_get_None_key severity_order); exact A).
      exists WARNING; split; [reflexivity |]; split; [simpl; auto |].
      split; [reflexivity |]; split.
      * intros s' [= <-] L'; contradiction.
      * reflexivity.
  - exists WARNING; split; [reflexivity |]; split; [simpl; auto |].
    split; [reflexivity |]; split; [| reflexivity].
    simpl in T; apply negb_false_iff, String.eqb_eq in T; subst s.
    intros s' [= <-] L; vm_compute in L.
    destruct L as [L | [L | [L | []]]]; discriminate.
Qed.

(** The shape of the record [apply_status_policy] returns. *)
Lemma apply_status_policy_fields (analysis : dict) (signals : Signals.t)
  (profile : value) (d m : string) (reasons : list string) :
  deterministic_policy signals profile = Ok (d, reasons) ->
  model_status analysis = Ok m ->
  iterable (dict_get_or analysis "findings" (VList [])) = true ->
  exists out,
    apply_status_policy analysis signals profile = Ok out /\
    dict_get out "status" = VStr (merge_status m d) /\
    dict_get out "deterministic_status" = VStr d /\
    dict_get out "deterministic_reasons" = VList (map VStr reasons) /\
    dict_get out "rate_limit_signals" = signals_to_value signals.
Proof.
  intros Hd Hm Hf. unfold apply_status_policy. rewrite Hd, Hm. simpl.
  match goal with |- context [bind ?c _] => assert (exists a1, c = Ok a1) as (a1 & ->) end.
  { destruct (_ && _); [| eauto].
    unfold iterable, dict_get_or in Hf. unfold dict_setdefault, dict_get.
    destruct (assoc_get analysis "findings") as [v |] eqn:E.
    - rewrite E. destruct (py_iter v); [simpl; eauto | discriminate].
    - rewrite assoc_get_set_same. simpl. eauto. }
  simpl. eexists; split; [reflexivity |].
  rewrite !dict_get_set. simpl. auto.
Qed.



(* ===================================================================== *)
(** ** Rate-Limit Signal Builder *)
(* ===================================================================== *)

(** The loop over the canonical names in closed form. *)
Lemma write_check_fold (per_check : list (string * Check.t)) (names : list string)
  (st : list Check.t * list string) :
  fold_left (write_check_step per_check) names st =
  ((fst st ++ flat_map (named_record per_check) names)%list,
   (snd st ++ filter (severe_name per_check) names)%list).
Proof.
  revert st; induction names as [| n names IH]; intros [cs ss]; simpl.
  - rewrite !app_nil_r; reflexivity.
  - rewrite IH. unfold write_check_step, named_record, severe_name, severely_constrained.
    destruct (assoc_get per_check n) as [r |]; simpl; [| reflexivity].
    destruct (float_lt (Check.pass_rate r) f_0_20); simpl;
      rewrite <- !app_assoc; reflexivity.
Qed.

Lemma scan_write_checks_spec (per_check : list (string * Check.t)) :
  scan_write_checks per_check =
  (flat_map (named_record per_check) CANONICAL_WRITE_CHECKS,
   filter (severe_name per_check) CANONICAL_WRITE_CHECKS).
Proof.
  unfold scan_write_checks; rewrite write_check_fold; reflexivity.
Qed.

(** The endpoint list is the table restricted to the flagged names. *)
Lemma endpoints_of_table (names : list string) :
  endpoints_of names =
  map snd (filter (fun ne => mem (fst ne) names) CHECK_ENDPOINTS).
Proof.
  unfold endpoints_of, CHECK_ENDPOINTS; simpl.
  destruct (mem "create post status 201" names);
    destruct (mem "comment status ok" names);
    destruct (mem "friend request status acceptable" names);
    destruct (mem "dm send status acceptable" names); reflexivity.
Qed.

Lemma endpoints_of_In (names : list string) (ep : string) :
  In ep (endpoints_of names) <->
  exists n, In (n, ep) CHECK_ENDPOINTS /\ In n names.
Proof.
  rewrite endpoints_of_table, in_map_iff; split.
  - intros ([n e] & <- & H); apply filter_In in H; destruct H as [H M].
    exists n; split; [exact H | apply mem_In; exact M].
  - intros (n & H & M); exists (n, ep); split; [reflexivity |].
    apply filter_In; split; [exact H | apply mem_In; exact M].
Qed.

(** What a successful run of the signal builder computed. *)
Lemma build_rate_limit_signals_inv (summary profile : value) (loki : Loki.payload)
  (s : Signals.t) :
  build_rate_limit_signals summary profile loki = Ok s ->
  exists failed_rate declared threshold per_check,
    observed_failed_rate summary = Ok failed_rate /\
    _parse_failure_threshold_from_summary summary = Ok declared /\
    match declared with
    | Some t => threshold = t
    | None => profile_default_threshold profile = Ok threshold
    end /\
    _extract_root_group_checks summary = Ok per_check /\
    Signals.http_req_failed_rate s = failed_rate /\
    Signals.http_req_failed_threshold s = threshold /\
    Signals.loki_rate_limit_entry_count s =
      Z.of_nat (List.length
                  (filter (fun e => String.eqb (Loki.category e) "rate_limit")
                     (Loki.entries loki))) /\
    Signals.critical_write_checks s =
      flat_map (named_record per_check) CANONICAL_WRITE_CHECKS /\
    Signals.likely_rate_limited_endpoints s =
      endpoints_of (filter (severe_name per_check) CANONICAL_WRITE_CHECKS).
Proof.
  unfold build_rate_limit_signals; intros H.
  bind_inv H. rename a into fr, Ha into Hfr.
  bind_inv H. rename a into dec, Ha into Hdec.
  bind_inv H. rename a into thr, Ha into Hthr.
  bind_inv H. rename a into pc, Ha into Hpc.
  rewrite scan_write_checks_spec in H. injection H as <-.
  exists fr, dec, thr, pc. cbn [Signals.http_req_failed_rate
    Signals.http_req_failed_threshold Signals.loki_rate_limit_entry_count
    Signals.critical_write_checks Signals.likely_rate_limited_endpoints].
  repeat split; auto.
  destruct dec; [injection Hthr as ->; reflexivity | exact Hthr].
Qed.

(** The loop of the policy over the critical write checks in closed
    form. *)
Lemma policy_check_fold (cs : list Check.t) (st : string * list string) :
  fold_left policy_check_step cs st =
  (if existsb severely_constrained cs then CRITICAL else fst st,
   (snd st ++ map write_check_reason (filter severely_constrained cs))%list).
Proof.
  revert st; induction cs as [| c cs IH]; intros [d rs]; simpl.
  - rewrite app_nil_r; reflexivity.
  - rewrite IH. unfold policy_check_step, severely_constrained.
    destruct (float_lt (Check.pass_rate c) f_0_20); simpl.
    + rewrite <- app_assoc; simpl.
      destruct (existsb _ cs); reflexivity.
    + reflexivity.
Qed.

(** The deterministic policy in closed form, for a profile that is a
    string. *)
Lemma deterministic_policy_spec (signals : Signals.t) (p : string) :
  exists threshold,
    policy_threshold signals (VStr p) = Ok threshold /\
    deterministic_policy signals (VStr p) =
    Ok (let exceeded :=
          match Signals.http_req_failed_rate signals with
          | Some fr => float_gt fr threshold
          | None => false
          end in
        (if exceeded || existsb severely_constrained (Signals.critical_write_checks signals)
         then CRITICAL else HEALTHY,
         ((match Signals.http_req_failed_rate signals with
           | Some fr => if float_gt fr threshold
                        then [failed_rate_reason fr threshold] else []
           | None => []
           end) ++
          map write_check_reason
            (filter severely_constrained (Signals.critical_write_checks signals)))%list)).
Proof.
  unfold deterministic_policy.
  assert (exists t, policy_threshold signals (VStr p) = Ok t) as (t & Ht).
  { unfold policy_threshold, profile_default_threshold.
    destruct (float_truthy _); eauto. }
  exists t; split; [exact Ht |]. rewrite Ht; simpl.
  rewrite policy_check_fold.
  destruct (Signals.http_req_failed_rate signals) as [fr |]; simpl; [| reflexivity].
  destruct (float_gt fr t); simpl; [| reflexivity].
  destruct (existsb _ _); reflexivity.
Qed.

Lemma canonical_names_of_table :
  map fst CHECK_ENDPOINTS = CANONICAL_WRITE_CHECKS.
Proof. reflexivity. Qed.

Lemma table_name_canonical (name endpoint : string) :
  In (name, endpoint) CHECK_ENDPOINTS -> In name CANONICAL_WRITE_CHECKS.
Proof.
  intros H; rewrite <- canonical_names_of_table.
  change name with (fst (name, endpoint)); apply in_map; exact H.
Qed.

(** No two rows of the endpoint table share an endpoint. *)
Lemma table_endpoint_injective (n n' e : string) :
  In (n, e) CHECK_ENDPOINTS -> In (n', e) CHECK_ENDPOINTS -> n = n'.
Proof.
  unfold CHECK_ENDPOINTS; simpl; intros H H'.
  repeat match goal with
         | H : _ \/ _ |- _ => destruct H
         | H : False |- _ => destruct H
         | H : (_, _) = (_, _) |- _ => injection H as ? ?; subst
         end; congruence.
Qed.

Lemma severe_name_inv (per_check : list (string * Check.t)) (n : string) :
  severe_name per_check n = true ->
  exists r, assoc_get per_check n = Some r /\ float_lt (Check.pass_rate r) f_0_20 = true.
Proof.
  unfold severe_name, severely_constrained.
  destruct (assoc_get per_check n) as [r |]; [eauto | discriminate].
Qed.

(** C5. For every canonical write-path check that has counts in the
    run summary and whose pass rate is below 20%: the signal builder
    flags it as severely constrained and emits its record, the endpoint
    the table gives for it is in the list of likely rate-limited
    endpoints, and the deterministic status is CRITICAL with a reason
    that names the check and its pass rate. Conversely every endpoint in
    that list is the table's endpoint of a check with counts and a pass
    rate below 20%. *)
Theorem severely_constrained_check_escalates :
  forall (summary : value) (p : string) (loki : Loki.payload) (s : Signals.t)
         (per_check : list (string * Check.t)) (name endpoint : string)
         (rec : Check.t),
    build_rate_limit_signals summary (VStr p) loki = Ok s ->
    _extract_root_group_checks summary = Ok per_check ->
    In (name, endpoint) CHECK_ENDPOINTS ->
    assoc_get per_check name = Some rec ->
    float_lt (Check.pass_rate rec) f_0_20 = true ->
    In name (snd (scan_write_checks per_check)) /\
    In (Check.mk (Check.passes rec) (Check.fails rec) (Check.pass_rate rec) (Some name))
       (Signals.critical_write_checks s) /\
    In endpoint (Signals.likely_rate_limited_endpoints s) /\
    (exists reasons,
        deterministic_policy s (VStr p) = Ok (CRITICAL, reasons) /\
        In ("Write check '" ++ name ++ "' pass rate " ++
            format_pct 2 (Check.pass_rate rec) ++ " < 20%") reasons) /\
    (forall ep, In ep (Signals.likely_rate_limited_endpoints s) ->
       exists n r, In (n, ep) CHECK_ENDPOINTS /\ assoc_get per_check n = Some r /\
                   float_lt (Check.pass_rate r) f_0_20 = true).
Proof.
  intros summary p loki s per_check name endpoint rec Hb Hpc Ht Hrec Hlt.
  apply build_rate_limit_signals_inv in Hb.
  destruct Hb as (fr & dec & thr & pc & _ & _ & _ & Hpc' & _ & _ & _ & Hcw & Hep).
  rewrite Hpc in Hpc'; injection Hpc' as <-.
  pose proof (table_name_canonical _ _ Ht) as Hc.
  assert (Hsev : In name (filter (severe_name per_check) CANONICAL_WRITE_CHECKS)).
  { apply filter_In; split; [exact Hc |].
    unfold severe_name, severely_constrained; rewrite Hrec; exact Hlt. }
  assert (Hin : In (Check.mk (Check.passes rec) (Check.fails rec) (Check.pass_rate rec)
                      (Some name))
                   (Signals.critical_write_checks s)).
  { rewrite Hcw. apply in_flat_map; exists name; split; [exact Hc |].
    unfold named_record; rewrite Hrec; simpl; auto. }
  split; [rewrite scan_write_checks_spec; cbn [snd]; exact Hsev |].
  split; [exact Hin |].
  split; [rewrite Hep; apply endpoints_of_In; exists name; auto |].
  split.
  - destruct (deterministic_policy_spec s p) as (t & _ & ->).
    cbv zeta.
    assert (E : existsb severely_constrained (Signals.critical_write_checks s) = true).
    { apply existsb_exists; eexists; split; [exact Hin | exact Hlt]. }
    rewrite E, orb_true_r.
    eexists; split; [reflexivity |].
    apply in_or_app; right.
    change ("Write check '" ++ name ++ "' pass rate " ++
            format_pct 2 (Check.pass_rate rec) ++ " < 20%")
      with (write_check_reason
              (Check.mk (Check.passes rec) (Check.fails rec) (Check.pass_rate rec)
                 (Some name))).
    apply in_map, filter_In; split; [exact Hin | exact Hlt].
  - rewrite Hep; intros ep Hep'. apply endpoints_of_In in Hep'.
    destruct Hep' as (n & Hn & Hf). apply filter_In in Hf; destruct Hf as [_ Hs].
    destruct (severe_name_inv _ _ Hs) as (r & Hr & Hl).
    exists n, r; auto.
Qed.

Lemma severely_constrained_check_escalates_witness :
  In "create post status 201" (snd (scan_write_checks sample_per_check)) /\
  In (Check.mk (VInt 5) (VInt 95) f_0_05 (Some "create post status 201"))
     (Signals.critical_write_checks sample_signals) /\
  In "POST /api/posts" (Signals.likely_rate_limited_endpoints sample_signals) /\
  (exists reasons,
      deterministic_policy sample_signals (VStr "low") = Ok (CRITICAL, reasons) /\
      In ("Write check '" ++ "create post status 201" ++ "' pass rate " ++
          format_pct 2 f_0_05 ++ " < 20%") reasons) /\
  (forall ep, In ep (Signals.likely_rate_limited_endpoints sample_signals) ->
     exists n r, In (n, ep) CHECK_ENDPOINTS /\ assoc_get sample_per_check n = Some r /\
                 float_lt (Check.pass_rate r) f_0_20 = true).
Proof.
  apply (severely_constrained_check_escalates sample_summary "low" no_logs
           sample_signals sample_per_check "create post status 201" "POST /api/posts"
           (Check.mk (VInt 5) (VInt 95) f_0_05 None)).
  - vm_compute; reflexivity.
  - vm_compute; reflexivity.
  - simpl; auto.
  - reflexivity.
  - vm_compute; reflexivity.
Defined.

(** The example of the specification: 5 passes and 95 fails give a pass
    rate of 0.05, the reason text and the endpoint. *)
Example create_post_example :
  build_rate_limit_signals sample_summary (VStr "low") no_logs = Ok sample_signals /\
  deterministic_policy sample_signals (VStr "low") =
  Ok (CRITICAL,
      [ "http_req_failed rate 0.1200 exceeds profile threshold 0.08";
        "Write check 'create post status 201' pass rate 5.00% < 20%" ]).
Proof. split; vm_compute; reflexivity. Qed.

(** C10. For every canonical write-path check that has no counts in the
    run summary: the signal builder emits no record for it, does not
    flag it, and does not list its endpoint; and whenever the
    deterministic status is CRITICAL, the cause is the failure rate or
    another check that does have counts. *)
Theorem absent_check_contributes_nothing :
  forall (summary : value) (p : string) (loki : Loki.payload) (s : Signals.t)
         (per_check : list (string * Check.t)) (name endpoint : string),
    build_rate_limit_signals summary (VStr p) loki = Ok s ->
    _extract_root_group_checks summary = Ok per_check ->
    In (name, endpoint) CHECK_ENDPOINTS ->
    assoc_get per_check name = None ->
    (forall r, In r (Signals.critical_write_checks s) ->
               Check.check_name r <> Some name) /\
    ~ In name (snd (scan_write_checks per_check)) /\
    ~ In endpoint (Signals.likely_rate_limited_endpoints s) /\
    (forall reasons,
        deterministic_policy s (VStr p) = Ok (CRITICAL, reasons) ->
        (exists fr t, Signals.http_req_failed_rate s = Some fr /\
                      policy_threshold s (VStr p) = Ok t /\ float_gt fr t = true) \/
        (exists n r, n <> name /\ In n CANONICAL_WRITE_CHECKS /\
                     assoc_get per_check n = Some r /\
                     float_lt (Check.pass_rate r) f_0_20 = true)).
Proof.
  intros summary p loki s per_check name endpoint Hb Hpc Ht Hnone.
  apply build_rate_limit_signals_inv in Hb.
  destruct Hb as (fr & dec & thr & pc & _ & _ & _ & Hpc' & _ & _ & _ & Hcw & Hep).
  rewrite Hpc in Hpc'; injection Hpc' as <-.
  assert (Hns : severe_name per_check name = false)
    by (unfold severe_name; rewrite Hnone; reflexivity).
  assert (Hrecs : forall r, In r (Signals.critical_write_checks s) ->
                    exists n r0, In n CANONICAL_WRITE_CHECKS /\
                                 assoc_get per_check n = Some r0 /\
                                 Check.check_name r = Some n /\
                                 Check.pass_rate r = Check.pass_rate r0).
  { rewrite Hcw; intros r Hr. apply in_flat_map in Hr. destruct Hr as (n & Hn & Hr).
    unfold named_record in Hr. destruct (assoc_get per_check n) as [r0 |] eqn:En;
      [| destruct Hr].
    destruct Hr as [<- | []]. exists n, r0; auto. }
  split; [| split; [| split]].
  - intros r Hr E. destruct (Hrecs r Hr) as (n & r0 & _ & Hg & Hname & _).
    rewrite Hname in E; injection E as ->. congruence.
  - rewrite scan_write_checks_spec; cbn [snd]. intros H; apply filter_In in H.
    destruct H as [_ H]; congruence.
  - rewrite Hep; intros H; apply endpoints_of_In in H. destruct H as (n & Hn & Hf).
    rewrite (table_endpoint_injective _ _ _ Hn Ht) in Hf.
    apply filter_In in Hf; destruct Hf as [_ Hf]; congruence.
  - intros reasons Hd.
    destruct (deterministic_policy_spec s p) as (t & Hthr & Hspec).
    rewrite Hspec in Hd; cbv zeta in Hd. injection Hd as Hst _.
    revert Hst.
    destruct (Signals.http_req_failed_rate s) as [fr0 |] eqn:Efr.
    + destruct (float_gt fr0 t) eqn:Ex; [intros _; left; exists fr0, t; auto |].
      cbn [orb].
      destruct (existsb severely_constrained (Signals.critical_write_checks s)) eqn:Ee;
        [intros _ | unfold HEALTHY, CRITICAL; discriminate].
      right. apply existsb_exists in Ee. destruct Ee as (r & Hr & Hs).
      destruct (Hrecs r Hr) as (n & r0 & Hn & Hg & _ & Hp).
      exists n, r0. unfold severely_constrained in Hs. rewrite Hp in Hs.
      repeat split; auto. intros ->; congruence.
    + cbn [orb].
      destruct (existsb severely_constrained (Signals.critical_write_checks s)) eqn:Ee;
        [intros _ | unfold HEALTHY, CRITICAL; discriminate].
      right. apply existsb_exists in Ee. destruct Ee as (r & Hr & Hs).
      destruct (Hrecs r Hr) as (n & r0 & Hn & Hg & _ & Hp).
      exists n, r0. unfold severely_constrained in Hs. rewrite Hp in Hs.
      repeat split; auto. intros ->; congruence.
Qed.

Lemma absent_check_contributes_nothing_witness :
  (forall r, In r (Signals.critical_write_checks sample_signals) ->
             Check.check_name r <> Some "comment status ok") /\
  ~ In "comment status ok" (snd (scan_write_checks sample_per_check)) /\
  ~ In "POST /api/posts/:id/comments"
       (Signals.likely_rate_limited_endpoints sample_signals) /\
  (forall reasons,
      deterministic_policy sample_signals (VStr "low") = Ok (CRITICAL, reasons) ->
      (exists fr t, Signals.http_req_failed_rate sample_signals = Some fr /\
                    policy_threshold sample_signals (VStr "low") = Ok t /\
                    float_gt fr t = true) \/
      (exists n r, n <> "comment status ok" /\ In n CANONICAL_WRITE_CHECKS /\
                   assoc_get sample_per_check n = Some r /\
                   float_lt (Check.pass_rate r) f_0_20 = true)).
Proof.
  apply (absent_check_contributes_nothing sample_summary "low" no_logs sample_signals
           sample_per_check "comment status ok" "POST /api/posts/:id/comments").
  - vm_compute; reflexivity.
  - vm_compute; reflexivity.
  - simpl; auto.
  - reflexivity.
Defined.

(** X1. When the bundle's threshold is not zero, a failure rate above it
    escalates: the deterministic status is CRITICAL, the reason holds the
    rate (four decimals) and the threshold, and the merged status is
    CRITICAL whatever status the model reported. *)
Lemma failed_rate_escalates (analysis : dict) (signals : Signals.t) (p : string)
  (failed_rate : float) :
  float_truthy (Signals.http_req_failed_threshold signals) = true ->
  Signals.http_req_failed_rate signals = Some failed_rate ->
  float_gt failed_rate (Signals.http_req_failed_threshold signals) = true ->
  str_or_falsy (dict_get analysis "status") = true ->
  iterable (dict_get_or analysis "findings" (VList [])) = true ->
  exists reasons out,
    deterministic_policy signals (VStr p) = Ok (CRITICAL, reasons) /\
    In ("http_req_failed rate " ++ format_f 4 failed_rate ++
        " exceeds profile threshold " ++
        float_repr (Signals.http_req_failed_threshold signals)) reasons /\
    apply_status_policy analysis signals (VStr p) = Ok out /\
    dict_get out "status" = VStr CRITICAL /\
    dict_get out "deterministic_status" = VStr CRITICAL.
Proof.
  intros Ht Hr Hg Hs Hf.
  destruct (deterministic_policy_spec signals p) as (t & Hthr & Hspec).
  unfold policy_threshold in Hthr; rewrite Ht in Hthr; injection Hthr as <-.
  rewrite Hr in Hspec; cbv zeta in Hspec; rewrite Hg in Hspec; cbn [orb] in Hspec.
  destruct (model_status_spec analysis Hs) as (m & Hm & Lm & _).
  destruct (apply_status_policy_fields analysis signals (VStr p) _ m _ Hspec Hm Hf)
    as (out & Ho & Hst & Hds & _).
  eexists; exists out. split; [exact Hspec |].
  split; [left; reflexivity |].
  split; [exact Ho |]. split; [| exact Hds].
  rewrite Hst. f_equal. unfold merge_status.
  destruct Lm as [<- | [<- | [<- | []]]]; reflexivity.
Qed.

(** The example of the specification: rate 0.12 against threshold 0.08. *)
Example failed_rate_example :
  deterministic_policy (Signals.mk (Some f_0_12) f_0_08 0 [] []) (VStr "medium") =
  Ok (CRITICAL, ["http_req_failed rate 0.1200 exceeds profile threshold 0.08"]).
Proof. vm_compute; reflexivity. Qed.

(** C2 (defect). A threshold of zero in the bundle is taken for a
    missing one: the policy compares with the profile default instead.
    The summary declares [rate<0] and observed a failure rate of 0.03,
    so the rate is present and exceeds the resolved threshold 0.0; yet
    for profile "low" (default 0.05) the deterministic status stays
    HEALTHY with no reason, and a model status HEALTHY is final. *)
Theorem zero_threshold_not_escalated :
  build_rate_limit_signals zero_threshold_summary (VStr "low") no_logs
    = Ok zero_threshold_signals /\
  Signals.http_req_failed_rate zero_threshold_signals = Some f_0_03 /\
  Signals.http_req_failed_threshold zero_threshold_signals = fzero /\
  float_gt f_0_03 fzero = true /\
  deterministic_policy zero_threshold_signals (VStr "low") = Ok (HEALTHY, []) /\
  (exists out,
     apply_status_policy [("status", VStr "HEALTHY")] zero_threshold_signals (VStr "low")
       = Ok out /\
     dict_get out "status" = VStr HEALTHY).
Proof.
  repeat split; try (vm_compute; reflexivity).
  eexists; split; vm_compute; reflexivity.
Qed.

(* ===================================================================== *)
(** ** Signal Extractor *)
(* ===================================================================== *)

(** C7 (defect). A failure rate of exactly 0.0 is lost: [metric_value]
    finds the number 0.0 under "rate", but [a or b] takes the zero for
    missing and falls through to "value", which is absent, so the
    highlight is [None]. *)
Theorem zero_failure_rate_reported_missing :
  metric_value (VDict [("http_req_failed", VDict [("values", VDict [("rate", VFloat fzero)])])])
    "http_req_failed" "rate" = Ok (Some fzero) /\
  extract_k6_highlights zero_rate_summary =
    Ok (Highlights.mk None None None None None).
Proof. split; vm_compute; reflexivity. Qed.

(** A rate that is a number other than zero is the highlight. *)
Example nonzero_rate_is_highlight :
  extract_k6_highlights sample_summary =
    Ok (Highlights.mk None (Some f_0_12) None None None).
Proof. vm_compute; reflexivity. Qed.

(* ===================================================================== *)
(** ** Per-check pass rates *)
(* ===================================================================== *)




(** A check without observations has the pass rate 1.0. *)
Example no_observations_example :
  _extract_root_group_checks sample_summary = Ok sample_per_check /\
  option_map Check.pass_rate (assoc_get sample_per_check "feed status 200") = Some f_1_0.
Proof. split; vm_compute; reflexivity. Qed.

(* ===================================================================== *)
(** ** Threshold resolution *)
(* ===================================================================== *)

(** *** Characters *)




Lemma digit_not_dot_or_exp (c : ascii) :
  is_digit c = true -> (code c =? 46) = false.
Proof. ascii_cases c. Qed.

(** *** Pieces of the pattern *)









(** *** Reading the group *)








(** *** The loop over the declared expressions *)









(** The examples of the specification: a declared [rate<0.08] wins over
    the default 0.05 of profile "low", and [rate<0.10] is recovered as
    0.10. *)
Example declared_threshold_examples :
  threshold_expressions sample_summary = ["rate<0.08"] /\
  option_map Signals.http_req_failed_threshold
    (match build_rate_limit_signals sample_summary (VStr "low") no_logs with
     | Ok s => Some s | Raise _ => None end) = Some f_0_08 /\
  profile_default "low" = f_0_05 /\
  _parse_failure_threshold_from_summary
    (VDict [("metrics",
             VDict [("http_req_failed",
                     VDict [("thresholds", VDict [("rate<0.10", VBool true)])])])])
    = Ok (Some f_0_10) /\
  decimal_value "0" (Some "10") = f_0_10 /\
  float_repr f_0_10 = "0.1".
Proof. repeat split; vm_compute; reflexivity. Qed.

(** Without a declaration the profile decides. *)
Example default_threshold_examples :
  map (fun p => option_map Signals.http_req_failed_threshold
                  (match build_rate_limit_signals (VDict []) (VStr p) no_logs with
                   | Ok s => Some s | Raise _ => None end))
    ["low"; "medium"; "high"; "extreme"; "insane"; "nightly"] =
  [Some f_0_05; Some f_0_08; Some f_0_10; Some f_0_12; Some f_0_15; Some f_0_08].
Proof. vm_compute; reflexivity. Qed.

(* ===================================================================== *)
(** ** Time Window Resolver *)
(* ===================================================================== *)


(** An epoch outside the years 1..9999 makes the resolver raise. *)
Example out_of_range_epoch_raises :
  parse_time_window
    (VDict [("start_epoch", VInt 0); ("end_epoch", VInt 1000000000000000000)])
    10 sample_now = Raise TimestampOutOfRange.
Proof. vm_compute; reflexivity. Qed.





(* ===================================================================== *)
(** ** Report Renderers *)
(* ===================================================================== *)

(** The HTML renderer reads neither [bottlenecks] nor [likely_causes]:
    whatever the two lists hold, the document is the same. *)
Lemma html_ignores_bottlenecks_and_causes
  (run_dir : string) (profile metadata : value) (health_map : list (string * Health.t))
  (highlights : Highlights.t) (analysis : dict) (loki : Loki.payload) (now : datetime)
  (b c : value) :
  render_report_html run_dir profile metadata health_map highlights
    (assoc_set (assoc_set analysis "bottlenecks" b) "likely_causes" c) loki now
  = render_report_html run_dir profile metadata health_map highlights analysis loki now.
Proof.
  unfold render_report_html.
  rewrite !dict_get_or_set, !dict_get_set.
  reflexivity.
Qed.

(** C9 (fails on the HTML renderer). The Markdown and the plain-text
    renderer render all four lists, with "None" for an empty one; the
    HTML renderer renders only the findings and the next actions: the
    headings "Bottlenecks" and "Likely Causes" and the items of the two
    lists are absent from its document, and replacing the two lists by
    anything leaves the document unchanged. *)
Theorem html_report_omits_bottlenecks_and_causes :
  (* Markdown and plain text: all four lists *)
  (shows "429 responses on post creation" (markdown_of sample_analysis) = true /\
   shows "database connection pool" (markdown_of sample_analysis) = true /\
   shows "rate limiter set too low" (markdown_of sample_analysis) = true /\
   shows "raise the write limit" (markdown_of sample_analysis) = true) /\
  (shows "429 responses on post creation" (text_of sample_analysis) = true /\
   shows "database connection pool" (text_of sample_analysis) = true /\
   shows "rate limiter set too low" (text_of sample_analysis) = true /\
   shows "raise the write limit" (text_of sample_analysis) = true) /\
  (* HTML: findings and next actions only *)
  (is_ok (html_of sample_analysis) = true /\
   shows "429 responses on post creation" (html_of sample_analysis) = true /\
   shows "raise the write limit" (html_of sample_analysis) = true /\
   shows "database connection pool" (html_of sample_analysis) = false /\
   shows "rate limiter set too low" (html_of sample_analysis) = false /\
   shows "Bottlenecks" (html_of sample_analysis) = false /\
   shows "Likely Causes" (html_of sample_analysis) = false) /\
  (forall b c : value,
     html_of (assoc_set (assoc_set sample_analysis "bottlenecks" b) "likely_causes" c)
     = html_of sample_analysis).
Proof.
  split; [| split; [| split]].
  - repeat split; vm_compute; reflexivity.
  - repeat split; vm_compute; reflexivity.
  - repeat split; vm_compute; reflexivity.
  - intros b c; unfold html_of; apply html_ignores_bottlenecks_and_causes.
Qed.

(** Empty lists: each of the four sections of the Markdown and of the
    plain-text document reads "None", and so do the two of the HTML
    document. *)
Example empty_lists_render_none :
  shows ("## Findings" ++ newline ++ "- None" ++ newline) (markdown_of empty_lists_analysis) = true /\
  shows ("## Bottlenecks" ++ newline ++ "- None" ++ newline) (markdown_of empty_lists_analysis) = true /\
  shows ("## Likely Causes" ++ newline ++ "- None" ++ newline) (markdown_of empty_lists_analysis) = true /\
  shows ("## Next Actions" ++ newline ++ "- None" ++ newline) (markdown_of empty_lists_analysis) = true /\
  shows ("Findings" ++ newline ++ "- None" ++ newline) (text_of empty_lists_analysis) = true /\
  shows ("Bottlenecks" ++ newline ++ "- None" ++ newline) (text_of empty_lists_analysis) = true /\
  shows ("Likely Causes" ++ newline ++ "- None" ++ newline) (text_of empty_lists_analysis) = true /\
  shows ("Next Actions" ++ newline ++ "- None" ++ newline) (text_of empty_lists_analysis) = true /\
  shows "<h2>Findings</h2><ul><li>None</li></ul>" (html_of empty_lists_analysis) = true /\
  shows "<h2>Next Actions</h2><ul><li>None</li></ul>" (html_of empty_lists_analysis) = true.
Proof. repeat split; vm_compute; reflexivity. Qed.

(** The list sections of the Markdown and of the plain-text renderer:
    one line per item, "- None" for an empty list. *)
Lemma section_items_spec (items : list value) :
  section_items (VList items)
  = Ok (match items with
        | [] => "- None"
        | _ => join newline (map (fun item => "- " ++ py_str item) items)
        end).
Proof. destruct items; reflexivity. Qed.

Lemma append_list_spec (title : string) (items : list value) :
  append_list title (VList items)
  = Ok (EmptyString :: title ::
        match items with
        | [] => ["- None"]
        | _ => map (fun item => "- " ++ py_str item) items
        end).
Proof. destruct items; reflexivity. Qed.

(* ===================================================================== *)
(** ** The pipeline when the collectors fail *)
(* ===================================================================== *)














(** A [summary.json] that holds [null] is reported as missing or invalid
    by [read_k6_summary], and then aborts the run in the signal builder,
    after the two snapshots and before any report is written. *)
Example null_summary_aborts_run :
  main sample_args null_summary
  = ([ ("tmp/stress-runs/low-1/metrics.json",
         JsonFile (match collect_prometheus null_summary
                            (sample_now - 600000000) sample_now with
                   | Ok (payload, _) => payload
                   | Raise _ => VNone
                   end));
       ("tmp/stress-runs/low-1/logs.json",
         JsonFile (loki_to_value (loki_down (sample_now - 600000000) sample_now))) ],
     Raise AttributeError).
Proof. vm_compute; reflexivity. Qed.


(* ===================================================================== *)
(** * Further properties *)
(* ===================================================================== *)

(* ===================================================================== *)
(** ** Status Policy Engine: findings and untouched keys *)
(* ===================================================================== *)

Lemma failed_rate_escalates_witness :
  exists reasons out,
    deterministic_policy (Signals.mk (Some f_0_12) f_0_08 0 [] []) (VStr "medium")
      = Ok (CRITICAL, reasons) /\
    In ("http_req_failed rate " ++ format_f 4 f_0_12 ++
        " exceeds profile threshold " ++ float_repr f_0_08) reasons /\
    apply_status_policy [("status", VStr "HEALTHY")]
      (Signals.mk (Some f_0_12) f_0_08 0 [] []) (VStr "medium") = Ok out /\
    dict_get out "status" = VStr CRITICAL /\
    dict_get out "deterministic_status" = VStr CRITICAL.
Proof.
  apply (failed_rate_escalates [("status", VStr "HEALTHY")]
           (Signals.mk (Some f_0_12) f_0_08 0 [] []) "medium" f_0_12);
    reflexivity.
Defined.

(** The status [model_status] settles on is one of the three levels. *)
Lemma model_status_level (analysis : dict) (m : string) :
  model_status analysis = Ok m -> In m LEVELS.
Proof.
  unfold model_status.
  destruct (py_or (dict_get analysis "status") (VStr WARNING)); try discriminate.
  destruct (assoc_get severity_order (upper s)) as [n |] eqn:A; intros [= <-].
  - eapply (assoc_get_Some_key severity_order); eauto.
  - simpl; auto.
Qed.

(** Reasons only grow in the loop over the write checks, and a status
    that leaves the loop CRITICAL has a reason. *)
Lemma policy_check_fold_reasons (cs : list Check.t) (st : string * list string) :
  (fst st = CRITICAL -> snd st <> []) ->
  fst (fold_left policy_check_step cs st) = CRITICAL ->
  snd (fold_left policy_check_step cs st) <> [].
Proof.
  revert st; induction cs as [| c cs IH]; simpl; intros st H; [exact H |].
  apply IH. unfold policy_check_step.
  destruct (float_lt (Check.pass_rate c) f_0_20); simpl; [| exact H].
  intros _. destruct (snd st); discriminate.
Qed.

Lemma critical_has_reason (signals : Signals.t) (profile : value)
  (reasons : list string) :
  deterministic_policy signals profile = Ok (CRITICAL, reasons) -> reasons <> [].
Proof.
  unfold deterministic_policy; intros H; bind_inv H. injection H as H.
  match type of H with fold_left _ _ ?st = _ =>
    pose proof (policy_check_fold_reasons (Signals.critical_write_checks signals) st) as P;
    rewrite H in P; simpl in P; apply P; [| reflexivity]
  end.
  destruct (Signals.http_req_failed_rate signals) as [fr |]; simpl.
  - destruct (float_gt fr a); simpl; [discriminate |].
    unfold HEALTHY, CRITICAL; discriminate.
  - unfold HEALTHY, CRITICAL; discriminate.
Qed.

Lemma merge_with_critical (m : string) :
  In m LEVELS -> merge_status m CRITICAL = CRITICAL.
Proof. intros [<- | [<- | [<- | []]]]; reflexivity. Qed.

(** X2. When the deterministic status is CRITICAL, the policy appends one
    finding to the findings of the analysis (an absent list counts as
    empty): the reasons joined by "; " between "Deterministic policy: "
    and ". Likely cause: rate limiting (429).". When the deterministic
    status is HEALTHY the findings stay as they are. *)
Theorem policy_finding_appended :
  forall (analysis : dict) (signals : Signals.t) (profile : value)
         (d m : string) (reasons : list string) (items : list value),
    deterministic_policy signals profile = Ok (d, reasons) ->
    model_status analysis = Ok m ->
    py_iter (dict_get_or analysis "findings" (VList [])) = Ok items ->
    exists out,
      apply_status_policy analysis signals profile = Ok out /\
      (d = CRITICAL ->
       dict_get out "findings"
       = VList (items +++
                [VStr ("Deterministic policy: " ++ join "; " reasons ++
                       ". Likely cause: rate limiting (429).")])) /\
      (d = HEALTHY -> assoc_get out "findings" = assoc_get analysis "findings").
Proof.
  intros analysis signals profile d m reasons items Hd Hm Hi.
  pose proof (model_status_level analysis m Hm) as Lm.
  unfold apply_status_policy. rewrite Hd, Hm. cbn [bind].
  destruct (deterministic_policy_status _ _ _ _ Hd) as [-> | ->].
  - change (String.eqb HEALTHY CRITICAL) with false. cbn [andb bind].
    eexists; split; [reflexivity |]. split; [unfold HEALTHY, CRITICAL; discriminate |].
    intros _. rewrite !assoc_get_set_other by discriminate. reflexivity.
  - rewrite (merge_with_critical m Lm).
    change (String.eqb CRITICAL CRITICAL) with true. cbn [andb].
    pose proof (critical_has_reason signals profile reasons Hd) as Hr.
    destruct reasons as [| r rs]; [contradiction |]. cbn [negb].
    assert (E : py_iter (dict_get (dict_setdefault analysis "findings" (VList [])) "findings")
                = Ok items).
    { unfold dict_setdefault, dict_get, dict_get_or in *.
      destruct (assoc_get analysis "findings") as [v |] eqn:F.
      - rewrite F; exact Hi.
      - rewrite assoc_get_set_same; exact Hi. }
    rewrite E. cbn [bind].
    eexists; split; [reflexivity |]. split; [| unfold HEALTHY, CRITICAL; discriminate].
    intros _. rewrite !dict_get_set. reflexivity.
Qed.

Lemma policy_finding_appended_witness :
  exists out,
    apply_status_policy [("status", VStr "HEALTHY"); ("findings", VList [VStr "slow feed"])]
      sample_signals (VStr "low") = Ok out /\
    (CRITICAL = CRITICAL ->
     dict_get out "findings"
     = VList ([VStr "slow feed"] +++
              [VStr ("Deterministic policy: " ++
                     join "; "
                       [ "http_req_failed rate 0.1200 exceeds profile threshold 0.08";
                         "Write check 'create post status 201' pass rate 5.00% < 20%" ] ++
                     ". Likely cause: rate limiting (429).")])) /\
    (CRITICAL = HEALTHY ->
     assoc_get out "findings"
     = assoc_get [("status", VStr "HEALTHY"); ("findings", VList [VStr "slow feed"])]
         "findings").
Proof.
  apply (policy_finding_appended
           [("status", VStr "HEALTHY"); ("findings", VList [VStr "slow feed"])]
           sample_signals (VStr "low") CRITICAL "HEALTHY"); reflexivity.
Defined.

(** X3. The policy writes five keys of the analysis and no other: every
    other key holds afterwards what it held before. *)
Theorem policy_keeps_other_keys :
  forall (analysis out : dict) (signals : Signals.t) (profile : value) (k : string),
    apply_status_policy analysis signals profile = Ok out ->
    ~ In k [ "findings"; "deterministic_status"; "deterministic_reasons";
             "rate_limit_signals"; "status" ] ->
    assoc_get out k = assoc_get analysis k.
Proof.
  intros analysis out signals profile k H Hk.
  assert (N : forall k', In k' [ "findings"; "deterministic_status"; "deterministic_reasons";
                                 "rate_limit_signals"; "status" ] -> k <> k').
  { intros k' I ->; exact (Hk I). }
  unfold apply_status_policy in H. bind_inv H. destruct a as [d reasons].
  bind_inv H. rename a into m. bind_inv H. rename a into a1, Ha1 into H1.
  injection H as <-.
  rewrite !assoc_get_set_other by (apply N; simpl; auto 6).
  destruct (_ && _) in H1.
  - bind_inv H1. injection H1 as <-.
    rewrite assoc_get_set_other by (apply N; simpl; auto).
    unfold dict_setdefault. destruct (assoc_get analysis "findings"); [reflexivity |].
    apply assoc_get_set_other, N; simpl; auto.
  - injection H1 as <-; reflexivity.
Qed.

Lemma policy_keeps_other_keys_witness :
  exists out,
    apply_status_policy [("summary", VStr "Write path throttled.")] sample_signals
      (VStr "low") = Ok out /\
    assoc_get out "summary" = assoc_get [("summary", VStr "Write path throttled.")] "summary".
Proof.
  eexists; split; [vm_compute; reflexivity |].
  apply (policy_keeps_other_keys [("summary", VStr "Write path throttled.")] _
           sample_signals (VStr "low") "summary"); [vm_compute; reflexivity |].
  simpl. intros [E | [E | [E | [E | [E | []]]]]]; discriminate E.
Defined.

(* ===================================================================== *)
(** ** Fallback assessment *)
(* ===================================================================== *)

(** The error lines of the fallback are those of the sources that are
    not ok and carry an error text, in the order of the health map. *)
Lemma health_errors_filter (health_map : list (string * Health.t)) :
  health_errors health_map
  = map (fun kv => fst kv ++ ": " ++ Health.error (snd kv))
      (filter (fun kv => negb (String.eqb (Health.status (snd kv)) "ok")
                         && negb (String.eqb (Health.error (snd kv)) EmptyString))
         health_map).
Proof.
  induction health_map as [| [k v] r IH]; simpl; [reflexivity |].
  destruct (negb (String.eqb (Health.status v) "ok")
            && negb (String.eqb (Health.error v) EmptyString)); simpl; rewrite IH; reflexivity.
Qed.

(** X4. The fallback assessment is WARNING exactly when some source is not
    ok and carries an error text: its findings are then one line
    [name: error] per such source, in the order of the health map, and
    its confidence is 0.35. Otherwise (every source ok, or degraded
    without an error text) it is HEALTHY with one stock finding and
    confidence 0.6. The bottlenecks and likely causes are always
    empty. *)
Theorem fallback_assessment :
  forall (profile : value) (health_map : list (string * Health.t))
         (highlights : Highlights.t),
    let failed :=
      filter (fun kv => negb (String.eqb (Health.status (snd kv)) "ok")
                        && negb (String.eqb (Health.error (snd kv)) EmptyString))
        health_map in
    let a := default_ai_analysis profile health_map highlights in
    dict_get a "bottlenecks" = VList [] /\
    dict_get a "likely_causes" = VList [] /\
    (failed = [] ->
     dict_get a "status" = VStr HEALTHY /\
     dict_get a "findings"
     = VList [VStr "No major data-source failures detected during report generation."] /\
     dict_get a "confidence" = VFloat f_0_6) /\
    (failed <> [] ->
     dict_get a "status" = VStr WARNING /\
     dict_get a "findings"
     = VList (map (fun kv => VStr (fst kv ++ ": " ++ Health.error (snd kv))) failed) /\
     dict_get a "confidence" = VFloat f_0_35).
Proof.
  intros profile health_map highlights failed a.
  subst a. unfold default_ai_analysis. rewrite health_errors_filter. fold failed.
  split; [reflexivity |]. split; [reflexivity |].
  destruct failed as [| x r]; split; intros H; try contradiction; try discriminate.
  - repeat split; reflexivity.
  - cbn [map]. repeat split; try reflexivity.
    unfold dict_get; cbn. rewrite map_map. reflexivity.
Qed.

(* ===================================================================== *)
(** ** Metrics collector *)
(* ===================================================================== *)

(** The loop body of [collect_prometheus]. *)
Lemma prometheus_entry_cases (env : Env.t) (expr : string) (entry : dict)
  (failure : option Health.t) :
  prometheus_entry env expr = Ok (entry, failure) ->
  (exists msg,
     (Env.prom_query_range env expr = RequestException msg \/
      (exists body, Env.prom_query_range env expr = Response body) /\
      Env.prom_query_instant env expr = RequestException msg) /\
     entry = [("expr", VStr expr); ("error", VStr msg)] /\
     failure = Some (degraded ("Prometheus query failure: " ++ msg))) \/
  (exists range_data instant_data,
     Env.prom_query_range env expr = Response (VDict range_data) /\
     Env.prom_query_instant env expr = Response (VDict instant_data) /\
     entry = [ ("expr", VStr expr);
               ("range", dict_get_or range_data "data" (VDict []));
               ("instant", dict_get_or instant_data "data" (VDict [])) ] /\
     failure = None).
Proof.
  unfold prometheus_entry.
  destruct (Env.prom_query_range env expr) as [msg | range_data] eqn:R.
  - intros [= <- <-]. left; exists msg; repeat split; auto.
  - destruct (Env.prom_query_instant env expr) as [msg | instant_data] eqn:I.
    + intros [= <- <-]. left; exists msg; repeat split; eauto.
    + intros H. bind_inv H. bind_inv H. injection H as <- <-.
      destruct range_data; try discriminate. destruct instant_data; try discriminate.
      injection Ha as <-. injection Ha0 as <-.
      right; eexists _, _; repeat split; reflexivity.
Qed.

(** The loop of [collect_prometheus] over any list of queries with
    distinct names. *)
Lemma prometheus_loop (env : Env.t) (qs : list (string * string)) :
  NoDup (map fst qs) ->
  forall (acc acc' : dict) (h h' : Health.t),
    for_each qs
      (fun '(queries, health) '(name, expr) =>
         '(entry, failure) <- prometheus_entry env expr ;;
         Ok (assoc_set queries name (VDict entry),
             match failure with Some h => h | None => health end))
      (acc, h) = Ok (acc', h') ->
    (forall name expr, In (name, expr) qs ->
       exists entry failure,
         prometheus_entry env expr = Ok (entry, failure) /\
         assoc_get acc' name = Some (VDict entry) /\
         (failure <> None -> Health.status h' = "degraded")) /\
    (forall n, ~ In n (map fst qs) -> assoc_get acc' n = assoc_get acc n) /\
    (Health.status h = "degraded" -> Health.status h' = "degraded") /\
    ((forall name expr, In (name, expr) qs ->
        exists entry, prometheus_entry env expr = Ok (entry, None)) -> h' = h).
Proof.
  induction qs as [| [name expr] qs IH]; intros ND acc acc' h h' H.
  - injection H as <- <-. repeat split; auto. intros ? ? [].
  - cbn [for_each] in H. bind_inv H. destruct a as [acc1 h1].
    bind_inv Ha. destruct a as [entry failure]. injection Ha as <- <-.
    inversion ND as [| ? ? Hnotin ND']; subst.
    destruct (IH ND' _ _ _ _ H) as (Hentries & Hother & Hdeg & Hok).
    split; [| split; [| split]].
    + intros n e [[= <- <-] | I].
      * exists entry, failure. split; [exact Ha0 |]. split.
        -- rewrite (Hother name Hnotin). apply assoc_get_set_same.
        -- intros Hf. apply Hdeg.
           destruct failure as [f |]; [| contradiction].
           destruct (prometheus_entry_cases env expr entry (Some f) Ha0)
             as [(msg & _ & _ & [= ->]) | (? & ? & _ & _ & _ & [=])].
           reflexivity.
      * exact (Hentries n e I).
    + intros n Hn. simpl in Hn.
      rewrite (Hother n) by tauto.
      apply assoc_get_set_other. intros ->; tauto.
    + intros Hh. apply Hdeg. destruct failure as [f |]; [| exact Hh].
      destruct (prometheus_entry_cases env expr entry (Some f) Ha0)
        as [(msg & _ & _ & [= ->]) | (? & ? & _ & _ & _ & [=])].
      reflexivity.
    + intros Hall.
      destruct (Hall name expr (or_introl eq_refl)) as (entry0 & E0).
      rewrite E0 in Ha0; injection Ha0 as <- <-.
      apply Hok. intros n e I. apply (Hall n e). right; exact I.
Qed.

Lemma prom_query_names_distinct : NoDup (map fst DEFAULT_PROM_QUERIES).
Proof.
  repeat (constructor; [simpl; intros H; repeat (destruct H as [H | H]; [discriminate H |]); exact H |]).
  constructor.
Qed.

(** X5. The metrics snapshot. It records one entry per default query under
    the query's name. A query whose range or instant call raised a
    request error leaves an entry with the expression and the error text
    only (the range data are dropped when the instant call fails), and
    the health of the collector is then degraded; a query whose two
    calls answered leaves the [data] of both answers and no error. *)
Theorem prometheus_snapshot :
  forall (env : Env.t) (start_ end_ : datetime) (payload : value) (health : Health.t),
    collect_prometheus env start_ end_ = Ok (payload, health) ->
    exists queries,
      payload = VDict [ ("window", VDict [ ("start", VStr (isoformat start_));
                                           ("end", VStr (isoformat end_)) ]);
                        ("queries", VDict queries) ] /\
      forall name expr, In (name, expr) DEFAULT_PROM_QUERIES ->
        (exists msg,
           (Env.prom_query_range env expr = RequestException msg \/
            (exists body, Env.prom_query_range env expr = Response body) /\
            Env.prom_query_instant env expr = RequestException msg) /\
           assoc_get queries name
           = Some (VDict [("expr", VStr expr); ("error", VStr msg)]) /\
           Health.status health = "degraded") \/
        (exists range_data instant_data,
           Env.prom_query_range env expr = Response (VDict range_data) /\
           Env.prom_query_instant env expr = Response (VDict instant_data) /\
           assoc_get queries name
           = Some (VDict [ ("expr", VStr expr);
                           ("range", dict_get_or range_data "data" (VDict []));
                           ("instant", dict_get_or instant_data "data" (VDict [])) ])).
Proof.
  intros env start_ end_ payload health H.
  unfold collect_prometheus in H. bind_inv H. destruct a as [queries h].
  injection H as <- <-.
  destruct (prometheus_loop env DEFAULT_PROM_QUERIES prom_query_names_distinct _ _ _ _ Ha)
    as (Hentries & _).
  exists queries; split; [reflexivity |].
  intros name expr I.
  destruct (Hentries name expr I) as (entry & failure & He & Hq & Hf).
  destruct (prometheus_entry_cases env expr entry failure He)
    as [(msg & Hr & -> & ->) | (rd & idt & Hr & Hi & -> & ->)].
  - left; exists msg. split; [exact Hr |]. split; [exact Hq |].
    apply Hf; discriminate.
  - right; exists rd, idt; auto.
Qed.

Lemma prometheus_snapshot_witness :
  exists queries,
    fst (match collect_prometheus all_down 0 60000000 with
         | Ok r => r
         | Raise _ => (VNone, health_ok)
         end)
    = VDict [ ("window", VDict [ ("start", VStr (isoformat 0));
                                 ("end", VStr (isoformat 60000000)) ]);
              ("queries", VDict queries) ] /\
    assoc_get queries "active_websockets"
    = Some (VDict [ ("expr", VStr "sanctum_active_websockets");
                    ("error", VStr "connection refused") ]).
Proof.
  destruct (prometheus_snapshot all_down 0 60000000 _ _ eq_refl) as (queries & E & H).
  exists queries; split.
  - exact E.
  - destruct (H "active_websockets" "sanctum_active_websockets")
      as [(msg & [Hr | [_ Hi]] & Hq & _) | (rd & idt & Hr & _)].
    + simpl; auto 10.
    + injection Hr as <-; exact Hq.
    + injection Hi as <-; exact Hq.
    + discriminate Hr.
Defined.

(** X6. When every query is answered, the collector reports itself ok. *)
Theorem prometheus_all_answered :
  forall (env : Env.t) (start_ end_ : datetime),
    (forall name expr, In (name, expr) DEFAULT_PROM_QUERIES ->
       exists range_data instant_data,
         Env.prom_query_range env expr = Response (VDict range_data) /\
         Env.prom_query_instant env expr = Response (VDict instant_data)) ->
    exists payload, collect_prometheus env start_ end_ = Ok (payload, health_ok).
Proof.
  intros env start_ end_ Hall.
  assert (Hentry : forall name expr, In (name, expr) DEFAULT_PROM_QUERIES ->
            exists entry, prometheus_entry env expr = Ok (entry, None)).
  { intros name expr I. destruct (Hall name expr I) as (rd & idt & Hr & Hi).
    unfold prometheus_entry. rewrite Hr, Hi. cbn. eauto. }
  unfold collect_prometheus.
  assert (L : forall qs acc h,
             (forall name expr, In (name, expr) qs ->
                exists entry, prometheus_entry env expr = Ok (entry, None)) ->
             exists acc',
               for_each qs
                 (fun '(queries, health) '(name, expr) =>
                    '(entry, failure) <- prometheus_entry env expr ;;
                    Ok (assoc_set queries name (VDict entry),
                        match failure with Some h => h | None => health end))
                 (acc, h) = Ok (acc', h)).
  { induction qs as [| [n e] qs IH]; intros acc h Hq; cbn [for_each].
    - eauto.
    - destruct (Hq n e (or_introl eq_refl)) as (entry & ->). cbn [bind].
      apply IH. intros n' e' I; apply (Hq n' e'); right; exact I. }
  destruct (L DEFAULT_PROM_QUERIES [] health_ok Hentry) as (acc' & ->).
  cbn [bind]. eauto.
Qed.

Lemma prometheus_all_answered_witness :
  exists payload, collect_prometheus all_up 0 60000000 = Ok (payload, health_ok).
Proof.
  apply (prometheus_all_answered all_up 0 60000000).
  intros name expr _. exists (match empty_matrix with VDict d => d | _ => [] end).
  exists (match empty_matrix with VDict d => d | _ => [] end).
  split; reflexivity.
Defined.

(* ===================================================================== *)
(** ** Log collector *)
(* ===================================================================== *)

(** One turn of the loop over the [values] of a stream. *)
Lemma loki_stream_item (labels : value) (l : list value)
  (acc : list (value * value * value)) :
  (n <- py_len (VList l) ;;
   if n =? 2 then
     pair <- py_iter (VList l) ;;
     match pair with
     | [ts_ns; line] => Ok (acc ++ [(ts_ns, line, labels)])%list
     | _ => Ok acc
     end
   else Ok acc)
  = Ok (acc +++ pair_entry labels (VList l)).
Proof.
  cbn [py_len py_iter bind].
  destruct l as [| a [| b [| c l]]]; cbn [pair_entry]; rewrite ?app_nil_r; try reflexivity.
  replace (Z.of_nat (List.length (a :: b :: c :: l)) =? 2) with false; [reflexivity |].
  symmetry; apply Z.eqb_neq. cbn [List.length]. lia.
Qed.

Lemma loki_stream_loop (labels : value) (vs : list value)
  (acc : list (value * value * value)) :
  forallb is_list vs = true ->
  for_each vs
    (fun acc value =>
       n <- py_len value ;;
       if n =? 2 then
         pair <- py_iter value ;;
         match pair with
         | [ts_ns; line] => Ok (acc ++ [(ts_ns, line, labels)])%list
         | _ => Ok acc
         end
       else Ok acc)
    acc
  = Ok (acc +++ flat_map (pair_entry labels) vs).
Proof.
  revert acc; induction vs as [| v vs IH]; intros acc H; cbn [for_each flat_map].
  - rewrite app_nil_r; reflexivity.
  - cbn [forallb] in H. apply andb_true_iff in H; destruct H as [Hv Hvs].
    destruct v as [| | | | | l |]; try discriminate Hv.
    rewrite (loki_stream_item labels l acc). cbn [bind].
    rewrite (IH _ Hvs), app_assoc. reflexivity.
Qed.

(** X7. The entries of one stream of a log-store answer: each item of
    [values] that is a list of exactly two elements gives one entry
    [(timestamp, line, labels)], in order; items of any other length are
    passed over. *)
Theorem loki_stream_pairs :
  forall (labels : value) (vs : list value) (acc : list (value * value * value)),
    forallb is_list vs = true ->
    loki_stream_entries acc (VDict [("stream", labels); ("values", VList vs)])
    = Ok (acc +++ flat_map (pair_entry labels) vs).
Proof.
  intros labels vs acc H. unfold loki_stream_entries.
  cbn [get_or dict_get_or assoc_get String.eqb Ascii.eqb Bool.eqb bind py_iter].
  apply loki_stream_loop; exact H.
Qed.

Lemma loki_stream_pairs_witness :
  loki_stream_entries []
    (VDict [ ("stream", VDict [("container", VStr "api")]);
             ("values",
               VList [ VList [VStr "1793700000000000000"; VStr "request processed status=429"];
                       VList [VStr "1793700001000000000"; VStr "partial"; VStr "extra"];
                       VList [VStr "1793700002000000000"; VStr "request processed status=429"] ]) ])
  = Ok ([] +++
        flat_map (pair_entry (VDict [("container", VStr "api")]))
          [ VList [VStr "1793700000000000000"; VStr "request processed status=429"];
            VList [VStr "1793700001000000000"; VStr "partial"; VStr "extra"];
            VList [VStr "1793700002000000000"; VStr "request processed status=429"] ]).
Proof.
  apply (loki_stream_pairs (VDict [("container", VStr "api")])
           [ VList [VStr "1793700000000000000"; VStr "request processed status=429"];
             VList [VStr "1793700001000000000"; VStr "partial"; VStr "extra"];
             VList [VStr "1793700002000000000"; VStr "request processed status=429"] ] []).
  reflexivity.
Defined.

(** The entries one query contributes, as the collector tags them. *)
Lemma filter_tagged (category tag : string) (part : list (value * value * value)) :
  filter (fun e => String.eqb (Loki.category e) category)
    (map (fun '(ts_ns, line, labels) => Loki.mk_entry ts_ns line labels tag) part)
  = if String.eqb tag category
    then map (fun '(ts_ns, line, labels) => Loki.mk_entry ts_ns line labels tag) part
    else [].
Proof.
  induction part as [| [[ts line] labels] r IH]; cbn [map filter Loki.category].
  - destruct (String.eqb tag category); reflexivity.
  - rewrite IH. destruct (String.eqb tag category); reflexivity.
Qed.

(** What a run of the log collector that returns has computed: the
    entries of the two queries, those of a query that raised being
    none. *)
Lemma collect_loki_inv (env : Env.t) (start_ end_ : datetime)
  (payload : Loki.payload) (health : Health.t) :
  collect_loki env start_ end_ = Ok (payload, health) ->
  exists part1 part2,
    match Env.loki_query_range env severity_query with
    | RequestException _ => part1 = []
    | Response body => loki_body_entries body = Ok part1
    end /\
    match Env.loki_query_range env rate_limit_query with
    | RequestException _ => part2 = []
    | Response body => loki_body_entries body = Ok part2
    end /\
    payload
    = Loki.mk (isoformat start_) (isoformat end_) severity_query
        [ Loki.mk_query "severity" severity_query (Z.of_nat (List.length part1));
          Loki.mk_query "rate_limit" rate_limit_query (Z.of_nat (List.length part2)) ]
        (map (fun '(ts_ns, line, labels) => Loki.mk_entry ts_ns line labels "severity")
           part1 +++
         map (fun '(ts_ns, line, labels) => Loki.mk_entry ts_ns line labels "rate_limit")
           part2) /\
    health
    = match Env.loki_query_range env rate_limit_query,
            Env.loki_query_range env severity_query with
      | RequestException msg, _ => degraded ("Loki query failure: " ++ msg)
      | Response _, RequestException msg => degraded ("Loki query failure: " ++ msg)
      | Response _, Response _ => health_ok
      end.
Proof.
  unfold collect_loki. cbn [for_each].
  destruct (Env.loki_query_range env severity_query) as [msg1 | body1];
    [| destruct (loki_body_entries body1) as [part1 |] eqn:E1];
    cbn [bind app]; try discriminate;
    (destruct (Env.loki_query_range env rate_limit_query) as [msg2 | body2];
     [| destruct (loki_body_entries body2) as [part2 |] eqn:E2]);
    cbn [bind app]; intros H; try discriminate H; injection H as <- <-;
    eexists _, _; repeat split; reflexivity.
Qed.

(** X8. The log snapshot is consistent: the payload lists the severity query
    and the rate-limit query, in this order, and the [entry_count] of
    each is the number of entries of that category; every entry belongs
    to one of the two, those of the severity query first. *)
Theorem loki_counts_agree :
  forall (env : Env.t) (start_ end_ : datetime) (payload : Loki.payload)
         (health : Health.t),
    collect_loki env start_ end_ = Ok (payload, health) ->
    Loki.queries payload
    = [ Loki.mk_query "severity" severity_query
          (count_category "severity" (Loki.entries payload));
        Loki.mk_query "rate_limit" rate_limit_query
          (count_category "rate_limit" (Loki.entries payload)) ] /\
    Z.of_nat (List.length (Loki.entries payload))
    = count_category "severity" (Loki.entries payload)
      + count_category "rate_limit" (Loki.entries payload) /\
    exists severity rate_limit,
      Loki.entries payload = severity +++ rate_limit /\
      Forall (fun e => Loki.category e = "severity") severity /\
      Forall (fun e => Loki.category e = "rate_limit") rate_limit.
Proof.
  intros env start_ end_ payload health H.
  destruct (collect_loki_inv env start_ end_ payload health H)
    as (part1 & part2 & _ & _ & -> & _).
  cbn [Loki.queries Loki.entries]. unfold count_category.
  rewrite !filter_app, !filter_tagged. cbn [String.eqb Ascii.eqb Bool.eqb].
  rewrite app_nil_r. cbn [app]. rewrite !length_app, !length_map.
  split; [reflexivity |]. split; [lia |].
  eexists _, _; split; [reflexivity |].
  split; apply Forall_forall; intros e I; apply in_map_iff in I;
    destruct I as ([[ts line] labels] & <- & _); reflexivity.
Qed.

Lemma loki_counts_agree_witness :
  exists payload health,
    collect_loki rate_limit_query_down 0 60000000 = Ok (payload, health) /\
    Loki.queries payload
    = [ Loki.mk_query "severity" severity_query
          (count_category "severity" (Loki.entries payload));
        Loki.mk_query "rate_limit" rate_limit_query
          (count_category "rate_limit" (Loki.entries payload)) ] /\
    count_category "severity" (Loki.entries payload) = 2 /\
    count_category "rate_limit" (Loki.entries payload) = 0.
Proof.
  eexists _, _. split; [vm_compute; reflexivity |].
  split.
  - apply (loki_counts_agree rate_limit_query_down 0 60000000 _
             (degraded "Loki query failure: read timed out")).
    vm_compute; reflexivity.
  - split; vm_compute; reflexivity.
Defined.

(** X9. The health of the log collector. It is ok when both queries are
    answered. When the rate-limit query (the later one) raises, its
    error is reported; when only the severity query raises, its error
    stays: the answer to the later query does not reset it. *)
Theorem loki_health_reported :
  forall (env : Env.t) (start_ end_ : datetime) (payload : Loki.payload)
         (health : Health.t),
    collect_loki env start_ end_ = Ok (payload, health) ->
    health
    = match Env.loki_query_range env rate_limit_query,
            Env.loki_query_range env severity_query with
      | RequestException msg, _ => degraded ("Loki query failure: " ++ msg)
      | Response _, RequestException msg => degraded ("Loki query failure: " ++ msg)
      | Response _, Response _ => health_ok
      end.
Proof.
  intros env start_ end_ payload health H.
  destruct (collect_loki_inv env start_ end_ payload health H)
    as (part1 & part2 & _ & _ & _ & ->).
  reflexivity.
Qed.

Lemma loki_health_reported_witness :
  degraded "Loki query failure: read timed out"
  = match Env.loki_query_range severity_query_down rate_limit_query,
          Env.loki_query_range severity_query_down severity_query with
    | RequestException msg, _ => degraded ("Loki query failure: " ++ msg)
    | Response _, RequestException msg => degraded ("Loki query failure: " ++ msg)
    | Response _, Response _ => health_ok
    end.
Proof.
  apply (loki_health_reported severity_query_down 0 60000000
           (match collect_loki severity_query_down 0 60000000 with
            | Ok (payload, _) => payload
            | Raise _ => no_logs
            end)).
  vm_compute; reflexivity.
Defined.

(** X10. The signal builder counts what the collector counted: on the log
    snapshot of [collect_loki], the bundle's
    [loki_rate_limit_entry_count] is the [entry_count] recorded for the
    rate-limit query. *)
Theorem rate_limit_count_of_snapshot :
  forall (env : Env.t) (start_ end_ : datetime) (payload : Loki.payload)
         (health : Health.t) (summary profile : value) (signals : Signals.t),
    collect_loki env start_ end_ = Ok (payload, health) ->
    build_rate_limit_signals summary profile payload = Ok signals ->
    exists severity rate_limit,
      Loki.queries payload = [severity; rate_limit] /\
      Loki.name rate_limit = "rate_limit" /\
      Signals.loki_rate_limit_entry_count signals = Loki.entry_count rate_limit.
Proof.
  intros env start_ end_ payload health summary profile signals Hc Hs.
  destruct (collect_loki_inv env start_ end_ payload health Hc)
    as (part1 & part2 & _ & _ & -> & _).
  destruct (build_rate_limit_signals_inv _ _ _ _ Hs)
    as (fr & dec & thr & pc & _ & _ & _ & _ & _ & _ & Hcount & _).
  eexists _, _; split; [reflexivity |]. split; [reflexivity |].
  rewrite Hcount. cbn [Loki.entries Loki.entry_count].
  rewrite filter_app, !filter_tagged. cbn [String.eqb Ascii.eqb Bool.eqb app].
  rewrite length_map. reflexivity.
Qed.

Lemma rate_limit_count_of_snapshot_witness :
  exists severity rate_limit,
    Loki.queries (loki_down 0 60000000) = [severity; rate_limit] /\
    Loki.name rate_limit = "rate_limit" /\
    Signals.loki_rate_limit_entry_count (Signals.mk None f_0_05 0 [] [])
    = Loki.entry_count rate_limit.
Proof.
  apply (rate_limit_count_of_snapshot all_down 0 60000000 (loki_down 0 60000000)
           (degraded "Loki query failure: connection refused")
           (VDict []) (VStr "low") (Signals.mk None f_0_05 0 [] []));
    vm_compute; reflexivity.
Defined.

(* ===================================================================== *)
(** ** The pipeline: files and aborts *)
(* ===================================================================== *)


(** X12. A [metadata.json] that holds a JSON value other than an object
    aborts the run with [AttributeError] before any file is written,
    whether or not the command line names a profile. *)
Theorem metadata_not_object_aborts :
  forall (args : Args.t) (env : Env.t) (v : value),
    Env.metadata_json env = Some v ->
    isinstance_dict v = false ->
    main args env = ([], Raise AttributeError).
Proof.
  intros args env v Hm Hv. unfold main, collect. rewrite Hm. cbn [read_json_file].
  assert (G : forall k, get v k = Raise AttributeError)
    by (intros k; destruct v; try reflexivity; discriminate Hv).
  destruct (negb (String.eqb (Args.profile args) EmptyString)).
  - cbn [bind]. unfold parse_time_window. rewrite G. reflexivity.
  - rewrite G. reflexivity.
Qed.

Lemma metadata_not_object_aborts_witness :
  main sample_args metadata_not_object = ([], Raise AttributeError).
Proof.
  apply (metadata_not_object_aborts sample_args metadata_not_object (VList []));
    reflexivity.
Defined.

(** X13. A verdict of the model that is a JSON value other than an object and
    is not empty (a non-empty array or text, a number other than zero,
    [true]) is taken for the analysis: the run writes the two snapshots
    and then aborts with [TypeError] where it stores the source health
    in it; neither the analysis nor a report is written. *)
Theorem verdict_not_object_aborts :
  forall (args : Args.t) (env : Env.t) (c : Collected.t) (signals : Signals.t)
         (verdict : value),
    collect args env = Ok c ->
    build_rate_limit_signals (Collected.summary c) (Collected.profile c)
      (Collected.loki_payload c) = Ok signals ->
    Env.ollama_generate env = Response verdict ->
    truthy verdict = true ->
    isinstance_dict verdict = false ->
    main args env
    = ([ (path_join (Args.run_dir args) "metrics.json",
           JsonFile (Collected.prometheus_payload c));
         (path_join (Args.run_dir args) "logs.json",
           JsonFile (loki_to_value (Collected.loki_payload c))) ],
       Raise TypeError).
Proof.
  intros args env c signals verdict Hc Hs Ho Ht Hd.
  unfold main. rewrite Hc. unfold analyse, call_ollama. rewrite Hs, Ho.
  cbn [bind]. rewrite !Ht.
  destruct verdict; try reflexivity. discriminate Hd.
Qed.

Lemma verdict_not_object_aborts_witness :
  main sample_args verdict_not_object
  = ([ (path_join (Args.run_dir sample_args) "metrics.json",
         JsonFile (Collected.prometheus_payload
                     (match collect sample_args verdict_not_object with
                      | Ok c => c
                      | Raise _ =>
                          Collected.mk VNone VNone VNone health_ok no_highlights VNone
                            health_ok no_logs health_ok
                      end)));
       (path_join (Args.run_dir sample_args) "logs.json",
         JsonFile (loki_to_value
                     (Collected.loki_payload
                        (match collect sample_args verdict_not_object with
                         | Ok c => c
                         | Raise _ =>
                             Collected.mk VNone VNone VNone health_ok no_highlights VNone
                               health_ok no_logs health_ok
                         end)))) ],
     Raise TypeError).
Proof.
  apply (verdict_not_object_aborts sample_args verdict_not_object _
           (Signals.mk None f_0_05 0 [] []) (VList [VStr "HEALTHY"]));
    vm_compute; reflexivity.
Defined.

(** X14. The profile of a run: the one the command line names; else the one
    the metadata record, when that is not empty; else the text after the
    last hyphen of the run directory's name. *)
Theorem profile_precedence :
  forall (args : Args.t) (env : Env.t) (c : Collected.t),
    collect args env = Ok c ->
    exists metadata,
      read_json_file (Env.metadata_json env) (VDict []) = VDict metadata /\
      Collected.profile c
      = if negb (String.eqb (Args.profile args) EmptyString)
        then VStr (Args.profile args)
        else if truthy (dict_get metadata "profile")
             then dict_get metadata "profile"
             else VStr (after_last 45 (path_name (Args.run_dir args))).
Proof.
  intros args env c H. unfold collect in H.
  bind_inv H. rename a into profile, Ha into Hp.
  bind_inv H. destruct a as [s e]. rename Ha into Hw.
  destruct (read_json_file (Env.metadata_json env) (VDict [])) as [| | | | | | metadata];
    try (cbn [bind] in H; discriminate H).
  exists metadata; split; [reflexivity |].
  cbn [bind] in H.
  destruct (read_k6_summary _ _) as [summary k6h].
  bind_inv H. bind_inv H. destruct a0 as [pp ph]. bind_inv H. destruct a0 as [lp lh].
  injection H as <-. cbn [Collected.profile].
  destruct (negb (String.eqb (Args.profile args) EmptyString)).
  - injection Hp as <-; reflexivity.
  - cbn [get bind] in Hp. injection Hp as <-. reflexivity.
Qed.

Lemma profile_precedence_witness :
  exists metadata,
    read_json_file (Env.metadata_json recorded_env) (VDict []) = VDict metadata /\
    Collected.profile
      (match collect (Args.mk EmptyString "tmp/stress-runs/20261103-low") recorded_env with
       | Ok c => c
       | Raise _ =>
           Collected.mk VNone VNone VNone health_ok no_highlights VNone
             health_ok no_logs health_ok
       end)
    = if negb (String.eqb (Args.profile (Args.mk EmptyString "tmp/stress-runs/20261103-low"))
                 EmptyString)
      then VStr (Args.profile (Args.mk EmptyString "tmp/stress-runs/20261103-low"))
      else if truthy (dict_get metadata "profile")
           then dict_get metadata "profile"
           else VStr (after_last 45
                        (path_name (Args.run_dir
                                      (Args.mk EmptyString "tmp/stress-runs/20261103-low")))).
Proof.
  apply (profile_precedence (Args.mk EmptyString "tmp/stress-runs/20261103-low")
           recorded_env).
  vm_compute; reflexivity.
Defined.

Lemma setdefault_keeps (d : dict) (k k' : string) (x v : value) :
  assoc_get d k' = Some v -> assoc_get (dict_setdefault d k x) k' = Some v.
Proof.
  intros H. unfold dict_setdefault.
  destruct (assoc_get d k) eqn:E; [exact H |].
  rewrite assoc_get_set. destruct (String.eqb k k') eqn:K; [| exact H].
  apply String.eqb_eq in K; subst; congruence.
Qed.

Lemma setdefault_other (d : dict) (k k' : string) (x : value) :
  k' <> k -> assoc_get (dict_setdefault d k x) k' = assoc_get d k'.
Proof.
  intros H. unfold dict_setdefault. destruct (assoc_get d k); [reflexivity |].
  apply assoc_get_set_other; exact H.
Qed.

(** X15. [main] only adds to the run metadata: a key the metadata file
    records keeps its value (so a recorded [start_utc] is what the
    reports show, not the resolved window), and [profile], [start_utc]
    and [end_utc] are present afterwards, with the resolved profile and
    window where the file had none. *)
Theorem metadata_only_grows :
  forall (args : Args.t) (env : Env.t) (c : Collected.t),
    collect args env = Ok c ->
    exists before after start_ end_,
      read_json_file (Env.metadata_json env) (VDict []) = VDict before /\
      Collected.metadata c = VDict after /\
      parse_time_window (VDict before) 10 (Env.now_window env) = Ok (start_, end_) /\
      (forall k v, assoc_get before k = Some v -> assoc_get after k = Some v) /\
      (assoc_get before "profile" = None ->
       assoc_get after "profile" = Some (Collected.profile c)) /\
      (assoc_get before "start_utc" = None ->
       assoc_get after "start_utc" = Some (VStr (isoformat start_))) /\
      (assoc_get before "end_utc" = None ->
       assoc_get after "end_utc" = Some (VStr (isoformat end_))).
Proof.
  intros args env c H. unfold collect in H.
  bind_inv H. rename a into profile, Ha into Hp.
  bind_inv H. destruct a as [s e]. rename Ha into Hw.
  destruct (read_json_file (Env.metadata_json env) (VDict [])) as [| | | | | | before];
    try (cbn [bind] in H; discriminate H).
  cbn [bind] in H.
  destruct (read_k6_summary _ _) as [summary k6h].
  bind_inv H. bind_inv H. destruct a0 as [pp ph]. bind_inv H. destruct a0 as [lp lh].
  injection H as <-. cbn [Collected.profile Collected.metadata].
  eexists before, _, s, e. split; [reflexivity |]. split; [reflexivity |].
  split; [exact Hw |].
  split; [| split; [| split]].
  - intros k v Hk. apply setdefault_keeps, setdefault_keeps,
      setdefault_keeps. exact Hk.
  - intros Hn. apply setdefault_keeps, setdefault_keeps.
    unfold dict_setdefault. rewrite Hn. apply assoc_get_set_same.
  - intros Hn. apply setdefault_keeps.
    unfold dict_setdefault at 1.
    rewrite setdefault_other by discriminate. rewrite Hn. apply assoc_get_set_same.
  - intros Hn. unfold dict_setdefault at 1.
    rewrite !setdefault_other by discriminate. rewrite Hn. apply assoc_get_set_same.
Qed.

Lemma metadata_only_grows_witness :
  exists before after start_ end_,
    read_json_file (Env.metadata_json recorded_env) (VDict []) = VDict before /\
    Collected.metadata
      (match collect sample_args recorded_env with
       | Ok c => c
       | Raise _ =>
           Collected.mk VNone VNone VNone health_ok no_highlights VNone
             health_ok no_logs health_ok
       end) = VDict after /\
    parse_time_window (VDict before) 10 (Env.now_window recorded_env)
      = Ok (start_, end_) /\
    (forall k v, assoc_get before k = Some v -> assoc_get after k = Some v) /\
    (assoc_get before "profile" = None ->
     assoc_get after "profile"
     = Some (Collected.profile
               (match collect sample_args recorded_env with
                | Ok c => c
                | Raise _ =>
                    Collected.mk VNone VNone VNone health_ok no_highlights VNone
                      health_ok no_logs health_ok
                end))) /\
    (assoc_get before "start_utc" = None ->
     assoc_get after "start_utc" = Some (VStr (isoformat start_))) /\
    (assoc_get before "end_utc" = None ->
     assoc_get after "end_utc" = Some (VStr (isoformat end_))).
Proof.
  apply (metadata_only_grows sample_args recorded_env).
  vm_compute; reflexivity.
Defined.

(* ===================================================================== *)
(** ** Signal Extractor: missing metrics *)
(* ===================================================================== *)

(** X16. A summary that is not an object, or an object without [metrics],
    gives five nulls; the extractor does not raise on them. *)
Theorem highlights_of_missing_metrics :
  forall summary : value,
    (isinstance_dict summary = false \/
     exists d, summary = VDict d /\ assoc_get d "metrics" = None) ->
    extract_k6_highlights summary = Ok (Highlights.mk None None None None None).
Proof.
  intros summary [H | (d & -> & H)]; unfold extract_k6_highlights.
  - destruct summary; try reflexivity. discriminate H.
  - unfold dict_get_or. rewrite H. reflexivity.
Qed.

Lemma highlights_of_missing_metrics_witness :
  extract_k6_highlights (VDict [("root_group", VDict [])])
  = Ok (Highlights.mk None None None None None).
Proof.
  apply (highlights_of_missing_metrics (VDict [("root_group", VDict [])])).
  right. exists [("root_group", VDict [])]. split; reflexivity.
Defined.

(* ===================================================================== *)
(** ** HTML report: the log sample *)
(* ===================================================================== *)

(** X17. The HTML report shows the first 20 log entries and no more: entries
    after the 20th never change the document. *)
Theorem html_log_sample_bounded :
  forall (run_dir : string) (profile metadata : value)
         (health_map : list (string * Health.t)) (highlights : Highlights.t)
         (analysis : dict) (loki : Loki.payload) (now : datetime)
         (more : list Loki.entry),
    (20 <= List.length (Loki.entries loki))%nat ->
    render_report_html run_dir profile metadata health_map highlights analysis
      (Loki.mk (Loki.window_start loki) (Loki.window_end loki) (Loki.query loki)
         (Loki.queries loki) (Loki.entries loki +++ more)) now
    = render_report_html run_dir profile metadata health_map highlights analysis
        loki now.
Proof.
  intros run_dir profile metadata health_map highlights analysis loki now more H.
  unfold render_report_html. cbn [Loki.entries].
  rewrite firstn_app.
  replace (20 - List.length (Loki.entries loki))%nat with 0%nat by lia.
  cbn [firstn]. rewrite app_nil_r. reflexivity.
Qed.

Lemma html_log_sample_bounded_witness :
  render_report_html "tmp/stress-runs/low-1" (VStr "low") iso_metadata all_ok
    no_highlights sample_analysis
    (Loki.mk (Loki.window_start busy_logs) (Loki.window_end busy_logs)
       (Loki.query busy_logs) (Loki.queries busy_logs)
       (Loki.entries busy_logs +++
        [Loki.mk_entry (VStr "1793700000000000001") (VStr "warn: late entry")
           (VDict []) "severity"])) sample_now
  = render_report_html "tmp/stress-runs/low-1" (VStr "low") iso_metadata all_ok
      no_highlights sample_analysis busy_logs sample_now.
Proof.
  apply (html_log_sample_bounded "tmp/stress-runs/low-1" (VStr "low") iso_metadata
           all_ok no_highlights sample_analysis busy_logs sample_now).
  apply Nat.leb_le; reflexivity.
Defined.

(* ===================================================================== *)
(** ** Report renderers: analyses they lay out without raising *)
(* ===================================================================== *)

Lemma map_result_total {A B : Type} (f : A -> result B) (l : list A) :
  (forall x, In x l -> exists r, f x = Ok r) -> exists rs, map_result f l = Ok rs.
Proof.
  induction l as [| x l IH]; intros H; cbn [map_result]; [eauto |].
  destruct (H x (or_introl eq_refl)) as (r & ->).
  destruct IH as (rs & ->); [intros y I; apply H; right; exact I |].
  cbn [bind]. eauto.
Qed.

Lemma list_or_nothing_items (v : value) :
  list_or_nothing v = true -> exists l, py_or v (VList []) = VList l.
Proof.
  unfold py_or, list_or_nothing.
  destruct v; intros H; try (apply negb_true_iff in H; rewrite H; eauto).
  destruct l; cbn; eauto.
Qed.

Lemma py_or_list (l : list value) : py_or (VList l) (VList []) = VList l.
Proof. destruct l; reflexivity. Qed.

Lemma py_or_signals (s : Signals.t) :
  py_or (signals_to_value s) (VDict []) = signals_to_value s.
Proof. reflexivity. Qed.

Lemma html_escape_texts (l : list string) :
  exists rs, map_result py_html_escape (map VStr l) = Ok rs.
Proof.
  apply map_result_total. intros x I. apply in_map_iff in I.
  destruct I as (s & <- & _). cbn; eauto.
Qed.

Lemma render_report_html_total (run_dir p : string) (md : dict)
  (health_map : list (string * Health.t)) (highlights : Highlights.t)
  (analysis : dict) (loki : Loki.payload) (now : datetime)
  (signals : Signals.t) (reasons : list string) :
  renderable analysis signals reasons ->
  exists html,
    render_report_html run_dir (VStr p) (VDict md) health_map highlights analysis
      loki now = Ok html.
Proof.
  intros (Hf & _ & _ & Hn & Hs & Hr).
  destruct (list_or_nothing_items _ Hf) as (fl & Ef).
  destruct (list_or_nothing_items _ Hn) as (nl & En).
  unfold render_report_html. rewrite Ef, En, Hs, Hr, py_or_signals, py_or_list.
  cbn [py_iter bind]. signal_fields. rewrite !py_or_list. cbn [py_iter bind].
  match goal with
  | |- context [map_result ?f (map check_to_value ?cs)] =>
      destruct (map_result_total f (map check_to_value cs)) as (rows & ->)
  end.
  { intros x I. apply in_map_iff in I. destruct I as (c & <- & _).
    unfold check_to_value. destruct (Check.check_name c); cbn; eauto. }
  cbn [bind].
  destruct (html_escape_texts (Signals.likely_rate_limited_endpoints signals)) as (eps & ->).
  cbn [bind].
  destruct (html_escape_texts reasons) as (rs & ->).
  cbn [bind py_html_escape get_or]. eauto.
Qed.

Lemma section_items_total (l : list value) :
  exists text, section_items (VList l) = Ok text.
Proof. destruct l; cbn; eauto. Qed.

Lemma append_list_total (title : string) (l : list value) :
  exists lines, append_list title (VList l) = Ok lines.
Proof. destruct l; cbn; eauto. Qed.

Lemma render_report_markdown_total (run_dir p : string) (md : dict)
  (health_map : list (string * Health.t)) (highlights : Highlights.t)
  (analysis : dict) (now : datetime) (signals : Signals.t) (reasons : list string) :
  renderable analysis signals reasons ->
  exists text,
    render_report_markdown run_dir (VStr p) (VDict md) health_map highlights analysis
      now = Ok text.
Proof.
  intros (Hf & Hb & Hc & Hn & Hs & Hr).
  destruct (list_or_nothing_items _ Hf) as (fl & Ef).
  destruct (list_or_nothing_items _ Hb) as (bl & Eb).
  destruct (list_or_nothing_items _ Hc) as (cl & Ec).
  destruct (list_or_nothing_items _ Hn) as (nl & En).
  unfold render_report_markdown. rewrite Ef, Eb, Ec, En, Hs, Hr, py_or_signals, py_or_list.
  cbn [get_or bind].
  destruct (section_items_total (map VStr reasons)) as (rt & ->). cbn [bind].
  signal_fields.
  assert (C : exists text, _fmt_rate_limit_checks_md (signals_to_value signals) = Ok text).
  { unfold _fmt_rate_limit_checks_md. signal_fields. rewrite py_or_list.
    destruct (truthy _); cbn [negb]; [| eauto]. cbn [py_iter bind].
    match goal with
    | |- context [map_result ?f (map check_to_value ?cs)] =>
        destruct (map_result_total f (map check_to_value cs)) as (rows & ->)
    end.
    { intros x I. apply in_map_iff in I. destruct I as (c & <- & _).
      unfold check_to_value. destruct (Check.check_name c); cbn; eauto. }
    cbn [bind]. eauto. }
  destruct C as (ct & C). unfold signals_to_value in C. rewrite C. cbn [bind].
  rewrite py_or_list.
  destruct (section_items_total (map VStr (Signals.likely_rate_limited_endpoints signals)))
    as (et & ->). cbn [bind].
  destruct (section_items_total fl) as (ft & ->). cbn [bind].
  destruct (section_items_total bl) as (bt & ->). cbn [bind].
  destruct (section_items_total cl) as (ct' & ->). cbn [bind].
  destruct (section_items_total nl) as (nt & ->). cbn [bind].
  eauto.
Qed.

Lemma render_report_text_total (run_dir p : string) (md : dict)
  (health_map : list (string * Health.t)) (highlights : Highlights.t)
  (analysis : dict) (now : datetime) (signals : Signals.t) (reasons : list string) :
  renderable analysis signals reasons ->
  exists text,
    render_report_text run_dir (VStr p) (VDict md) health_map highlights analysis
      now = Ok text.
Proof.
  intros (Hf & Hb & Hc & Hn & Hs & Hr).
  destruct (list_or_nothing_items _ Hf) as (fl & Ef).
  destruct (list_or_nothing_items _ Hb) as (bl & Eb).
  destruct (list_or_nothing_items _ Hc) as (cl & Ec).
  destruct (list_or_nothing_items _ Hn) as (nl & En).
  unfold render_report_text. rewrite Ef, Eb, Ec, En, Hs, Hr, py_or_signals, py_or_list.
  cbn [py_iter bind]. signal_fields. rewrite !py_or_list. cbn [py_iter bind].
  match goal with
  | |- context [map_result ?f (map check_to_value ?cs)] =>
      destruct (map_result_total f (map check_to_value cs)) as (rows & ->)
  end.
  { intros x I. apply in_map_iff in I. destruct I as (c & <- & _).
    unfold check_to_value. destruct (Check.check_name c); cbn; eauto. }
  cbn [bind].
  destruct (append_list_total "Findings" fl) as (ft & ->). cbn [bind].
  destruct (append_list_total "Bottlenecks" bl) as (bt & ->). cbn [bind].
  destruct (append_list_total "Likely Causes" cl) as (ct' & ->). cbn [bind].
  destruct (append_list_total "Next Actions" nl) as (nt & ->). cbn [bind].
  eauto.
Qed.




(** X18. The three renderers lay out, without raising, every analysis whose
    findings, bottlenecks, likely causes and next actions are lists (or
    absent or empty), whose [rate_limit_signals] is a bundle of the
    signal builder and whose [deterministic_reasons] are texts, for a
    profile that is a text and metadata that are a dictionary. *)
Theorem reports_render :
  forall (run_dir p : string) (md : dict) (health_map : list (string * Health.t))
         (highlights : Highlights.t) (analysis : dict) (loki : Loki.payload)
         (now_html now_markdown now_text : datetime)
         (signals : Signals.t) (reasons : list string),
    renderable analysis signals reasons ->
    exists html markdown text,
      render_report_html run_dir (VStr p) (VDict md) health_map highlights analysis
        loki now_html = Ok html /\
      render_report_markdown run_dir (VStr p) (VDict md) health_map highlights analysis
        now_markdown = Ok markdown /\
      render_report_text run_dir (VStr p) (VDict md) health_map highlights analysis
        now_text = Ok text.
Proof.
  intros run_dir p md health_map highlights analysis loki n1 n2 n3 signals reasons H.
  destruct (render_report_html_total run_dir p md health_map highlights analysis loki n1
              signals reasons H) as (html & Hh).
  destruct (render_report_markdown_total run_dir p md health_map highlights analysis n2
              signals reasons H) as (markdown & Hm).
  destruct (render_report_text_total run_dir p md health_map highlights analysis n3
              signals reasons H) as (text & Ht).
  exists html, markdown, text. auto.
Qed.

Lemma reports_render_witness :
  exists html markdown text,
    render_report_html "tmp/stress-runs/low-1" (VStr "low") (VDict []) all_ok no_highlights
      laid_out_analysis no_logs sample_now = Ok html /\
    render_report_markdown "tmp/stress-runs/low-1" (VStr "low") (VDict []) all_ok no_highlights
      laid_out_analysis sample_now = Ok markdown /\
    render_report_text "tmp/stress-runs/low-1" (VStr "low") (VDict []) all_ok no_highlights
      laid_out_analysis sample_now = Ok text.
Proof.
  apply (reports_render "tmp/stress-runs/low-1" "low" [] all_ok no_highlights
           laid_out_analysis no_logs sample_now sample_now sample_now sample_signals
           [ "http_req_failed rate 0.1200 exceeds profile threshold 0.08";
             "Write check 'create post status 201' pass rate 5.00% < 20%" ]).
  repeat split; vm_compute; reflexivity.
Defined.



(* ===================================================================== *)
(** ** Per-check counts: which checks are extracted *)
(* ===================================================================== *)

Lemma checks_loop (items : list (string * value)) :
  forall acc acc' : list (string * Check.t),
    for_each items
      (fun result '(name, data) =>
         match data with
         | VDict d => rec <- check_record d ;; Ok (assoc_set result name rec)
         | _ => Ok result
         end)
      acc = Ok acc' ->
    (forall n r, assoc_get acc' n = Some r ->
       assoc_get acc n = Some r \/
       exists d, In (n, VDict d) items /\ check_record d = Ok r) /\
    (forall n, assoc_get acc n <> None -> assoc_get acc' n <> None) /\
    (forall n d, In (n, VDict d) items -> assoc_get acc' n <> None).
Proof.
  induction items as [| [name data] items IH]; intros acc acc' H.
  - injection H as <-. split; [auto | split; [auto | intros n d []]].
  - cbn [for_each] in H. bind_inv H. rename a into acc1, Ha into Hstep.
    destruct (IH _ _ H) as (I1 & I2 & I3).
    assert (S1 : forall n r, assoc_get acc1 n = Some r ->
                   assoc_get acc n = Some r \/
                   exists d, (n, VDict d) = (name, data) /\ check_record d = Ok r).
    { destruct data as [| | | | | | d]; try (injection Hstep as <-; auto).
      bind_inv Hstep. injection Hstep as <-.
      intros n r. rewrite assoc_get_set.
      destruct (String.eqb name n) eqn:E; [| auto].
      apply String.eqb_eq in E; subst n. intros [= <-]. right; eauto. }
    assert (S2 : forall n, assoc_get acc n <> None -> assoc_get acc1 n <> None).
    { destruct data as [| | | | | | d]; try (injection Hstep as <-; auto).
      bind_inv Hstep. injection Hstep as <-.
      intros n. rewrite assoc_get_set. destruct (String.eqb name n); [discriminate | auto]. }
    assert (S3 : forall d, data = VDict d -> assoc_get acc1 name <> None).
    { intros d ->. bind_inv Hstep. injection Hstep as <-.
      rewrite assoc_get_set_same. discriminate. }
    split; [| split].
    + intros n r Hn. destruct (I1 n r Hn) as [Hn1 | (d & Hi & Hd)].
      * destruct (S1 n r Hn1) as [Hacc | (d & E & Hd)]; [auto |].
        right; exists d; split; [left; symmetry; exact E | exact Hd].
      * right; exists d; split; [right; exact Hi | exact Hd].
    + intros n Hn. apply I2, S2, Hn.
    + intros n d [[= E1 E2] | Hi].
      * subst n. apply I2. apply (S3 d E2).
      * apply (I3 n d Hi).
Qed.

(** X20. The checks extracted from a summary are those of [root_group.checks]
    whose record is an object: each extracted record is the record of
    an object listed under that name, every name listed with an object
    is extracted, and a name listed only with other values (or a
    [checks] that is an array) yields nothing. *)
Theorem root_checks_extracted :
  forall (summary : value) (per_check : list (string * Check.t)),
    _extract_root_group_checks summary = Ok per_check ->
    (forall name rec, assoc_get per_check name = Some rec ->
       exists d, In (name, VDict d) (declared_checks summary) /\ check_record d = Ok rec) /\
    (forall name d, In (name, VDict d) (declared_checks summary) ->
       assoc_get per_check name <> None) /\
    (forall name, (forall d, ~ In (name, VDict d) (declared_checks summary)) ->
       assoc_get per_check name = None).
Proof.
  intros summary per_check H. unfold _extract_root_group_checks in H.
  bind_inv H. rename a into root0, Ha into Hroot.
  bind_inv H. rename a into checks0, Ha into Hchecks.
  destruct summary as [| | | | | | sd]; try discriminate Hroot.
  injection Hroot as <-.
  unfold declared_checks.
  destruct (py_or (dict_get sd "root_group") (VDict [])) as [| | | | | | rd];
    try discriminate Hchecks.
  injection Hchecks as <-.
  destruct (py_or (dict_get rd "checks") (VDict [])) as [| | | | | | items];
    try (injection H as <-;
         split; [intros ? ?; discriminate | split; [intros ? ? [] | intros; reflexivity]]).
  destruct (checks_loop items [] per_check H) as (I1 & _ & I3).
  split; [| split].
  - intros name rec Hn. destruct (I1 name rec Hn) as [Hn0 | Hd]; [discriminate Hn0 | exact Hd].
  - exact I3.
  - intros name Hnone. destruct (assoc_get per_check name) as [r |] eqn:E; [| reflexivity].
    destruct (I1 name r E) as [Hn0 | (d & Hi & _)]; [discriminate Hn0 |].
    exfalso; exact (Hnone d Hi).
Qed.

Lemma root_checks_extracted_witness :
  (forall name rec,
     assoc_get [("comment status ok", Check.mk (VInt 9) (VInt 1)
                                        (match int_truediv 9 10 with
                                         | Ok f => f
                                         | Raise _ => fzero
                                         end) None)] name = Some rec ->
     exists d, In (name, VDict d) (declared_checks summary_with_odd_check) /\
               check_record d = Ok rec) /\
  (forall name d, In (name, VDict d) (declared_checks summary_with_odd_check) ->
     assoc_get [("comment status ok", Check.mk (VInt 9) (VInt 1)
                                        (match int_truediv 9 10 with
                                         | Ok f => f
                                         | Raise _ => fzero
                                         end) None)] name <> None) /\
  (forall name, (forall d, ~ In (name, VDict d) (declared_checks summary_with_odd_check)) ->
     assoc_get [("comment status ok", Check.mk (VInt 9) (VInt 1)
                                        (match int_truediv 9 10 with
                                         | Ok f => f
                                         | Raise _ => fzero
                                         end) None)] name = None).
Proof.
  apply (root_checks_extracted summary_with_odd_check).
  vm_compute; reflexivity.
Defined.

(** A summary that lists the checks of the root group in an array gives
    no check at all, so no write check can be found in it. *)
Example check_array_gives_nothing :
  _extract_root_group_checks summary_with_check_array = Ok [] /\
  option_map Signals.critical_write_checks
    (match build_rate_limit_signals summary_with_check_array (VStr "low") no_logs with
     | Ok s => Some s
     | Raise _ => None
     end) = Some [].
Proof. split; vm_compute; reflexivity. Qed.

(* ===================================================================== *)
(** ** The persisted analysis *)
(* ===================================================================== *)

Lemma policy_frame (analysis out : dict) (signals : Signals.t) (profile : value)
  (k : string) :
  apply_status_policy analysis signals profile = Ok out ->
  ~ In k [ "findings"; "deterministic_status"; "deterministic_reasons";
           "rate_limit_signals"; "status" ] ->
  assoc_get out k = assoc_get analysis k.
Proof.
  intros H Hk.
  assert (N : forall k', In k' [ "findings"; "deterministic_status"; "deterministic_reasons";
                                 "rate_limit_signals"; "status" ] -> k <> k').
  { intros k' I ->; exact (Hk I). }
  unfold apply_status_policy in H. bind_inv H. destruct a as [d reasons].
  bind_inv H. rename a into m. bind_inv H. rename a into a1, Ha1 into H1.
  injection H as <-.
  rewrite !assoc_get_set_other by (apply N; simpl; auto 6).
  destruct (_ && _) in H1.
  - bind_inv H1. injection H1 as <-.
    rewrite assoc_get_set_other by (apply N; simpl; auto).
    unfold dict_setdefault. destruct (assoc_get analysis "findings"); [reflexivity |].
    apply assoc_get_set_other, N; simpl; auto.
  - injection H1 as <-; reflexivity.
Qed.

(** X21. What [main] records in the analysis it persists, whether the
    analysis is the model's verdict or the fallback: the health of the
    four sources under [data_source_health], in the order k6,
    prometheus, loki, ollama; the resolved profile, the run directory
    and the generation time, which replace whatever the verdict held
    under these keys; and the signal bundle. Every other key of a
    verdict that is an object (its summary, bottlenecks, likely causes,
    next actions, confidence and any further key) is persisted as the
    model gave it. *)
Theorem persisted_analysis_fields :
  forall (args : Args.t) (env : Env.t) (c : Collected.t)
         (health_map : list (string * Health.t)) (analysis : dict),
    analyse args env c = Ok (health_map, analysis) ->
    health_map
    = [ ("k6", Collected.k6_health c); ("prometheus", Collected.prom_health c);
        ("loki", Collected.loki_health c); ("ollama", snd (call_ollama env)) ] /\
    dict_get analysis "data_source_health" = health_map_to_value health_map /\
    dict_get analysis "profile" = Collected.profile c /\
    dict_get analysis "run_dir" = VStr (Args.run_dir args) /\
    dict_get analysis "generated_at" = VStr (isoformat (Env.now_generated_at env)) /\
    (exists signals,
       build_rate_limit_signals (Collected.summary c) (Collected.profile c)
         (Collected.loki_payload c) = Ok signals /\
       dict_get analysis "rate_limit_signals" = signals_to_value signals) /\
    (forall verdict k,
       fst (call_ollama env) = VDict verdict -> verdict <> [] ->
       ~ In k BOOKKEEPING_KEYS ->
       assoc_get analysis k = assoc_get verdict k).
Proof.
  intros args env c health_map analysis H. unfold analyse in H.
  bind_inv H. rename a into signals, Ha into Hs.
  destruct (call_ollama env) as [model_analysis ollama_health].
  bind_inv H. rename a into a1, Ha into H1.
  bind_inv H. rename a into out, Ha into Hp.
  injection H as <- <-.
  unfold py_setitem in H1.
  match type of H1 with
  | match ?x with _ => _ end = _ =>
      destruct x as [| | | | | | d0] eqn:E0; try discriminate H1
  end.
  injection H1 as <-.
  assert (F : forall k, ~ In k [ "findings"; "deterministic_status";
                                 "deterministic_reasons"; "rate_limit_signals"; "status" ] ->
                        assoc_get out k = assoc_get _ k)
    by (intros k Hk; exact (policy_frame _ _ _ _ k Hp Hk)).
  split; [reflexivity |].
  unfold dict_get.
  split; [rewrite F by (simpl; intuition discriminate);
          rewrite !assoc_get_set_other by discriminate;
          rewrite assoc_get_set_same; reflexivity |].
  split; [rewrite F by (simpl; intuition discriminate);
          rewrite !assoc_get_set_other by discriminate;
          rewrite assoc_get_set_same; reflexivity |].
  split; [rewrite F by (simpl; intuition discriminate);
          rewrite !assoc_get_set_other by discriminate;
          rewrite assoc_get_set_same; reflexivity |].
  split; [rewrite F by (simpl; intuition discriminate);
          rewrite !assoc_get_set_other by discriminate;
          rewrite assoc_get_set_same; reflexivity |].
  split.
  - exists signals. split; [exact Hs |].
    unfold apply_status_policy in Hp.
    bind_inv Hp. destruct a as [d reasons]. bind_inv Hp. bind_inv Hp.
    injection Hp as <-. rewrite assoc_get_set_other by discriminate.
    rewrite assoc_get_set_same. reflexivity.
  - intros verdict k Hv Hne Hk. cbn [fst] in Hv. subst model_analysis.
    assert (T : truthy (VDict verdict) = true) by (destruct verdict; [contradiction | reflexivity]).
    rewrite T in E0. injection E0 as <-.
    rewrite F by (intros I; apply Hk; unfold BOOKKEEPING_KEYS; simpl in *; intuition).
    rewrite !assoc_get_set_other
      by (intros ->; apply Hk; unfold BOOKKEEPING_KEYS; simpl; auto 10).
    reflexivity.
Qed.

Lemma persisted_analysis_fields_witness :
  dict_get (match analyse sample_args meddling_model
                    (match collect sample_args meddling_model with
                     | Ok c => c
                     | Raise _ =>
                         Collected.mk VNone VNone VNone health_ok no_highlights VNone
                           health_ok no_logs health_ok
                     end) with
            | Ok (_, analysis) => analysis
            | Raise _ => []
            end) "profile" = VStr "low" /\
  dict_get (match analyse sample_args meddling_model
                    (match collect sample_args meddling_model with
                     | Ok c => c
                     | Raise _ =>
                         Collected.mk VNone VNone VNone health_ok no_highlights VNone
                           health_ok no_logs health_ok
                     end) with
            | Ok (_, analysis) => analysis
            | Raise _ => []
            end) "run_dir" = VStr "tmp/stress-runs/low-1".
Proof.
  destruct (persisted_analysis_fields sample_args meddling_model
              (match collect sample_args meddling_model with
               | Ok c => c
               | Raise _ =>
                   Collected.mk VNone VNone VNone health_ok no_highlights VNone
                     health_ok no_logs health_ok
               end)
              (match analyse sample_args meddling_model
                       (match collect sample_args meddling_model with
                        | Ok c => c
                        | Raise _ =>
                            Collected.mk VNone VNone VNone health_ok no_highlights VNone
                              health_ok no_logs health_ok
                        end) with
               | Ok (hm, _) => hm
               | Raise _ => []
               end)
              (match analyse sample_args meddling_model
                       (match collect sample_args meddling_model with
                        | Ok c => c
                        | Raise _ =>
                            Collected.mk VNone VNone VNone health_ok no_highlights VNone
                              health_ok no_logs health_ok
                        end) with
               | Ok (_, analysis) => analysis
               | Raise _ => []
               end))
    as (_ & _ & Hprofile & Hdir & _).
  - vm_compute; reflexivity.
  - split; [exact Hprofile | exact Hdir].
Defined.

(* ===================================================================== *)
(** ** The artifact directory *)
(* ===================================================================== *)

(** *** The order of modification times *)

Lemma float_lt_rank (a b : float) :
  is_nan a = false -> is_nan b = false ->
  (float_lt a b = true <-> rank_lt (float_rank a) (float_rank b)).
Proof.
  unfold float_lt, SFltb, SFcompare, rank_lt, float_rank.
  destruct a as [sa | sa | | sa ma ea], b as [sb | sb | | sb mb eb];
    try discriminate; intros _ _;
    try (destruct sa); try (destruct sb); cbn;
    try (split; [discriminate | lia]); try (split; [lia | reflexivity]);
    try (split; [intros _; lia | reflexivity]).
  - rewrite Pos.compare_cont_spec. cbn [Pos.switch_Eq].
    destruct (Z.compare_spec ea eb); destruct (Pos.compare_spec ma mb); cbn;
      split; try discriminate; try reflexivity; try lia.
  - rewrite Pos.compare_cont_spec. cbn [Pos.switch_Eq].
    destruct (Z.compare_spec ea eb); destruct (Pos.compare_spec ma mb); cbn;
      split; try discriminate; try reflexivity; try lia.
Qed.

Lemma not_newer_rank (a b : Entry.t) :
  is_nan (Entry.st_mtime a) = false -> is_nan (Entry.st_mtime b) = false ->
  (not_newer a b <->
   ~ rank_lt (float_rank (Entry.st_mtime b)) (float_rank (Entry.st_mtime a))).
Proof.
  intros Ha Hb. unfold not_newer.
  pose proof (float_lt_rank _ _ Hb Ha) as R.
  destruct (float_lt (Entry.st_mtime b) (Entry.st_mtime a)); split; intros H.
  - discriminate H.
  - exfalso; apply H, R; reflexivity.
  - intros L; apply R in L; discriminate L.
  - reflexivity.
Qed.

Lemma older_not_newer (a b : Entry.t) :
  is_nan (Entry.st_mtime a) = false -> is_nan (Entry.st_mtime b) = false ->
  float_lt (Entry.st_mtime a) (Entry.st_mtime b) = true -> not_newer a b.
Proof.
  intros Ha Hb H. apply (not_newer_rank a b Ha Hb).
  apply (float_lt_rank _ _ Ha Hb) in H. revert H. unfold rank_lt.
  destruct (float_rank (Entry.st_mtime a)) as [[a1 a2] a3].
  destruct (float_rank (Entry.st_mtime b)) as [[b1 b2] b3]. lia.
Qed.

Lemma not_newer_trans (a b c : Entry.t) :
  is_nan (Entry.st_mtime a) = false -> is_nan (Entry.st_mtime b) = false ->
  is_nan (Entry.st_mtime c) = false ->
  not_newer a b -> not_newer b c -> not_newer a c.
Proof.
  intros Ha Hb Hc Hab Hbc.
  apply (not_newer_rank a b Ha Hb) in Hab. apply (not_newer_rank b c Hb Hc) in Hbc.
  apply (not_newer_rank a c Ha Hc). revert Hab Hbc. unfold rank_lt.
  destruct (float_rank (Entry.st_mtime a)) as [[a1 a2] a3].
  destruct (float_rank (Entry.st_mtime b)) as [[b1 b2] b3].
  destruct (float_rank (Entry.st_mtime c)) as [[c1 c2] c3]. lia.
Qed.

(** *** The sort *)

Lemma insert_by_mtime_perm (x : Entry.t) (l : list Entry.t) :
  Permutation (insert_by_mtime x l) (x :: l).
Proof.
  induction l as [| y r IH]; cbn [insert_by_mtime]; [reflexivity |].
  destruct (float_lt (Entry.st_mtime y) (Entry.st_mtime x)); [| reflexivity].
  rewrite IH. apply perm_swap.
Qed.

Lemma sorted_by_mtime_perm (l : list Entry.t) : Permutation (sorted_by_mtime l) l.
Proof.
  induction l as [| x l IH]; cbn [sorted_by_mtime fold_right]; [reflexivity |].
  rewrite insert_by_mtime_perm. apply perm_skip. exact IH.
Qed.

Lemma insert_by_mtime_sorted (x : Entry.t) (l : list Entry.t) :
  is_nan (Entry.st_mtime x) = false ->
  mtimes_are_numbers l ->
  StronglySorted not_newer l ->
  StronglySorted not_newer (insert_by_mtime x l).
Proof.
  intros Hx Hl Hs. induction Hs as [| y r Hs IH Hy]; cbn [insert_by_mtime].
  - constructor; constructor.
  - inversion Hl as [| ? ? Hny Hr]; subst.
    destruct (float_lt (Entry.st_mtime y) (Entry.st_mtime x)) eqn:E.
    + constructor; [apply IH; exact Hr |].
      apply Forall_forall. intros z Hz.
      apply (Permutation_in _ (insert_by_mtime_perm x r)) in Hz.
      destruct Hz as [<- | Hz].
      * apply older_not_newer; assumption.
      * rewrite Forall_forall in Hy. apply Hy; exact Hz.
    + constructor; [constructor; assumption |].
      constructor; [exact E |].
      apply Forall_forall. intros z Hz.
      rewrite Forall_forall in Hy, Hr.
      apply (not_newer_trans x y z Hx Hny (Hr z Hz)); [exact E | apply Hy; exact Hz].
Qed.

Lemma sorted_by_mtime_sorted (l : list Entry.t) :
  mtimes_are_numbers l -> StronglySorted not_newer (sorted_by_mtime l).
Proof.
  induction l as [| x l IH]; intros H; cbn [sorted_by_mtime fold_right]; [constructor |].
  inversion H as [| ? ? Hx Hl]; subst.
  apply insert_by_mtime_sorted; [exact Hx | | apply IH; exact Hl].
  unfold mtimes_are_numbers in *. rewrite Forall_forall in *.
  intros z Hz. apply Hl. apply (Permutation_in _ (sorted_by_mtime_perm l)). exact Hz.
Qed.

Lemma filter_numbers (f : Entry.t -> bool) (l : list Entry.t) :
  mtimes_are_numbers l -> mtimes_are_numbers (filter f l).
Proof.
  unfold mtimes_are_numbers. rewrite !Forall_forall.
  intros H x Hx. apply filter_In in Hx. apply H, Hx.
Qed.

(** The last of a sorted list is not older than any of its elements. *)
Lemma sorted_last_newest (l : list Entry.t) (z : Entry.t) (r : list Entry.t) :
  mtimes_are_numbers l ->
  StronglySorted not_newer l ->
  rev l = z :: r ->
  forall x, In x l -> not_newer x z.
Proof.
  intros Hn Hs Hr x Hx.
  assert (E : l = (rev r ++ [z])%list).
  { rewrite <- (rev_involutive l), Hr. reflexivity. }
  subst l. clear Hr.
  apply in_app_or in Hx. destruct Hx as [Hx | [E | []]]; [| subst z].
  - induction (rev r) as [| y q IH]; [destruct Hx |].
    cbn [app] in Hs, Hn. inversion Hs as [| ? ? Hs' Hy]; subst.
    inversion Hn as [| ? ? Hny Hn']; subst.
    destruct Hx as [<- | Hx].
    + rewrite Forall_forall in Hy. apply Hy. apply in_or_app; right; left; reflexivity.
    + apply IH; assumption.
  - unfold mtimes_are_numbers in Hn. rewrite Forall_forall in Hn.
    assert (Hz : is_nan (Entry.st_mtime x) = false)
      by (apply Hn, in_or_app; right; left; reflexivity).
    apply (not_newer_rank x x Hz Hz). unfold rank_lt.
    destruct (float_rank (Entry.st_mtime x)) as [[a1 a2] a3]. lia.
Qed.

(** X22. [list_run_dirs] returns an empty list for a missing artifact
    directory; for a directory it returns exactly its sub-directories
    (the other entries are left out), ordered so that no run directory
    is older than one listed before it. *)
Theorem list_run_dirs_sorted :
  forall entries : list Entry.t,
    mtimes_are_numbers entries ->
    list_run_dirs Missing = Done [] /\
    exists run_dirs,
      list_run_dirs (Directory entries) = Done run_dirs /\
      Permutation run_dirs (filter Entry.is_dir entries) /\
      StronglySorted not_newer run_dirs.
Proof.
  intros entries H. split; [reflexivity |].
  eexists; split; [reflexivity |]. split.
  - apply sorted_by_mtime_perm.
  - apply sorted_by_mtime_sorted, filter_numbers, H.
Qed.

Lemma list_run_dirs_sorted_witness :
  list_run_dirs Missing = Done [] /\
  exists run_dirs,
    list_run_dirs (Directory sample_entries) = Done run_dirs /\
    Permutation run_dirs (filter Entry.is_dir sample_entries) /\
    StronglySorted not_newer run_dirs.
Proof.
  apply (list_run_dirs_sorted sample_entries).
  repeat constructor.
Defined.

(** X23. The run directory of a report. A [--run-dir] argument decides alone:
    it is the run directory when it exists, and the program exits with
    "Run directory not found" when it does not. Without it the program
    takes the sub-directory of the artifact directory that was modified
    last (none of the others is newer), and exits when there is none. *)
Theorem resolve_run_dir_latest :
  forall (run_dir : string) (run_dir_exists : bool) (artifact_dir : string)
         (entries : list Entry.t),
    mtimes_are_numbers entries ->
    (run_dir <> EmptyString ->
     forall root,
       resolve_run_dir run_dir run_dir_exists artifact_dir root
       = if run_dir_exists then Done run_dir
         else Failed (SystemExit ("Run directory not found: " ++ run_dir))) /\
    (filter Entry.is_dir entries = [] ->
     resolve_run_dir EmptyString run_dir_exists artifact_dir (Directory entries)
     = Failed (SystemExit
         "No run directories found. Execute make stress-low/medium/high/extreme/insane first.")) /\
    (filter Entry.is_dir entries <> [] ->
     exists latest,
       In latest entries /\ Entry.is_dir latest = true /\
       resolve_run_dir EmptyString run_dir_exists artifact_dir (Directory entries)
       = Done (path_join artifact_dir (Entry.name latest)) /\
       forall other, In other entries -> Entry.is_dir other = true ->
                     not_newer other latest).
Proof.
  intros run_dir run_dir_exists artifact_dir entries H.
  split; [| split].
  - intros Hne root. unfold resolve_run_dir.
    destruct (String.eqb run_dir EmptyString) eqn:E;
      [apply String.eqb_eq in E; contradiction |].
    destruct run_dir_exists; reflexivity.
  - intros He. unfold resolve_run_dir, list_run_dirs. rewrite He. reflexivity.
  - intros Hne. unfold resolve_run_dir, list_run_dirs. cbn [String.eqb negb].
    pose proof (sorted_by_mtime_perm (filter Entry.is_dir entries)) as P.
    pose proof (sorted_by_mtime_sorted _ (filter_numbers Entry.is_dir entries H)) as S.
    assert (N : mtimes_are_numbers (sorted_by_mtime (filter Entry.is_dir entries))).
    { unfold mtimes_are_numbers. rewrite Forall_forall. intros x Hx.
      apply (Permutation_in _ P) in Hx.
      pose proof (filter_numbers Entry.is_dir entries H) as F.
      unfold mtimes_are_numbers in F. rewrite Forall_forall in F. apply F, Hx. }
    destruct (rev (sorted_by_mtime (filter Entry.is_dir entries))) as [| latest r] eqn:R.
    + exfalso. apply Hne.
      apply (f_equal (@rev Entry.t)) in R. rewrite rev_involutive in R. cbn in R.
      rewrite R in P. apply Permutation_nil in P. exact P.
    + assert (I : In latest (filter Entry.is_dir entries)).
      { apply (Permutation_in _ P). apply in_rev. rewrite R. left; reflexivity. }
      apply filter_In in I. destruct I as [I1 I2].
      exists latest. repeat split; auto.
      intros other Ho Hd.
      apply (sorted_last_newest _ latest r N S R).
      apply (Permutation_in _ (Permutation_sym P)). apply filter_In; auto.
Qed.

Lemma resolve_run_dir_latest_witness :
  exists latest,
    In latest sample_entries /\ Entry.is_dir latest = true /\
    resolve_run_dir EmptyString false "tmp/stress-runs" (Directory sample_entries)
    = Done (path_join "tmp/stress-runs" (Entry.name latest)) /\
    forall other, In other sample_entries -> Entry.is_dir other = true ->
                  not_newer other latest.
Proof.
  apply (resolve_run_dir_latest EmptyString false "tmp/stress-runs" sample_entries).
  - repeat constructor.
  - discriminate.
Defined.

Example latest_run_example :
  resolve_run_dir EmptyString false "tmp/stress-runs" (Directory sample_entries)
  = Done "tmp/stress-runs/20261103-high" /\
  resolve_run_dir "tmp/stress-runs/gone" false "tmp/stress-runs" (Directory sample_entries)
  = Failed (SystemExit "Run directory not found: tmp/stress-runs/gone") /\
  resolve_run_dir EmptyString false "tmp/stress-runs" NotADirectory
  = Failed NotADirectoryError.
Proof. repeat split; vm_compute; reflexivity. Qed.

(** *** The index *)



Lemma index_entries_abort (run_dirs : list Entry.t) (bad : Entry.t) :
  In bad run_dirs -> Entry.has_report_html bad = true ->
  analysis_is_object bad = false ->
  forall acc,
    for_each run_dirs
      (fun entries run_dir =>
         if negb (Entry.has_report_html run_dir) then Ok entries
         else
           let analysis := read_json_file (Entry.analysis_json run_dir) (VDict []) in
           status <- get_or analysis "status" (VStr "UNKNOWN") ;;
           summary <- get_or analysis "summary" (VStr EmptyString) ;;
           Ok (entries +++ [(run_dir, status, summary)]))
      acc
    = Raise AttributeError.
Proof.
  induction run_dirs as [| e l IH]; intros Hin Hh Hb acc; [destruct Hin |].
  cbn [for_each].
  destruct (Entry.has_report_html e) eqn:E; cbn [negb].
  - cbv zeta. unfold analysis_is_object in Hb.
    destruct (read_json_file (Entry.analysis_json e) (VDict [])) eqn:R;
      try reflexivity.
    cbn [get_or bind]. destruct Hin as [-> | Hin]; [rewrite R in Hb; discriminate Hb |].
    apply IH; assumption.
  - cbn [bind]. destruct Hin as [-> | Hin]; [congruence |].
    apply IH; assumption.
Qed.



(** X25. One run whose [ai-analysis.json] holds a JSON value other than an
    object (and that has a [report.html]) aborts the index with
    [AttributeError]: no index is written, whatever the other runs
    hold. *)
Theorem index_aborts_on_odd_analysis :
  forall (entries : list Entry.t) (bad : Entry.t),
    In bad entries ->
    Entry.is_dir bad = true ->
    Entry.has_report_html bad = true ->
    analysis_is_object bad = false ->
    build_index (Directory entries) = Failed (Python AttributeError).
Proof.
  intros entries bad I D Hh Hb.
  unfold build_index, list_run_dirs, index_entries.
  rewrite (index_entries_abort _ bad); auto.
  apply (Permutation_in _ (Permutation_sym (sorted_by_mtime_perm _))).
  apply filter_In; auto.
Qed.

Lemma index_aborts_on_odd_analysis_witness :
  build_index (Directory broken_entries) = Failed (Python AttributeError).
Proof.
  apply (index_aborts_on_odd_analysis broken_entries
           (Entry.mk "20261104-odd" true f_30 true false false (Some (VList []))));
    try reflexivity.
  unfold broken_entries. apply in_or_app. right. left. reflexivity.
Defined.

(** *** Escaped text *)



Example index_example :
  build_index (Directory sample_entries)
  = Done (join newline
            (INDEX_HEAD +++
             [ "<tr><td>20261101-low</td><td>HEALTHY</td><td>&lt;b&gt;fine&lt;/b&gt;</td><td><a href='20261101-low/report.html'>html</a> | <a href='20261101-low/report.md'>md</a> | <a href='20261101-low/report.txt'>txt</a></td></tr>";
               "<tr><td>20261103-high</td><td>CRITICAL</td><td>p95 &gt; 2s</td><td><a href='20261103-high/report.html'>html</a> | <a href='20261103-high/report.md'>md</a></td></tr>" ] +++
             INDEX_TAIL)).
Proof. vm_compute; reflexivity. Qed.

(* ===================================================================== *)
(** ** The model's reply *)
(* ===================================================================== *)

Lemma through_last_brace_none (s : string) :
  without_char 125 s = true -> through_last_brace s = None.
Proof.
  unfold without_char. induction s as [| c s IH]; cbn [all_chars through_last_brace];
    [reflexivity |].
  intros H. apply andb_true_iff in H. destruct H as [Hc Hs].
  rewrite (IH Hs). apply negb_true_iff in Hc. rewrite Hc. reflexivity.
Qed.

Lemma through_last_brace_app (a b : string) (t : string) :
  through_last_brace b = Some t -> through_last_brace (a ++ b) = Some (a ++ t).
Proof.
  intros H. induction a as [| c a IH]; cbn [String.append through_last_brace];
    [exact H |].
  rewrite IH. reflexivity.
Qed.

Lemma through_last_brace_closing (body post : string) :
  without_char 125 post = true ->
  through_last_brace (body ++ "}" ++ post) = Some (body ++ "}").
Proof.
  intros H. apply through_last_brace_app.
  cbn [String.append through_last_brace]. rewrite (through_last_brace_none post H).
  reflexivity.
Qed.

Lemma brace_span_skip (pre rest : string) :
  without_char 123 pre = true -> brace_span (pre ++ rest) = brace_span rest.
Proof.
  unfold without_char. induction pre as [| c pre IH];
    cbn [all_chars String.append brace_span]; [reflexivity |].
  intros H. apply andb_true_iff in H. destruct H as [Hc Hs].
  apply negb_true_iff in Hc. rewrite Hc. apply IH, Hs.
Qed.

(** The group the pattern finds in a text that holds braces: the text
    from its first opening brace to its last closing brace. *)
Lemma brace_span_found (pre body post : string) :
  without_char 123 pre = true ->
  without_char 125 post = true ->
  brace_span (pre ++ "{" ++ body ++ "}" ++ post) = Some ("{" ++ body ++ "}").
Proof.
  intros Hpre Hpost. rewrite (brace_span_skip pre _ Hpre).
  change ("{" ++ body ++ "}" ++ post) with (String "{" (body ++ "}" ++ post)).
  cbn [brace_span]. change (code "{" =? 123) with true. cbn iota.
  rewrite (through_last_brace_closing body post Hpost). reflexivity.
Qed.

(** X27. A reply that wraps braces in prose. When the reply as a whole is
    not JSON, the parser reads the text from the first opening brace to
    the last closing brace: the verdict is what [json.loads] makes of
    that group, and the empty object when the group is not JSON
    either. *)
Theorem prose_around_object :
  forall (json_loads : string -> option value) (pre body post : string),
    without_char 123 pre = true ->
    without_char 125 post = true ->
    strip (pre ++ "{" ++ body ++ "}" ++ post) = pre ++ "{" ++ body ++ "}" ++ post ->
    json_loads (pre ++ "{" ++ body ++ "}" ++ post) = None ->
    parse_model_json json_loads (pre ++ "{" ++ body ++ "}" ++ post)
    = match json_loads ("{" ++ body ++ "}") with
      | Some v => v
      | None => VDict []
      end.
Proof.
  intros json_loads pre body post Hpre Hpost Hstrip Hwhole.
  unfold parse_model_json. rewrite Hstrip, Hwhole.
  rewrite (brace_span_found pre body post Hpre Hpost).
  destruct (String.eqb _ EmptyString) eqn:E; [| reflexivity].
  apply String.eqb_eq in E. exfalso.
  destruct pre; discriminate E.
Qed.

Lemma prose_around_object_witness :
  parse_model_json verdict_only
    ("Here is the verdict: " ++ "{" ++
     (dquote ++ "status" ++ dquote ++ ": " ++ dquote ++ "HEALTHY" ++ dquote) ++
     "}" ++ " (end)")
  = match verdict_only ("{" ++ (dquote ++ "status" ++ dquote ++ ": " ++ dquote ++
                                "HEALTHY" ++ dquote) ++ "}") with
    | Some v => v
    | None => VDict []
    end.
Proof.
  apply (prose_around_object verdict_only "Here is the verdict: "
           (dquote ++ "status" ++ dquote ++ ": " ++ dquote ++ "HEALTHY" ++ dquote)
           " (end)"); reflexivity.
Defined.


Example reply_examples :
  parse_model_json verdict_only ("  " ++ verdict_text ++ newline)
  = VDict [("status", VStr "HEALTHY")] /\
  parse_model_json verdict_only "I cannot answer that." = VDict [] /\
  parse_model_json verdict_only "} {" = VDict [] /\
  parse_model_json verdict_only (newline ++ "  ") = VDict [].
Proof. repeat split; vm_compute; reflexivity. Qed.

(* ===================================================================== *)
(** ** Deterministic policy and signal bundle: invariants *)
(* ===================================================================== *)

Lemma policy_check_fold_healthy (cs : list Check.t) (st : string * list string) :
  (fst st = HEALTHY -> snd st = []) ->
  fst (fold_left policy_check_step cs st) = HEALTHY ->
  snd (fold_left policy_check_step cs st) = [].
Proof.
  revert st; induction cs as [| c cs IH]; simpl; intros st H; [exact H |].
  apply IH. unfold policy_check_step.
  destruct (float_lt (Check.pass_rate c) f_0_20); simpl; [| exact H].
  unfold HEALTHY, CRITICAL; discriminate.
Qed.

(** X29. The deterministic status and its reasons go together: the status is
    CRITICAL exactly when there is at least one reason, and HEALTHY
    exactly when there is none; no other status is ever computed. *)
Theorem critical_iff_reasons :
  forall (signals : Signals.t) (profile : value) (d : string) (reasons : list string),
    deterministic_policy signals profile = Ok (d, reasons) ->
    (d = CRITICAL <-> reasons <> []) /\
    (d = HEALTHY <-> reasons = []) /\
    (d = CRITICAL \/ d = HEALTHY).
Proof.
  intros signals profile d reasons H.
  pose proof (deterministic_policy_status _ _ _ _ H) as Hd.
  pose proof (critical_has_reason signals profile reasons) as Hc.
  assert (Hh : d = HEALTHY -> reasons = []).
  { intros ->. unfold deterministic_policy in H. bind_inv H. injection H as H.
    match type of H with fold_left _ _ ?st = _ =>
      pose proof (policy_check_fold_healthy (Signals.critical_write_checks signals) st) as P;
      rewrite H in P; simpl in P; apply P; [| reflexivity]
    end.
    destruct (Signals.http_req_failed_rate signals) as [fr |]; simpl; [| reflexivity].
    destruct (float_gt fr a); simpl; [| reflexivity].
    unfold HEALTHY, CRITICAL; discriminate. }
  split; [| split].
  - split.
    + intros ->. apply Hc. exact H.
    + intros Hr. destruct Hd as [-> | ->]; [| reflexivity].
      exfalso. apply Hr, Hh. reflexivity.
  - split; [exact Hh |].
    intros ->. destruct Hd as [-> | ->]; [reflexivity |].
    exfalso. apply (Hc H). reflexivity.
  - destruct Hd; auto.
Qed.

Lemma critical_iff_reasons_witness :
  (CRITICAL = CRITICAL <->
   [ "http_req_failed rate 0.1200 exceeds profile threshold 0.08";
     "Write check 'create post status 201' pass rate 5.00% < 20%" ] <> []) /\
  (CRITICAL = HEALTHY <->
   [ "http_req_failed rate 0.1200 exceeds profile threshold 0.08";
     "Write check 'create post status 201' pass rate 5.00% < 20%" ] = []) /\
  (CRITICAL = CRITICAL \/ CRITICAL = HEALTHY).
Proof.
  apply (critical_iff_reasons sample_signals (VStr "low")).
  vm_compute; reflexivity.
Defined.

Lemma named_records_names (per_check : list (string * Check.t)) (names : list string) :
  map Check.check_name (flat_map (named_record per_check) names)
  = map Some (filter (has_counts per_check) names).
Proof.
  induction names as [| n names IH]; cbn [flat_map filter map]; [reflexivity |].
  rewrite map_app, IH. unfold named_record, has_counts.
  destruct (assoc_get per_check n); reflexivity.
Qed.

(** X30. The write checks of the signal bundle are the canonical write
    checks that have counts in the summary, each once, named, and in the
    canonical order whatever the order of the summary: there are at most
    four, and the inferred endpoints are at most as many. *)
Theorem write_checks_in_canonical_order :
  forall (summary profile : value) (loki : Loki.payload) (signals : Signals.t),
    build_rate_limit_signals summary profile loki = Ok signals ->
    exists per_check,
      _extract_root_group_checks summary = Ok per_check /\
      map Check.check_name (Signals.critical_write_checks signals)
      = map Some (filter (has_counts per_check) CANONICAL_WRITE_CHECKS) /\
      (List.length (Signals.critical_write_checks signals) <= 4)%nat /\
      (List.length (Signals.likely_rate_limited_endpoints signals)
       <= List.length (Signals.critical_write_checks signals))%nat.
Proof.
  intros summary profile loki signals H.
  destruct (build_rate_limit_signals_inv _ _ _ _ H)
    as (fr & dec & thr & pc & _ & _ & _ & Hpc & _ & _ & _ & Hcw & Hep).
  exists pc. split; [exact Hpc |].
  assert (N : map Check.check_name (Signals.critical_write_checks signals)
              = map Some (filter (has_counts pc) CANONICAL_WRITE_CHECKS))
    by (rewrite Hcw; apply named_records_names).
  split; [exact N |].
  assert (L : List.length (Signals.critical_write_checks signals)
              = List.length (filter (has_counts pc) CANONICAL_WRITE_CHECKS))
    by (rewrite <- (length_map Check.check_name), N, length_map; reflexivity).
  split.
  - rewrite L. apply (filter_length_le (has_counts pc) CANONICAL_WRITE_CHECKS).
  - rewrite L, Hep. unfold endpoints_of, mem, severe_name, has_counts, CANONICAL_WRITE_CHECKS.
    cbn [filter].
    destruct (assoc_get pc "create post status 201") as [r1 |];
      [destruct (severely_constrained r1) |];
      (destruct (assoc_get pc "comment status ok") as [r2 |];
       [destruct (severely_constrained r2) |]);
      (destruct (assoc_get pc "friend request status acceptable") as [r3 |];
       [destruct (severely_constrained r3) |]);
      (destruct (assoc_get pc "dm send status acceptable") as [r4 |];
       [destruct (severely_constrained r4) |]);
      cbn; lia.
Qed.

Lemma write_checks_in_canonical_order_witness :
  exists per_check,
    _extract_root_group_checks sample_summary = Ok per_check /\
    map Check.check_name (Signals.critical_write_checks sample_signals)
    = map Some (filter (has_counts per_check) CANONICAL_WRITE_CHECKS) /\
    (List.length (Signals.critical_write_checks sample_signals) <= 4)%nat /\
    (List.length (Signals.likely_rate_limited_endpoints sample_signals)
     <= List.length (Signals.critical_write_checks sample_signals))%nat.
Proof.
  apply (write_checks_in_canonical_order sample_summary (VStr "low") no_logs).
  vm_compute; reflexivity.
Defined.
